(** * OpenEdu MCP server: a shallow embedding of the book model, the dispatch
    layer, the fallback content and the three infrastructure services.

  Python values are modelled as follows.
  - [str] is [string]; one [ascii] stands for one code point below 256
    (the Latin-1 range), which is where [str.lower] and [str.strip] are
    reproduced character by character.
  - [int] is [Z], [float] is the primitive binary64 [float].
  - [dict] is an association list in insertion order, [list] is [list].
  - a raised exception is the [Fail] branch of [Outcome].
  - an object of the dataclass [Book] is a [Book.Object.t], with any value
    in the fields that Python does not check; the methods that compute on
    the fields are written on [Book.Book], the object at the declared types
    of its fields. *)

From Stdlib Require Import ZArith Floats List Bool Ascii String DecimalString.
From stdpp Require Import gmap strings list fin_maps.

Set Warnings "-register-all,-inexact-float".
Open Scope string_scope.
Open Scope list_scope.

(** ** Python strings *)

Module PyStr.

(** [c.isspace()] for a code point below 256. *)
Definition isspace (c : ascii) : bool :=
  let n := nat_of_ascii c in
  ((9 <=? n) && (n <=? 13))%nat || ((28 <=? n) && (n <=? 32))%nat
  || (n =? 133)%nat || (n =? 160)%nat.

Fixpoint lstrip (s : string) : string :=
  match s with
  | EmptyString => EmptyString
  | String c s' => if isspace c then lstrip s' else s
  end.

Fixpoint rstrip (s : string) : string :=
  match s with
  | EmptyString => EmptyString
  | String c s' =>
      match rstrip s' with
      | EmptyString => if isspace c then EmptyString else String c EmptyString
      | r => String c r
      end
  end.

(** Every character of [s] is whitespace ([s] may be empty). *)
Fixpoint all_space (s : string) : bool :=
  match s with
  | EmptyString => true
  | String c s' => isspace c && all_space s'
  end.

(** [s.strip()] *)
Definition strip (s : string) : string := rstrip (lstrip s).

(** Truth value of a string: the empty string is false. *)
Definition truthy (s : string) : bool :=
  match s with EmptyString => false | String _ _ => true end.

(** [c.lower()] for a code point below 256: A-Z and the accented capitals
    0xC0-0xDE (the multiplication sign 0xD7 apart) move up by 32. *)
Definition lower_char (c : ascii) : ascii :=
  let n := nat_of_ascii c in
  if ((65 <=? n) && (n <=? 90))%nat
     || (((192 <=? n) && (n <=? 222))%nat && negb (n =? 215)%nat)
  then ascii_of_nat (n + 32) else c.

Fixpoint lower (s : string) : string :=
  match s with
  | EmptyString => EmptyString
  | String c s' => String (lower_char c) (lower s')
  end.

(** [needle in s] *)
Fixpoint contains (needle s : string) : bool :=
  if String.prefix needle s then true
  else match s with
       | EmptyString => false
       | String _ s' => contains needle s'
       end.

(** [s.replace(old, new)] for one-character [old] and [new]. *)
Fixpoint replace_char (old new : ascii) (s : string) : string :=
  match s with
  | EmptyString => EmptyString
  | String c s' =>
      String (if Ascii.eqb c old then new else c) (replace_char old new s')
  end.

(** [str(n)] for an integer. *)
Definition of_int (z : Z) : string := NilZero.string_of_int (Z.to_int z).

(** [s.replace(old, new)] for a non-empty [old]: occurrences are replaced
    from the left and do not overlap; [skip] counts the characters of a
    match that are still to be passed over. *)
Fixpoint replace_from (old new : string) (skip : nat) (s : string) : string :=
  match s with
  | EmptyString => EmptyString
  | String c s' =>
      match skip with
      | S k => replace_from old new k s'
      | O =>
          if String.prefix old s
          then new +:+ replace_from old new (String.length old - 1) s'
          else String c (replace_from old new 0 s')
      end
  end.

Definition replace (old new s : string) : string := replace_from old new 0 s.

(** The characters of a string, as [for c in s] yields them. *)
Fixpoint chars (s : string) : list string :=
  match s with
  | EmptyString => []
  | String c s' => String c EmptyString :: chars s'
  end.


(** [c in s] for one character. *)
Fixpoint has_char (c : ascii) (s : string) : bool :=
  match s with
  | EmptyString => false
  | String c' s' => Ascii.eqb c c' || has_char c s'
  end.


End PyStr.

(** ** Python values and dictionaries *)

Inductive PyVal : Type :=
| VNone
| VBool (b : bool)
| VInt (z : Z)
| VFloat (f : float)
| VStr (s : string)
| VList (l : list PyVal)
| VDict (d : list (string * PyVal)).

Module PyDict.

Definition t := list (string * PyVal).

(** [d.get(k)], [None] when the key is absent. *)
Fixpoint get (k : string) (d : t) : option PyVal :=
  match d with
  | [] => None
  | (k', v) :: d' => if String.eqb k k' then Some v else get k d'
  end.

(** [d[k] = v]: overwrite in place, or append a new key. *)
Fixpoint set (k : string) (v : PyVal) (d : t) : t :=
  match d with
  | [] => [(k, v)]
  | (k', v') :: d' =>
      if String.eqb k k' then (k', v) :: d' else (k', v') :: set k v d'
  end.

Definition of_opt_str (o : option string) : PyVal :=
  match o with Some s => VStr s | None => VNone end.

Definition of_opt_int (o : option Z) : PyVal :=
  match o with Some z => VInt z | None => VNone end.

End PyDict.

(** ** Outcomes of calls *)

Inductive Outcome (E A : Type) : Type :=
| Return (a : A)
| Fail (e : E).
Arguments Return {E A} a.
Arguments Fail {E A} e.

Definition bind {E A B} (m : Outcome E A) (k : A -> Outcome E B) : Outcome E B :=
  match m with
  | Return a => k a
  | Fail e => Fail e
  end.

Notation "'let*' x ':=' m 'in' k" := (bind m (fun x => k))
  (at level 10, x name, m at level 100, k at level 200).

(** Truth value of an optional string and of an optional integer, as in
    [if self.details:] and [if self.status_code:]. *)
Definition truthy_str (o : option string) : bool :=
  match o with Some s => PyStr.truthy s | None => false end.

Definition truthy_int (o : option Z) : bool :=
  match o with Some z => negb (z =? 0)%Z | None => false end.

(** ** exceptions.py *)

Module Exceptions.

(** Built-in exception classes. The first four derive from [BaseException]
    only; every other built-in class is a subclass of [Exception]. *)
Inductive Builtin : Type :=
| KeyboardInterrupt
| SystemExit
| GeneratorExit
| CancelledError
| OtherException (cls : string).

(** An exception object: a built-in one with the text of [str(e)], or one of
    the classes of exceptions.py with its attributes. *)
Inductive PyExc : Type :=
| BuiltinExc (cls : Builtin) (text : string)
| OpenEduMCPError (message : string) (details : option string)
| ToolError (message tool_name : string) (details : option string)
| APIError (message api_name : string) (status_code : option Z)
    (details : option string)
| CacheError (message : string) (operation details : option string)
| RateLimitError (message api_name : string) (retry_after : option Z)
    (details : option string)
| ValidationError (message : string) (field details : option string)
| ConfigurationError (message : string) (config_key details : option string)
| DatabaseError (message : string) (operation details : option string)
| NetworkError (message : string) (url details : option string).

(** [isinstance(e, Exception)], what [except Exception] catches. *)
Definition isinstance_Exception (e : PyExc) : bool :=
  match e with
  | BuiltinExc (OtherException _) _ => true
  | BuiltinExc _ _ => false
  | _ => true
  end.

(** [isinstance(e, OpenEduMCPError)]: the base class and its subclasses. *)
Definition isinstance_OpenEduMCPError (e : PyExc) : bool :=
  match e with
  | BuiltinExc _ _ => false
  | _ => true
  end.

(** The suffix [" - {details}"] that most [__str__] methods add. *)
Definition dash_details (details : option string) : string :=
  match details with
  | Some d => if PyStr.truthy d then " - " +:+ d else ""
  | None => ""
  end.

(** The middle part [" (Label: {x})"], present when [x] is truthy. *)
Definition paren_str (label : string) (x : option string) : string :=
  match x with
  | Some v => if PyStr.truthy v then " (" +:+ label +:+ ": " +:+ v +:+ ")" else ""
  | None => ""
  end.

Definition base_str (message : string) (details : option string) : string :=
  match details with
  | Some d => if PyStr.truthy d then message +:+ ": " +:+ d else message
  | None => message
  end.

(** [str(e)] *)
Definition str (e : PyExc) : string :=
  match e with
  | BuiltinExc _ text => text
  | OpenEduMCPError m d => base_str m d
  | ToolError m _ d => base_str m d
  | APIError m api sc d =>
      "API Error (" +:+ api +:+ "): " +:+ m
      +:+ (if truthy_int sc
           then " (Status: " +:+ PyStr.of_int (default 0%Z sc) +:+ ")" else "")
      +:+ dash_details d
  | CacheError m op d =>
      "Cache Error: " +:+ m +:+ paren_str "Operation" op +:+ dash_details d
  | RateLimitError m api ra d =>
      "Rate Limit Error (" +:+ api +:+ "): " +:+ m
      +:+ (if truthy_int ra
           then " (Retry after: " +:+ PyStr.of_int (default 0%Z ra) +:+ "s)"
           else "")
      +:+ dash_details d
  | ValidationError m f d =>
      "Validation Error: " +:+ m +:+ paren_str "Field" f +:+ dash_details d
  | ConfigurationError m k d =>
      "Configuration Error: " +:+ m +:+ paren_str "Key" k +:+ dash_details d
  | DatabaseError m op d =>
      "Database Error: " +:+ m +:+ paren_str "Operation" op +:+ dash_details d
  | NetworkError m u d =>
      "Network Error: " +:+ m +:+ paren_str "URL" u +:+ dash_details d
  end.

(** The attribute [message], which every class of this module sets. *)
Definition message_of (e : PyExc) : option string :=
  match e with
  | BuiltinExc _ _ => None
  | OpenEduMCPError m _ | ToolError m _ _ | APIError m _ _ _ | CacheError m _ _
  | RateLimitError m _ _ _ | ValidationError m _ _ | ConfigurationError m _ _
  | DatabaseError m _ _ | NetworkError m _ _ => Some m
  end.

(** An optional attribute as the [if] tests of [__str__] see it: the empty
    string and zero count as absent. *)
Definition kept_str (o : option string) : option string :=
  match o with
  | Some s => if PyStr.truthy s then Some s else None
  | None => None
  end.

Definition kept_int (o : option Z) : option Z :=
  match o with
  | Some z => if (z =? 0)%Z then None else Some z
  | None => None
  end.

(** The same exception with every falsy optional attribute set to [None]. *)
Definition without_falsy (e : PyExc) : PyExc :=
  match e with
  | BuiltinExc c t => BuiltinExc c t
  | OpenEduMCPError m d => OpenEduMCPError m (kept_str d)
  | ToolError m t d => ToolError m t (kept_str d)
  | APIError m a sc d => APIError m a (kept_int sc) (kept_str d)
  | CacheError m op d => CacheError m (kept_str op) (kept_str d)
  | RateLimitError m a ra d => RateLimitError m a (kept_int ra) (kept_str d)
  | ValidationError m f d => ValidationError m (kept_str f) (kept_str d)
  | ConfigurationError m k d => ConfigurationError m (kept_str k) (kept_str d)
  | DatabaseError m op d => DatabaseError m (kept_str op) (kept_str d)
  | NetworkError m u d => NetworkError m (kept_str u) (kept_str d)
  end.


End Exceptions.


Definition KeyError (key : string) : Exceptions.PyExc :=
  Exceptions.BuiltinExc (Exceptions.OtherException "KeyError") key.

Definition ValueError (text : string) : Exceptions.PyExc :=
  Exceptions.BuiltinExc (Exceptions.OtherException "ValueError") text.

Definition TypeError (text : string) : Exceptions.PyExc :=
  Exceptions.BuiltinExc (Exceptions.OtherException "TypeError") text.

Definition AttributeError (text : string) : Exceptions.PyExc :=
  Exceptions.BuiltinExc (Exceptions.OtherException "AttributeError") text.

Abbreviation Result := (Outcome Exceptions.PyExc).

(** ** datetime.date and datetime.datetime *)

Module Datetime.

Record date : Type := { year : N; month : N; day : N }.

(** A naive [datetime] (no [tzinfo]), as [datetime.now()] returns. *)
Record datetime : Type :=
  { on : date; hour : N; minute : N; second : N; microsecond : N }.

Definition is_leap (y : N) : bool :=
  ((y mod 4 =? 0) && negb (y mod 100 =? 0) || (y mod 400 =? 0))%N.

Definition days_in_month (y m : N) : N :=
  match m with
  | 2 => if is_leap y then 29 else 28
  | 4 | 6 | 9 | 11 => 30
  | _ => 31
  end%N.

(** The range check of the [date] constructor. *)
Definition date_ok (d : date) : bool :=
  ((1 <=? year d) && (year d <=? 9999) && (1 <=? month d) && (month d <=? 12)
   && (1 <=? day d) && (day d <=? days_in_month (year d) (month d)))%N.

Definition datetime_ok (t : datetime) : bool :=
  (date_ok (on t) && (hour t <? 24) && (minute t <? 60) && (second t <? 60)
   && (microsecond t <? 1000000))%N.

Definition digit (k : N) : ascii := ascii_of_N (48 + k).

Fixpoint fixed_width (w : nat) (n : N) : string :=
  match w with
  | O => EmptyString
  | S w' =>
      String (digit (n / 10 ^ N.of_nat w')) (fixed_width w' (n mod 10 ^ N.of_nat w'))
  end.

(** ["%0wd" % n]: decimal digits, padded with zeros on the left to width
    [w]; a number too large for the width is written in full. *)
Definition zpad (w : nat) (n : N) : string :=
  if (n <? 10 ^ N.of_nat w)%N then fixed_width w n else PyStr.of_int (Z.of_N n).

(** [d.isoformat()], ["%04d-%02d-%02d"]. *)
Definition date_isoformat (d : date) : string :=
  zpad 4 (year d) +:+ "-" +:+ zpad 2 (month d) +:+ "-" +:+ zpad 2 (day d).

(** [t.isoformat()]: the microseconds are written only when non-zero. *)
Definition datetime_isoformat (t : datetime) : string :=
  date_isoformat (on t) +:+ "T" +:+ zpad 2 (hour t) +:+ ":" +:+ zpad 2 (minute t)
  +:+ ":" +:+ zpad 2 (second t)
  +:+ (if (microsecond t =? 0)%N then "" else "." +:+ zpad 6 (microsecond t)).

Definition digit_val (c : ascii) : option N :=
  let n := N_of_ascii c in
  if ((48 <=? n) && (n <=? 57))%N then Some (n - 48)%N else None.

(** Read exactly [w] decimal digits from the front of [s]. *)
Fixpoint take_digits (w : nat) (acc : N) (s : string) : option (N * string) :=
  match w with
  | O => Some (acc, s)
  | S w' =>
      match s with
      | EmptyString => None
      | String c s' =>
          match digit_val c with
          | Some k => take_digits w' (acc * 10 + k)%N s'
          | None => None
          end
      end
  end.

Definition expect (c : ascii) (s : string) : option string :=
  match s with
  | String c' s' => if Ascii.eqb c c' then Some s' else None
  | EmptyString => None
  end.

(** The calendar date at the front of an ISO string, [YYYY-MM-DD]. *)
Definition parse_date (s : string) : option (date * string) :=
  '(y, s) ← take_digits 4 0 s;
  s ← expect "-" s;
  '(m, s) ← take_digits 2 0 s;
  s ← expect "-" s;
  '(d, s) ← take_digits 2 0 s;
  let r := {| year := y; month := m; day := d |} in
  if date_ok r then Some (r, s) else None.

(** A [datetime] with its [tzinfo]: none for a naive one, as [datetime.now()]
    returns, or a fixed offset from UTC ([datetime.timezone]), counted in
    microseconds and strictly between minus and plus 24 hours. *)
Record timestamp : Type := { local : datetime; utcoffset : option Z }.

Definition naive (t : datetime) : timestamp := {| local := t; utcoffset := None |}.

Definition offset_ok (off : Z) : bool :=
  ((-86400000000 <? off) && (off <? 86400000000))%Z.

Definition timestamp_ok (t : timestamp) : bool :=
  datetime_ok (local t)
  && match utcoffset t with Some off => offset_ok off | None => true end.

(** A UTC offset of less than one second, in either direction. *)
Definition subsecond (t : timestamp) : bool :=
  match utcoffset t with
  | Some off => (Z.abs off <? 1000000)%Z
  | None => false
  end.

(** What [fromisoformat] returns for the text that [isoformat] writes for
    [t]: the C implementation of CPython takes a UTC offset with zero whole
    seconds for UTC ([as_utc]), the Python implementation keeps it. *)
Definition read_back (as_utc : bool) (t : timestamp) : timestamp :=
  if as_utc && subsecond t then {| local := local t; utcoffset := Some 0%Z |} else t.

(** A valid datetime whose UTC offset, if it has one, is zero or at least
    one second: it is read back as it is. *)
Definition timestamp_reads_back (t : timestamp) : bool :=
  timestamp_ok t
  && match utcoffset t with
     | Some off => (off =? 0)%Z || negb (subsecond t)
     | None => true
     end.

(** The UTC offset as [isoformat] writes it: the sign, hours and minutes,
    then the seconds when the offset is no whole number of minutes, and the
    microseconds when it is no whole number of seconds. *)
Definition format_offset (off : Z) : string :=
  let a := Z.to_N (Z.abs off) in
  let hh := (a / 3600000000)%N in
  let mm := (a mod 3600000000 / 60000000)%N in
  let ss := (a mod 3600000000 mod 60000000)%N in
  (if (off <? 0)%Z then "-" else "+") +:+ zpad 2 hh +:+ ":" +:+ zpad 2 mm
  +:+ (if (ss =? 0)%N then ""
       else ":" +:+ zpad 2 (ss / 1000000)
            +:+ (if (ss mod 1000000 =? 0)%N then ""
                 else "." +:+ zpad 6 (ss mod 1000000))).

(** [t.isoformat()] of a datetime with its [tzinfo]. *)
Definition timestamp_isoformat (t : timestamp) : string :=
  datetime_isoformat (local t)
  +:+ match utcoffset t with Some off => format_offset off | None => "" end.

(** The date and time of day at the front of an ISO string,
    [YYYY-MM-DDTHH:MM:SS] with an optional [.ffffff]. *)
Definition parse_naive (s : string) : option (datetime * string) :=
  '(d, s) ← parse_date s;
  s ← expect "T" s;
  '(h, s) ← take_digits 2 0 s;
  s ← expect ":" s;
  '(mi, s) ← take_digits 2 0 s;
  s ← expect ":" s;
  '(se, s) ← take_digits 2 0 s;
  '(us, s) ← match s with
              | String c s' =>
                  if Ascii.eqb c "." then take_digits 6 0 s' else Some (0%N, s)
              | EmptyString => Some (0%N, s)
              end;
  Some ({| on := d; hour := h; minute := mi; second := se; microsecond := us |}, s).

(** The text after the time of day does not begin with a full stop. *)
Definition no_fraction (rest : string) : Prop :=
  match rest with
  | String c _ => Ascii.eqb c "." = false
  | EmptyString => True
  end.

(** A UTC offset, [+HH:MM] or [-HH:MM] with optional [:SS] and [.ffffff],
    up to the end of the string. *)
Definition parse_offset (s : string) : option Z :=
  match s with
  | EmptyString => None
  | String c s =>
      sign ← (if Ascii.eqb c "+" then Some 1%Z
              else if Ascii.eqb c "-" then Some (-1)%Z else None);
      '(hh, s) ← take_digits 2 0 s;
      s ← expect ":" s;
      '(mm, s) ← take_digits 2 0 s;
      '(ss, s) ← match s with
                  | EmptyString => Some (0%N, s)
                  | _ => s ← expect ":" s; take_digits 2 0 s
                  end;
      '(us, s) ← match s with
                  | EmptyString => Some (0%N, s)
                  | _ => s ← expect "." s; take_digits 6 0 s
                  end;
      match s with
      | EmptyString =>
          Some (sign * Z.of_N (((hh * 60 + mm) * 60 + ss) * 1000000 + us))%Z
      | _ => None
      end
  end.

Definition parse_timestamp (s : string) : option timestamp :=
  '(t, s) ← parse_naive s;
  match s with
  | EmptyString => Some (naive t)
  | _ => off ← parse_offset s; Some {| local := t; utcoffset := Some off |}
  end.

Section FromIsoFormat.

(** [fromisoformat] reads more than [isoformat] writes (a date without
    dashes, a week date, a time cut short, another separator), and which
    texts it reads depends on the version of Python. What it makes of a text
    that [isoformat] does not write is a parameter; a text that [isoformat]
    writes is read back here. [as_utc] says whether a UTC offset of less
    than one second is read as UTC, as the C implementation of CPython
    does, or kept, as the Python implementation does. *)
Variable other_date : string -> Result date.
Variable other_datetime : string -> Result timestamp.
Variable as_utc : bool.

(** [date.fromisoformat(s)] *)
Definition date_fromisoformat (s : string) : Result date :=
  match parse_date s with
  | Some (d, EmptyString) =>
      if String.eqb (date_isoformat d) s then Return d else other_date s
  | _ => other_date s
  end.

(** [datetime.fromisoformat(s)] *)
Definition datetime_fromisoformat (s : string) : Result timestamp :=
  match parse_timestamp s with
  | Some t =>
      if timestamp_ok t && String.eqb (timestamp_isoformat t) s
      then Return (read_back as_utc t)
      else other_datetime s
  | None => other_datetime s
  end.

End FromIsoFormat.
End Datetime.

(** ** What is left to the interpreter *)

(** The steps of the code below whose outcome is fixed by the Python
    interpreter and not by this program:
    - [str(v)] inside an f-string for a float, a list, a dictionary, or an
      integer of more than 4300 digits, which recent versions refuse to
      write with a [ValueError];
    - [date.fromisoformat] and [datetime.fromisoformat] on a text that
      [isoformat] does not write, and whether [datetime.fromisoformat]
      reads a UTC offset of less than one second as UTC;
    - the exception of [d[:5]] for a dictionary [d] (a [TypeError] up to
      Python 3.11, a [KeyError] from 3.12 on). *)
Record Interpreter : Type :=
  { str_of_value : PyVal -> Result string;
    date_fromisoformat_other : string -> Result Datetime.date;
    datetime_fromisoformat_other : string -> Result Datetime.timestamp;
    subsecond_offset_as_utc : bool;
    slice_of_dict : Exceptions.PyExc }.

(** ** models/base.py *)

Module Base.

(** Modelled from the spec: models/base.py is not part of the sources. The
    enum [GradeLevel] has the members that book.py and the tests name, with
    the values that [get_reading_level] and main.py compare against. *)
Inductive GradeLevel : Type :=
| K_2
| GRADES_3_5
| GRADES_6_8
| GRADES_9_12
| COLLEGE.

Definition GradeLevel_value (g : GradeLevel) : string :=
  match g with
  | K_2 => "K-2"
  | GRADES_3_5 => "3-5"
  | GRADES_6_8 => "6-8"
  | GRADES_9_12 => "9-12"
  | COLLEGE => "College"
  end.

(** Modelled from the spec: the enum [CurriculumStandard] of models/base.py is
    absent; a member is known here by its value only. *)
Inductive CurriculumStandard : Type :=
| CurriculumStandard_of (value : string).

(** Modelled from the spec: the dataclass [EducationalMetadata] of
    models/base.py is absent; these are the attributes that book.py, the
    fallback content and the tests read or write. *)
Record EducationalMetadata : Type :=
  { grade_levels : list GradeLevel;
    curriculum_alignment : list CurriculumStandard;
    educational_subjects : list string;
    educational_relevance_score : float;
    reading_level : option string;
    difficulty_level : option string }.

Definition set_grade_levels (m : EducationalMetadata) (g : list GradeLevel)
  : EducationalMetadata :=
  {| grade_levels := g;
     curriculum_alignment := curriculum_alignment m;
     educational_subjects := educational_subjects m;
     educational_relevance_score := educational_relevance_score m;
     reading_level := reading_level m;
     difficulty_level := difficulty_level m |}.

Definition set_educational_subjects (m : EducationalMetadata) (s : list string)
  : EducationalMetadata :=
  {| grade_levels := grade_levels m;
     curriculum_alignment := curriculum_alignment m;
     educational_subjects := s;
     educational_relevance_score := educational_relevance_score m;
     reading_level := reading_level m;
     difficulty_level := difficulty_level m |}.

(** Modelled from the spec: the value of a member. *)
Definition CurriculumStandard_value (c : CurriculumStandard) : string :=
  match c with CurriculumStandard_of value => value end.

(** Modelled from the spec: [GradeLevel(value)], the member with that value,
    and a [ValueError] when there is none. *)
Definition GradeLevel_of_value (v : PyVal) : Result GradeLevel :=
  match v with
  | VStr s =>
      if String.eqb s "K-2" then Return K_2
      else if String.eqb s "3-5" then Return GRADES_3_5
      else if String.eqb s "6-8" then Return GRADES_6_8
      else if String.eqb s "9-12" then Return GRADES_9_12
      else if String.eqb s "College" then Return COLLEGE
      else Fail (ValueError (s +:+ " is not a valid GradeLevel"))
  | _ => Fail (ValueError "not a valid GradeLevel")
  end.

(** Modelled from the spec: [CurriculumStandard(value)]. *)
Definition CurriculumStandard_of_value (v : PyVal) : Result CurriculumStandard :=
  match v with
  | VStr s => Return (CurriculumStandard_of s)
  | _ => Fail (ValueError "not a valid CurriculumStandard")
  end.

(** Modelled from the spec: the helpers of the dictionary form below. [each]
    is a list comprehension whose element expression can raise. *)
Fixpoint each {A} (f : PyVal -> Result A) (l : list PyVal) : Result (list A) :=
  match l with
  | [] => Return []
  | v :: l' =>
      let* x := f v in
      let* xs := each f l' in
      Return (x :: xs)
  end.

(** Modelled from the spec: a value of a field of type [str]. *)
Definition to_str (v : PyVal) : Result string :=
  match v with
  | VStr s => Return s
  | _ => Fail (TypeError "expected str")
  end.

(** Modelled from the spec: [f(x) for x in data.get(key, [])]. *)
Definition get_each {A} (f : PyVal -> Result A) (key : string) (data : PyDict.t)
  : Result (list A) :=
  match PyDict.get key data with
  | None => Return []
  | Some (VList l) => each f l
  | Some _ => Fail (TypeError "expected list")
  end.

(** Modelled from the spec: [data.get(key)] for a field of type
    [Optional[str]]. *)
Definition get_optional_str (key : string) (data : PyDict.t) : Result (option string) :=
  match PyDict.get key data with
  | None | Some VNone => Return None
  | Some (VStr s) => Return (Some s)
  | Some _ => Fail (TypeError "expected str")
  end.

(** Modelled from the spec: [EducationalMetadata.to_dict] of models/base.py,
    which is absent. The dictionary has the keys of the metadata dictionaries
    that the fallback content and the tests write: the enum members go by
    their values, everything else as it is. *)
Definition EducationalMetadata_to_dict (m : EducationalMetadata) : PyDict.t :=
  [ ("grade_levels", VList ((fun g => VStr (GradeLevel_value g)) <$> grade_levels m));
    ("curriculum_alignment",
      VList ((fun c => VStr (CurriculumStandard_value c)) <$> curriculum_alignment m));
    ("educational_subjects", VList (VStr <$> educational_subjects m));
    ("educational_relevance_score", VFloat (educational_relevance_score m));
    ("reading_level", PyDict.of_opt_str (reading_level m));
    ("difficulty_level", PyDict.of_opt_str (difficulty_level m)) ].

(** Modelled from the spec: [EducationalMetadata.from_dict], the way back;
    a missing key gives the default of the field, a value of another type
    than the field declares is an error. *)
Definition EducationalMetadata_from_dict (data : PyVal) : Result EducationalMetadata :=
  match data with
  | VDict d =>
      let* grade_levels := get_each GradeLevel_of_value "grade_levels" d in
      let* curriculum_alignment :=
        get_each CurriculumStandard_of_value "curriculum_alignment" d in
      let* educational_subjects := get_each to_str "educational_subjects" d in
      let* educational_relevance_score :=
        match PyDict.get "educational_relevance_score" d with
        | None => Return 0%float
        | Some (VFloat f) => Return f
        | Some _ => Fail (TypeError "expected float")
        end in
      let* reading_level := get_optional_str "reading_level" d in
      let* difficulty_level := get_optional_str "difficulty_level" d in
      Return
        {| grade_levels := grade_levels;
           curriculum_alignment := curriculum_alignment;
           educational_subjects := educational_subjects;
           educational_relevance_score := educational_relevance_score;
           reading_level := reading_level;
           difficulty_level := difficulty_level |}
  | _ => Fail (AttributeError "object has no attribute 'get'")
  end.

End Base.

(** ** models/book.py *)

Module Book.

Import Base Datetime.

(** The dataclass [Book] with every field at its declared type;
    [created_at] and [updated_at] come from [BaseModel] and are naive here,
    as [datetime.now()] gives them. *)
Record Book : Type :=
  { id : string;
    title : string;
    authors : list string;
    isbn : option string;
    isbn13 : option string;
    publication_date : option date;
    publisher : option string;
    subjects : list string;
    description : option string;
    cover_url : option string;
    page_count : option Z;
    language : string;
    educational_metadata : EducationalMetadata;
    lexile_score : option Z;
    source : string;
    source_url : option string;
    created_at : datetime;
    updated_at : datetime }.

(** *** get_educational_score *)

(** [min(score, 1.0)]: the second argument is returned only when it is
    strictly smaller than the first. *)
Definition min_float (a b : float) : float :=
  if PrimFloat.ltb b a then b else a.

Definition nonempty {A} (l : list A) : bool :=
  match l with [] => false | _ :: _ => true end.

Definition get_educational_score (self : Book) : float :=
  let score := educational_relevance_score (educational_metadata self) in
  let score :=
    if nonempty (grade_levels (educational_metadata self))
    then (score + 0.2)%float else score in
  let score :=
    if nonempty (curriculum_alignment (educational_metadata self))
    then (score + 0.3)%float else score in
  let score :=
    if nonempty (educational_subjects (educational_metadata self))
    then (score + 0.1)%float else score in
  let score :=
    if truthy_int (lexile_score self) then (score + 0.1)%float else score in
  min_float score 1.0%float.

(** The score as the specification words it: the base score plus one boost
    per indicator that is present, capped at 1.0. The lexile boost is
    parametrised by the test that decides whether the score counts as set. *)
Definition boosts (lexile_counts : option Z -> bool) (self : Book) : list float :=
  (if nonempty (grade_levels (educational_metadata self)) then [0.2%float] else [])
  ++ (if nonempty (curriculum_alignment (educational_metadata self))
      then [0.3%float] else [])
  ++ (if nonempty (educational_subjects (educational_metadata self))
      then [0.1%float] else [])
  ++ (if lexile_counts (lexile_score self) then [0.1%float] else []).

Definition spec_educational_score (lexile_counts : option Z -> bool) (self : Book)
  : float :=
  let total :=
    fold_left PrimFloat.add (boosts lexile_counts self)
      (educational_relevance_score (educational_metadata self)) in
  if PrimFloat.ltb 1.0%float total then 1.0%float else total.

(** "lexile_score is set": it is not [None]. *)
Definition is_set (o : option Z) : bool :=
  match o with Some _ => true | None => false end.

(** *** from_open_library: the educational metadata *)

(** [ol_data.get("subject", [])], wrapped in a list when it is one string.
    A list with an element that is no string makes the loop raise at
    [subject.lower()]; a dictionary is looped over by its keys and makes
    [subjects[:5]] raise; any other value cannot be looped over. *)
Fixpoint as_str_list (l : list PyVal) : option (list string) :=
  match l with
  | [] => Some []
  | VStr s :: l' => cons s <$> as_str_list l'
  | _ => None
  end.

Definition ol_subjects (py : Interpreter) (ol_data : PyDict.t) : Result (list string) :=
  match PyDict.get "subject" ol_data with
  | None => Return []
  | Some (VStr s) => Return [s]
  | Some (VList l) =>
      match as_str_list l with
      | Some subjects => Return subjects
      | None => Fail (AttributeError "object has no attribute 'lower'")
      end
  | Some (VDict _) => Fail (slice_of_dict py)
  | Some _ => Fail (TypeError "object is not iterable")
  end.

(** [any(term in subject_lower for term in terms)] *)
Definition any_in (terms : list string) (subject_lower : string) : bool :=
  existsb (fun term => PyStr.contains term subject_lower) terms.

(** The loop over the subjects; [grade_levels] is the list being appended
    to. *)
Fixpoint infer_grade_levels (subjects : list string) (grade_levels : list GradeLevel)
  : list GradeLevel :=
  match subjects with
  | [] => grade_levels
  | subject :: rest =>
      let subject_lower := PyStr.lower subject in
      let grade_levels :=
        if any_in ["elementary"; "primary"; "kindergarten"] subject_lower
        then grade_levels ++ [K_2]
        else if any_in ["middle"; "junior"] subject_lower
        then grade_levels ++ [GRADES_6_8]
        else if any_in ["high school"; "secondary"] subject_lower
        then grade_levels ++ [GRADES_9_12]
        else if any_in ["college"; "university"] subject_lower
        then grade_levels ++ [COLLEGE]
        else grade_levels in
      infer_grade_levels rest grade_levels
  end.

(** The metadata that [from_open_library] attaches (lines 137-158);
    [fresh] is the value of [EducationalMetadata()]. *)
Definition from_open_library_metadata (py : Interpreter) (fresh : EducationalMetadata)
    (ol_data : PyDict.t) : Result (list string * EducationalMetadata) :=
  let* subjects := ol_subjects py ol_data in
  let educational_metadata :=
    set_grade_levels fresh (infer_grade_levels subjects (grade_levels fresh)) in
  let educational_metadata :=
    set_educational_subjects educational_metadata (take 5 subjects) in
  Return (subjects, educational_metadata).

(** The grade level of one subject as the specification words it: the first
    rule that matches the lowercase form, if any. *)
Definition spec_grade_of_subject (subject : string) : option GradeLevel :=
  let low := PyStr.lower subject in
  let has term := PyStr.contains term low in
  if has "elementary" || has "primary" || has "kindergarten" then Some K_2
  else if has "middle" || has "junior" then Some GRADES_6_8
  else if has "high school" || has "secondary" then Some GRADES_9_12
  else if has "college" || has "university" then Some COLLEGE
  else None.

(** *** Truth values *)

(** Truth value of a Python value, as in [if data.get(...)]. *)
Definition truthy_val (v : PyVal) : bool :=
  match v with
  | VNone => false
  | VBool b => b
  | VInt z => negb (z =? 0)%Z
  | VFloat f => negb (PrimFloat.eqb f 0%float)
  | VStr s => PyStr.truthy s
  | VList l => nonempty l
  | VDict d => nonempty d
  end.

(** *** is_suitable_for_grade_level, has_subject, get_reading_level *)

Definition GradeLevel_eqb (a b : GradeLevel) : bool :=
  match a, b with
  | K_2, K_2 | GRADES_3_5, GRADES_3_5 | GRADES_6_8, GRADES_6_8
  | GRADES_9_12, GRADES_9_12 | COLLEGE, COLLEGE => true
  | _, _ => false
  end.

(** [grade_level in self.educational_metadata.grade_levels] *)
Definition is_suitable_for_grade_level (self : Book) (grade_level : GradeLevel) : bool :=
  existsb (GradeLevel_eqb grade_level) (grade_levels (educational_metadata self)).

Definition has_subject (self : Book) (subject : string) : bool :=
  let subject_lower := PyStr.lower subject in
  existsb (fun s => PyStr.contains subject_lower (PyStr.lower s))
    (subjects self ++ educational_subjects (educational_metadata self)).

Definition get_reading_level (self : Book) : string :=
  if truthy_str (reading_level (educational_metadata self)) then
    default "" (reading_level (educational_metadata self))
  else if negb (nonempty (grade_levels (educational_metadata self))) then
    let title_desc :=
      PyStr.lower
        (title self +:+ " "
         +:+ (if truthy_str (description self) then default "" (description self)
              else "")) in
    if any_in ["elementary"; "primary"; "kindergarten"; "children"] title_desc
    then "Elementary"
    else if any_in ["middle school"; "junior high"] title_desc then "Middle School"
    else if any_in ["high school"; "secondary"] title_desc then "High School"
    else if any_in ["college"; "university"; "undergraduate"; "graduate"] title_desc
    then "College"
    else "High School"
  else
    let grade_levels :=
      GradeLevel_value <$> grade_levels (educational_metadata self) in
    if existsb (fun gl => PyStr.contains "K-2" gl || PyStr.contains "3-5" gl)
         grade_levels
    then "Elementary"
    else if existsb (PyStr.contains "6-8") grade_levels then "Middle School"
    else if existsb (PyStr.contains "9-12") grade_levels then "High School"
    else if existsb (PyStr.contains "College") grade_levels then "College"
    else "High School".

(** *** The object behind a Book *)

(** The methods above read a book at the declared types of its fields.
    Python checks none of them: [from_dict] and [from_open_library] store
    whatever the dictionary holds. An object as they leave it has any value
    in the fields that are copied, and a date, a metadata object and two
    datetimes in the fields that are built. *)
Module Object.

Record t : Type :=
  { id : PyVal;
    title : PyVal;
    authors : PyVal;
    isbn : PyVal;
    isbn13 : PyVal;
    publication_date : option date;
    publisher : PyVal;
    subjects : PyVal;
    description : PyVal;
    cover_url : PyVal;
    page_count : PyVal;
    language : PyVal;
    educational_metadata : EducationalMetadata;
    lexile_score : PyVal;
    source : PyVal;
    source_url : PyVal;
    created_at : timestamp;
    updated_at : timestamp }.

(** [grade_level in self.educational_metadata.grade_levels], which reads no
    field but the metadata. *)
Definition is_suitable_for_grade_level (self : t) (grade_level : GradeLevel) : bool :=
  existsb (GradeLevel_eqb grade_level) (grade_levels (educational_metadata self)).


End Object.

(** A book with every field at its declared type, as an object. *)
Definition as_object (b : Book) : Object.t :=
  {| Object.id := VStr (id b);
     Object.title := VStr (title b);
     Object.authors := VList (VStr <$> authors b);
     Object.isbn := PyDict.of_opt_str (isbn b);
     Object.isbn13 := PyDict.of_opt_str (isbn13 b);
     Object.publication_date := publication_date b;
     Object.publisher := PyDict.of_opt_str (publisher b);
     Object.subjects := VList (VStr <$> subjects b);
     Object.description := PyDict.of_opt_str (description b);
     Object.cover_url := PyDict.of_opt_str (cover_url b);
     Object.page_count := PyDict.of_opt_int (page_count b);
     Object.language := VStr (language b);
     Object.educational_metadata := educational_metadata b;
     Object.lexile_score := PyDict.of_opt_int (lexile_score b);
     Object.source := VStr (source b);
     Object.source_url := PyDict.of_opt_str (source_url b);
     Object.created_at := naive (created_at b);
     Object.updated_at := naive (updated_at b) |}.

(** *** to_dict and from_dict *)

(** [data[key]] *)
Definition item (key : string) (data : PyDict.t) : Result PyVal :=
  match PyDict.get key data with
  | Some v => Return v
  | None => Fail (KeyError key)
  end.

Section Serialization.

Variable py : Interpreter.

(** [EducationalMetadata.to_dict] and [EducationalMetadata.from_dict] live in
    models/base.py, which is absent: they are parameters here. *)
Variable em_to_dict : EducationalMetadata -> PyDict.t.
Variable em_from_dict : PyVal -> Result EducationalMetadata.

Definition to_dict (self : Object.t) : PyDict.t :=
  [ ("id", Object.id self);
    ("title", Object.title self);
    ("authors", Object.authors self);
    ("isbn", Object.isbn self);
    ("isbn13", Object.isbn13 self);
    ("publication_date",
      match Object.publication_date self with
      | Some d => VStr (date_isoformat d)
      | None => VNone
      end);
    ("publisher", Object.publisher self);
    ("subjects", Object.subjects self);
    ("description", Object.description self);
    ("cover_url", Object.cover_url self);
    ("page_count", Object.page_count self);
    ("language", Object.language self);
    ("educational_metadata", VDict (em_to_dict (Object.educational_metadata self)));
    ("lexile_score", Object.lexile_score self);
    ("source", Object.source self);
    ("source_url", Object.source_url self);
    ("created_at", VStr (timestamp_isoformat (Object.created_at self)));
    ("updated_at", VStr (timestamp_isoformat (Object.updated_at self))) ].

(** [date.fromisoformat(data["publication_date"])
     if data.get("publication_date") else None] *)
Definition get_publication_date (data : PyDict.t) : Result (option date) :=
  match PyDict.get "publication_date" data with
  | None => Return None
  | Some v =>
      if truthy_val v then
        match v with
        | VStr s =>
            let* d := date_fromisoformat (date_fromisoformat_other py) s in
            Return (Some d)
        | _ => Fail (TypeError "fromisoformat: argument must be str")
        end
      else Return None
  end.

(** [datetime.fromisoformat(data.get(key, datetime.now().isoformat()))];
    [now] is the clock value read for the default. *)
Definition get_timestamp (key : string) (now : datetime) (data : PyDict.t)
  : Result timestamp :=
  match PyDict.get key data with
  | None =>
      datetime_fromisoformat (datetime_fromisoformat_other py)
        (subsecond_offset_as_utc py) (timestamp_isoformat (naive now))
  | Some (VStr s) =>
      datetime_fromisoformat (datetime_fromisoformat_other py)
        (subsecond_offset_as_utc py) s
  | Some _ => Fail (TypeError "fromisoformat: argument must be str")
  end.

(** [now1] and [now2] are the two readings of [datetime.now()]. The steps
    that can raise come in the order of the source: the metadata, the two
    required keys, the publication date, the two timestamps. *)
Definition from_dict (now1 now2 : datetime) (data : PyDict.t) : Result Object.t :=
  let* educational_metadata :=
    em_from_dict (default (VDict []) (PyDict.get "educational_metadata" data)) in
  let* id := item "id" data in
  let* title := item "title" data in
  let* publication_date := get_publication_date data in
  let* created_at := get_timestamp "created_at" now1 data in
  let* updated_at := get_timestamp "updated_at" now2 data in
  Return
    {| Object.id := id;
       Object.title := title;
       Object.authors := default (VList []) (PyDict.get "authors" data);
       Object.isbn := default VNone (PyDict.get "isbn" data);
       Object.isbn13 := default VNone (PyDict.get "isbn13" data);
       Object.publication_date := publication_date;
       Object.publisher := default VNone (PyDict.get "publisher" data);
       Object.subjects := default (VList []) (PyDict.get "subjects" data);
       Object.description := default VNone (PyDict.get "description" data);
       Object.cover_url := default VNone (PyDict.get "cover_url" data);
       Object.page_count := default VNone (PyDict.get "page_count" data);
       Object.language := default (VStr "en") (PyDict.get "language" data);
       Object.educational_metadata := educational_metadata;
       Object.lexile_score := default VNone (PyDict.get "lexile_score" data);
       Object.source := default (VStr "open_library") (PyDict.get "source" data);
       Object.source_url := default VNone (PyDict.get "source_url" data);
       Object.created_at := created_at;
       Object.updated_at := updated_at |}.

End Serialization.




(** *** from_open_library: the whole constructor *)

Definition OverflowError (text : string) : Exceptions.PyExc :=
  Exceptions.BuiltinExc (Exceptions.OtherException "OverflowError") text.

Definition IndexError (text : string) : Exceptions.PyExc :=
  Exceptions.BuiltinExc (Exceptions.OtherException "IndexError") text.

(** [for x in v]: the items that a loop over [v] sees. *)
Definition iterate (v : PyVal) : Result (list PyVal) :=
  match v with
  | VList l => Return l
  | VStr s => Return (VStr <$> PyStr.chars s)
  | VDict d => Return ((fun kv => VStr kv.1) <$> d)
  | _ => Fail (TypeError "object is not iterable")
  end.

(** [len(v)], where [v] has a length. *)
Definition py_len (v : PyVal) : option nat :=
  match v with
  | VStr s => Some (String.length s)
  | VList l => Some (length l)
  | VDict d => Some (length d)
  | _ => None
  end.

(** [v[0]] *)
Definition item0 (v : PyVal) : Result PyVal :=
  match v with
  | VList (x :: _) => Return x
  | VList [] => Fail (IndexError "list index out of range")
  | VStr (String c _) => Return (VStr (String c EmptyString))
  | VStr EmptyString => Fail (IndexError "string index out of range")
  | VDict _ => Fail (KeyError "0")
  | _ => Fail (TypeError "object is not subscriptable")
  end.

Fixpoint map_result {A B} (f : A -> Result B) (l : list A) : Result (list B) :=
  match l with
  | [] => Return []
  | x :: l' =>
      let* y := f x in
      let* ys := map_result f l' in
      Return (y :: ys)
  end.

(** [ol_data.get("key", "").replace("/works/", "")] *)
Definition ol_work_id (ol_data : PyDict.t) : Result string :=
  match PyDict.get "key" ol_data with
  | None => Return (PyStr.replace "/works/" "" "")
  | Some (VStr s) => Return (PyStr.replace "/works/" "" s)
  | Some _ => Fail (AttributeError "object has no attribute 'replace'")
  end.

(** [author.get("name", "")] for one element of [ol_data["authors"]]. *)
Definition author_name (author : PyVal) : Result PyVal :=
  match author with
  | VDict d => Return (default (VStr "") (PyDict.get "name" d))
  | _ => Fail (AttributeError "object has no attribute 'get'")
  end.

(** The authors: [ol_data["author_name"]] when that key is there, otherwise
    the names in [ol_data["authors"]], otherwise the empty list. *)
Definition ol_authors (ol_data : PyDict.t) : Result PyVal :=
  match PyDict.get "author_name" ol_data with
  | Some v => Return v
  | None =>
      match PyDict.get "authors" ol_data with
      | None => Return (VList [])
      | Some v =>
          let* items := iterate v in
          let* names := map_result author_name items in
          Return (VList names)
      end
  end.

(** [date(year, 1, 1)] inside [try ... except (ValueError, TypeError): pass].
    A year outside 1..9999 is a [ValueError] and a value that is no integer a
    [TypeError], both swallowed; an integer that does not fit a C [int] is an
    [OverflowError], which is not caught. *)
Definition date_of_year (v : PyVal) : Result (option date) :=
  match v with
  | VInt y =>
      if ((- 2 ^ 31 <=? y) && (y <? 2 ^ 31))%Z then
        if ((1 <=? y) && (y <=? 9999))%Z
        then Return (Some {| year := Z.to_N y; month := 1; day := 1 |})
        else Return None
      else Fail (OverflowError "signed integer is out of range")
  | VBool true => Return (Some {| year := 1; month := 1; day := 1 |})
  | _ => Return None
  end.

Definition ol_publication_date (ol_data : PyDict.t) : Result (option date) :=
  match PyDict.get "first_publish_year" ol_data with
  | None => Return None
  | Some v => date_of_year v
  end.

(** The loop over the ISBNs: the last value of length 10 and the last value
    of length 13 win. *)
Fixpoint isbn_loop (vals : list PyVal) (isbn isbn13 : option PyVal)
  : Result (option PyVal * option PyVal) :=
  match vals with
  | [] => Return (isbn, isbn13)
  | isbn_val :: rest =>
      match py_len isbn_val with
      | None => Fail (TypeError "object has no len()")
      | Some n =>
          if (n =? 10)%nat then isbn_loop rest (Some isbn_val) isbn13
          else if (n =? 13)%nat then isbn_loop rest isbn (Some isbn_val)
          else isbn_loop rest isbn isbn13
      end
  end.

Definition ol_isbns (ol_data : PyDict.t) : Result (option PyVal * option PyVal) :=
  match PyDict.get "isbn" ol_data with
  | None => Return (None, None)
  | Some v =>
      if truthy_val v then let* vals := iterate v in isbn_loop vals None None
      else Return (None, None)
  end.

(** [ol_data.get(key, ...)[0] if ol_data.get(key) else default] *)
Definition first_or (key : string) (default : PyVal) (ol_data : PyDict.t)
  : Result PyVal :=
  match PyDict.get key ol_data with
  | None => Return default
  | Some v => if truthy_val v then item0 v else Return default
  end.

(** The integers that every version of Python writes in decimal: those of
    at most 4300 digits. *)
Definition short_int (z : Z) : bool := (Z.abs z <? 10 ^ 4300)%Z.

(** The text that an f-string puts for a value; the text of a float, a
    list, a dictionary or a very long integer is the interpreter's. *)
Definition format_value (py : Interpreter) (v : PyVal) : Result string :=
  match v with
  | VStr s => Return s
  | VInt z => if short_int z then Return (PyStr.of_int z) else str_of_value py v
  | VBool true => Return "True"
  | VBool false => Return "False"
  | VNone => Return "None"
  | _ => str_of_value py v
  end.

Definition ol_cover_url (py : Interpreter) (ol_data : PyDict.t) : Result PyVal :=
  match PyDict.get "cover_i" ol_data with
  | None => Return VNone
  | Some v =>
      if truthy_val v then
        let* text := format_value py v in
        Return (VStr ("https://covers.openlibrary.org/b/id/" +:+ text +:+ "-L.jpg"))
      else Return VNone
  end.

(** [created] and [updated] are the timestamps that [BaseModel] gives a new
    object. The steps that can raise come in the order of the source. *)
Definition from_open_library (py : Interpreter) (fresh : EducationalMetadata)
    (created updated : timestamp) (ol_data : PyDict.t) : Result Object.t :=
  let* work_id := ol_work_id ol_data in
  let title := default (VStr "") (PyDict.get "title" ol_data) in
  let* authors := ol_authors ol_data in
  let* publication_date := ol_publication_date ol_data in
  let* isbns := ol_isbns ol_data in
  let* meta := from_open_library_metadata py fresh ol_data in
  let* publisher := first_or "publisher" VNone ol_data in
  let* cover_url := ol_cover_url py ol_data in
  let* language := first_or "language" (VStr "en") ol_data in
  Return
    {| Object.id := VStr work_id;
       Object.title := title;
       Object.authors := authors;
       Object.isbn := default VNone isbns.1;
       Object.isbn13 := default VNone isbns.2;
       Object.publication_date := publication_date;
       Object.publisher := publisher;
       Object.subjects := VList (VStr <$> meta.1);
       Object.description := default (VStr "") (PyDict.get "description" ol_data);
       Object.cover_url := cover_url;
       Object.page_count := default VNone (PyDict.get "number_of_pages_median" ol_data);
       Object.language := language;
       Object.educational_metadata := meta.2;
       Object.lexile_score := VNone;
       Object.source := VStr "open_library";
       Object.source_url := VStr ("https://openlibrary.org/works/" +:+ work_id);
       Object.created_at := created;
       Object.updated_at := updated |}.

Definition from_openlibrary (py : Interpreter) (fresh : EducationalMetadata)
    (created updated : timestamp) (ol_data : PyDict.t) : Result Object.t :=
  from_open_library py fresh created updated ol_data.

End Book.

(** ** tools/fallback_methods.py *)

Module Fallback.

(** [x or default] for an optional string. *)
Definition str_or (x : option string) (default : string) : string :=
  match x with
  | Some s => if PyStr.truthy s then s else default
  | None => default
  end.

(** [[x] if x else [default]] *)
Definition singleton_or (x : option string) (default : string) : PyVal :=
  match x with
  | Some s => if PyStr.truthy s then VList [VStr s] else VList [VStr default]
  | None => VList [VStr default]
  end.

(** The dictionary literal [fallbacks]. *)
Definition fallbacks (subject grade_level : option string)
  : list (string * list PyDict.t) :=
  let subject_str := str_or subject "General Education" in
  let grade_str := str_or grade_level "K-12" in
  [ ("article",
      [ [ ("title", VStr (subject_str +:+ " Fundamentals"));
          ("extract",
            VStr ("This is a fallback educational article about " +:+ subject_str
                  +:+ " for " +:+ grade_str +:+ " students."));
          ("url",
            VStr ("https://example.com/education/"
                  +:+ PyStr.replace_char " " "_" (PyStr.lower subject_str)));
          ("educational_metadata",
            VDict
              [ ("educational_relevance_score", VFloat 0.85%float);
                ("grade_levels", singleton_or grade_level "K-12");
                ("educational_subjects", singleton_or subject "Education");
                ("reading_level", VStr "Appropriate");
                ("difficulty_level", VStr "Medium") ]) ] ]);
    ("book",
      [ [ ("title", VStr (subject_str +:+ " Textbook for " +:+ grade_str));
          ("author", VStr "Educational System");
          ("isbn", VStr "0000000000000");
          ("publisher", VStr "OpenEdu Press");
          ("publish_date", VStr "2025");
          ("educational_metadata",
            VDict
              [ ("educational_relevance_score", VFloat 0.9%float);
                ("grade_levels", singleton_or grade_level "K-12");
                ("educational_subjects", singleton_or subject "Education");
                ("reading_level", VStr grade_str);
                ("difficulty_level", VStr "Appropriate") ]) ] ]);
    ("paper",
      [ [ ("title", VStr ("Research in " +:+ subject_str +:+ " Education"));
          ("authors", VList [VStr "Educational Researcher"]);
          ("summary",
            VStr ("This paper discusses educational approaches in " +:+ subject_str
                  +:+ " for " +:+ grade_str +:+ " students."));
          ("published", VStr "2025-01-01");
          ("id", VStr "fallback/2025.01234");
          ("educational_metadata",
            VDict
              [ ("educational_relevance_score", VFloat 0.8%float);
                ("academic_level", VStr (str_or grade_level "Undergraduate"));
                ("educational_subjects",
                  singleton_or subject "Education Research") ]) ] ]) ].

(** [fallbacks.get(content_type, [])] *)
Fixpoint get_or_empty (content_type : string) (table : list (string * list PyDict.t))
  : list PyDict.t :=
  match table with
  | [] => []
  | (k, items) :: table' =>
      if String.eqb content_type k then items else get_or_empty content_type table'
  end.

Definition _provide_educational_fallback (content_type : string)
    (subject grade_level : option string) : list PyDict.t :=
  let result := get_or_empty content_type (fallbacks subject grade_level) in
  map (PyDict.set "is_fallback" (VBool true)) result.

(** An item carries the flag. *)
Definition flagged (item : PyDict.t) : Prop :=
  PyDict.get "is_fallback" item = Some (VBool true).

(** The content types that the table of fallbacks knows. *)
Definition known_content_type (content_type : string) : bool :=
  existsb (String.eqb content_type) ["article"; "book"; "paper"].

End Fallback.

(** ** main.py: the dispatch layer *)

Module Main.

Import Exceptions.

(** One call of a method on a tool or service object. *)
Record Invocation : Type :=
  { target : string; method : string; kwargs : PyDict.t }.

(** A tool or service object, known by how its methods answer. *)
Definition Object := Invocation -> Result PyVal.

(** The module-level globals that [initialize_services] fills in; [config]
    holds [config.server.name] and [config.server.version]. *)
Record Globals : Type :=
  { cache_service : option Object;
    rate_limiting_service : option Object;
    usage_service : option Object;
    config : option (string * string);
    openlibrary_tool : option Object;
    wikipedia_tool : option Object;
    dictionary_tool : option Object;
    arxiv_tool : option Object }.

(** The request context; [session_id] is [None] when the attribute is
    missing. *)
Record Context : Type := { session_id : option PyVal }.

(** [getattr(ctx, 'session_id', None)] *)
Definition user_session (ctx : Context) : PyVal := default VNone (session_id ctx).

(** A handler run: the calls it made on tools and services, each with its
    answer, and what the handler itself returned or raised. *)
Definition Run : Type := list (Invocation * Result PyVal) * Result PyVal.

Definition raise (e : PyExc) : Run := ([], Fail e).

Definition ret (v : PyVal) : Run := ([], Return v).

(** [await obj.method(...)] with keyword arguments *)
Definition call (obj : Object) (target method : string) (kwargs : PyDict.t) : Run :=
  let inv := {| target := target; method := method; kwargs := kwargs |} in
  ([(inv, obj inv)], obj inv).

Definition run_bind (m : Run) (k : PyVal -> Run) : Run :=
  match m with
  | (calls, Return v) => let '(calls', r) := k v in (calls ++ calls', r)
  | (calls, Fail e) => (calls, Fail e)
  end.

(** [try: body  except Exception as e: handler(e)] *)
Definition try_except (body : Run) (handler : PyExc -> Result PyVal) : Run :=
  match body with
  | (calls, Fail e) =>
      if isinstance_Exception e then (calls, handler e) else (calls, Fail e)
  | (calls, Return v) => (calls, Return v)
  end.

(** [raise OpenEduMCPError(f"{prefix}: {str(e)}")] *)
Definition reraise (prefix : string) (e : PyExc) : Result PyVal :=
  Fail (OpenEduMCPError (prefix +:+ ": " +:+ str e) None).

(** The shape shared by the handlers that only forward to a tool: the
    initialisation guard, then the call inside [try ... except Exception]. *)
Definition forward (tool : option Object) (target tool_name method prefix : string)
    (kwargs : PyDict.t) : Run :=
  match tool with
  | None => raise (OpenEduMCPError (tool_name +:+ " tool not properly initialized") None)
  | Some obj => try_except (call obj target method kwargs) (reraise prefix)
  end.

Definition grade_level_names : list string := ["K-2"; "3-5"; "6-8"; "9-12"; "College"].

(** [grade_level and grade_level not in [...]] *)
Definition invalid_grade_level (grade_level : option string) : bool :=
  match grade_level with
  | Some g => PyStr.truthy g && negb (existsb (String.eqb g) grade_level_names)
  | None => false
  end.

(** [not s or not s.strip()] *)
Definition blank (s : string) : bool :=
  negb (PyStr.truthy s) || negb (PyStr.truthy (PyStr.strip s)).

Definition opt (o : option string) : PyVal := PyDict.of_opt_str o.

Definition search_educational_books (g : Globals) (ctx : Context) (query : string)
    (subject grade_level : option string) (limit : Z) : Run :=
  match openlibrary_tool g with
  | None => raise (OpenEduMCPError "Open Library tool not properly initialized" None)
  | Some tool =>
      if blank query then raise (OpenEduMCPError "Query cannot be empty" None)
      else if invalid_grade_level grade_level then
        raise (OpenEduMCPError
                 ("Invalid grade level: " +:+ default "" grade_level) None)
      else if ((limit <? 1) || (limit >? 50))%Z then
        raise (OpenEduMCPError "Limit must be between 1 and 50" None)
      else
        try_except
          (call tool "openlibrary_tool" "search_educational_books"
             [ ("query", VStr query); ("subject", opt subject);
               ("grade_level", opt grade_level); ("limit", VInt limit);
               ("user_session", user_session ctx) ])
          (reraise "Book search failed")
  end.

Definition get_book_details_by_isbn (g : Globals) (ctx : Context) (isbn : string)
    (include_cover : bool) : Run :=
  forward (openlibrary_tool g) "openlibrary_tool" "Open Library"
    "get_book_details_by_isbn" "Book details retrieval failed"
    [ ("isbn", VStr isbn); ("include_cover", VBool include_cover);
      ("user_session", user_session ctx) ].

Definition search_books_by_subject (g : Globals) (ctx : Context) (subject : string)
    (grade_level : option string) (limit : Z) : Run :=
  forward (openlibrary_tool g) "openlibrary_tool" "Open Library"
    "search_books_by_subject" "Subject search failed"
    [ ("subject", VStr subject); ("grade_level", opt grade_level);
      ("limit", VInt limit); ("user_session", user_session ctx) ].

Definition get_book_recommendations (g : Globals) (ctx : Context)
    (grade_level : string) (subject : option string) (limit : Z) : Run :=
  forward (openlibrary_tool g) "openlibrary_tool" "Open Library"
    "get_book_recommendations" "Book recommendations failed"
    [ ("grade_level", VStr grade_level); ("subject", opt subject);
      ("limit", VInt limit); ("user_session", user_session ctx) ].

Definition search_educational_articles (g : Globals) (ctx : Context) (query : string)
    (subject grade_level : option string) (language : string) (limit : Z) : Run :=
  forward (wikipedia_tool g) "wikipedia_tool" "Wikipedia"
    "search_educational_articles" "Article search failed"
    [ ("query", VStr query); ("subject", opt subject);
      ("grade_level", opt grade_level); ("language", VStr language);
      ("limit", VInt limit); ("user_session", user_session ctx) ].

Definition get_article_summary (g : Globals) (ctx : Context) (title language : string)
    (include_educational_analysis : bool) : Run :=
  forward (wikipedia_tool g) "wikipedia_tool" "Wikipedia"
    "get_article_summary" "Article summary retrieval failed"
    [ ("title", VStr title); ("language", VStr language);
      ("include_educational_analysis", VBool include_educational_analysis);
      ("user_session", user_session ctx) ].

Definition get_article_content (g : Globals) (ctx : Context) (title language : string)
    (include_images : bool) : Run :=
  forward (wikipedia_tool g) "wikipedia_tool" "Wikipedia"
    "get_article_content" "Article content retrieval failed"
    [ ("title", VStr title); ("language", VStr language);
      ("include_images", VBool include_images);
      ("user_session", user_session ctx) ].

Definition get_featured_article (g : Globals) (ctx : Context) (date : option string)
    (language : string) : Run :=
  forward (wikipedia_tool g) "wikipedia_tool" "Wikipedia"
    "get_featured_article" "Featured article retrieval failed"
    [ ("date_param", opt date); ("language", VStr language);
      ("user_session", user_session ctx) ].

Definition get_articles_by_subject (g : Globals) (ctx : Context) (subject : string)
    (grade_level : option string) (language : string) (limit : Z) : Run :=
  forward (wikipedia_tool g) "wikipedia_tool" "Wikipedia"
    "get_articles_by_subject" "Subject articles retrieval failed"
    [ ("subject", VStr subject); ("grade_level", opt grade_level);
      ("language", VStr language); ("limit", VInt limit);
      ("user_session", user_session ctx) ].

Definition get_word_definition (g : Globals) (ctx : Context) (word : string)
    (grade_level : option string) (include_pronunciation : bool) : Run :=
  match dictionary_tool g with
  | None => raise (OpenEduMCPError "Dictionary tool not properly initialized" None)
  | Some tool =>
      if blank word then raise (OpenEduMCPError "Word cannot be empty" None)
      else if invalid_grade_level grade_level then
        raise (OpenEduMCPError
                 ("Invalid grade level: " +:+ default "" grade_level) None)
      else
        try_except
          (call tool "dictionary_tool" "get_word_definition"
             [ ("word", VStr word); ("grade_level", opt grade_level);
               ("include_pronunciation", VBool include_pronunciation);
               ("user_session", user_session ctx) ])
          (reraise "Word definition retrieval failed")
  end.

Definition get_vocabulary_analysis (g : Globals) (ctx : Context) (word : string)
    (context : option string) : Run :=
  forward (dictionary_tool g) "dictionary_tool" "Dictionary"
    "get_vocabulary_analysis" "Vocabulary analysis failed"
    [ ("word", VStr word); ("context", opt context);
      ("user_session", user_session ctx) ].

Definition get_word_examples (g : Globals) (ctx : Context) (word : string)
    (grade_level subject : option string) : Run :=
  forward (dictionary_tool g) "dictionary_tool" "Dictionary"
    "get_word_examples" "Word examples retrieval failed"
    [ ("word", VStr word); ("grade_level", opt grade_level);
      ("subject", opt subject); ("user_session", user_session ctx) ].

Definition get_pronunciation_guide (g : Globals) (ctx : Context) (word : string)
    (include_audio : bool) : Run :=
  forward (dictionary_tool g) "dictionary_tool" "Dictionary"
    "get_pronunciation_guide" "Pronunciation guide retrieval failed"
    [ ("word", VStr word); ("include_audio", VBool include_audio);
      ("user_session", user_session ctx) ].

Definition get_related_vocabulary (g : Globals) (ctx : Context) (word : string)
    (relationship_type : string) (grade_level : option string) (limit : Z) : Run :=
  forward (dictionary_tool g) "dictionary_tool" "Dictionary"
    "get_related_vocabulary" "Related vocabulary retrieval failed"
    [ ("word", VStr word); ("relationship_type", VStr relationship_type);
      ("grade_level", opt grade_level); ("limit", VInt limit);
      ("user_session", user_session ctx) ].

Definition search_academic_papers (g : Globals) (ctx : Context) (query : string)
    (subject academic_level : option string) (max_results : Z)
    (include_educational_analysis : bool) : Run :=
  forward (arxiv_tool g) "arxiv_tool" "arXiv"
    "search_academic_papers" "Academic paper search failed"
    [ ("query", VStr query); ("subject", opt subject);
      ("academic_level", opt academic_level); ("max_results", VInt max_results);
      ("include_educational_analysis", VBool include_educational_analysis);
      ("user_session", user_session ctx) ].

Definition get_paper_summary (g : Globals) (ctx : Context) (paper_id : string)
    (include_educational_analysis : bool) : Run :=
  forward (arxiv_tool g) "arxiv_tool" "arXiv"
    "get_paper_summary" "Paper summary retrieval failed"
    [ ("paper_id", VStr paper_id);
      ("include_educational_analysis", VBool include_educational_analysis);
      ("user_session", user_session ctx) ].

Definition get_recent_research (g : Globals) (ctx : Context) (subject : string)
    (days : Z) (academic_level : option string) (max_results : Z) : Run :=
  forward (arxiv_tool g) "arxiv_tool" "arXiv"
    "get_recent_research" "Recent research retrieval failed"
    [ ("subject", VStr subject); ("days", VInt days);
      ("academic_level", opt academic_level); ("max_results", VInt max_results);
      ("user_session", user_session ctx) ].

Definition get_research_by_level (g : Globals) (ctx : Context)
    (academic_level : string) (subject : option string) (max_results : Z) : Run :=
  forward (arxiv_tool g) "arxiv_tool" "arXiv"
    "get_research_by_level" "Research by level retrieval failed"
    [ ("academic_level", VStr academic_level); ("subject", opt subject);
      ("max_results", VInt max_results); ("user_session", user_session ctx) ].

Definition analyze_research_trends (g : Globals) (ctx : Context) (subject : string)
    (days : Z) : Run :=
  forward (arxiv_tool g) "arxiv_tool" "arXiv"
    "analyze_research_trends" "Research trend analysis failed"
    [ ("subject", VStr subject); ("days", VInt days);
      ("user_session", user_session ctx) ].

(** The response object of [stream_events]; its generator has not run yet
    when the handler returns. *)
Definition StreamingResponse : PyVal :=
  VDict [("media_type", VStr "text/event-stream")].

Definition stream_events : Run := ret StreamingResponse.

Definition status_error (message : string) : PyVal :=
  VDict [("status", VStr "error"); ("message", VStr message)].

Definition get_server_status (g : Globals) (ctx : Context) : Run :=
  match cache_service g, rate_limiting_service g, usage_service g with
  | Some cache, Some rate, Some usage =>
      try_except
        (run_bind (call cache "cache_service" "get_stats" []) (fun cache_stats =>
         run_bind (call rate "rate_limiting_service" "get_all_rate_limit_status" [])
           (fun rate_limit_status =>
         run_bind (call usage "usage_service" "get_usage_stats" []) (fun usage_stats =>
         ret (VDict
                [ ("status", VStr "healthy");
                  ("server",
                    VDict
                      [ ("name",
                          VStr (match config g with
                                | Some c => fst c
                                | None => "openedu-mcp-server"
                                end));
                        ("version",
                          VStr (match config g with
                                | Some c => snd c
                                | None => "1.0.0"
                                end)) ]);
                  ("cache", cache_stats);
                  ("rate_limits", rate_limit_status);
                  ("usage", usage_stats);
                  ("message",
                    VStr "OpenEdu MCP Server is running with core infrastructure ready")
                ])))))
        (fun e => Return (status_error ("Failed to get server status: " +:+ str e)))
  | _, _, _ => ret (status_error "Server services not properly initialized")
  end.

Section Dispatch.

(** [str.upper] leaves the range of code points below 256 (on U+00B5 and
    U+00FF), so it is a parameter of [handle_stdio_input]. *)
Variable upper : string -> string.

Definition handle_stdio_input (ctx : Context) (input_string : string) : Run :=
  if negb (PyStr.truthy input_string) then
    raise (OpenEduMCPError "Input string cannot be empty" None)
  else
    try_except (ret (VStr ("Processed: " +:+ upper input_string)))
      (reraise "Failed to process stdio input").

(** A call of a registered tool by name, with its typed arguments. *)
Inductive Request : Type :=
| SearchEducationalBooks (query : string) (subject grade_level : option string)
    (limit : Z)
| GetBookDetailsByIsbn (isbn : string) (include_cover : bool)
| SearchBooksBySubject (subject : string) (grade_level : option string) (limit : Z)
| GetBookRecommendations (grade_level : string) (subject : option string) (limit : Z)
| SearchEducationalArticles (query : string) (subject grade_level : option string)
    (language : string) (limit : Z)
| GetArticleSummary (title language : string) (include_educational_analysis : bool)
| GetArticleContent (title language : string) (include_images : bool)
| GetFeaturedArticle (date : option string) (language : string)
| GetArticlesBySubject (subject : string) (grade_level : option string)
    (language : string) (limit : Z)
| GetWordDefinition (word : string) (grade_level : option string)
    (include_pronunciation : bool)
| GetVocabularyAnalysis (word : string) (context : option string)
| GetWordExamples (word : string) (grade_level subject : option string)
| GetPronunciationGuide (word : string) (include_audio : bool)
| GetRelatedVocabulary (word relationship_type : string)
    (grade_level : option string) (limit : Z)
| SearchAcademicPapers (query : string) (subject academic_level : option string)
    (max_results : Z) (include_educational_analysis : bool)
| GetPaperSummary (paper_id : string) (include_educational_analysis : bool)
| GetRecentResearch (subject : string) (days : Z) (academic_level : option string)
    (max_results : Z)
| GetResearchByLevel (academic_level : string) (subject : option string)
    (max_results : Z)
| AnalyzeResearchTrends (subject : string) (days : Z)
| HandleStdioInput (input_string : string)
| StreamEvents
| GetServerStatus.

(** The framework's routing of a request to its registered handler. *)
Definition dispatch (g : Globals) (ctx : Context) (req : Request) : Run :=
  match req with
  | SearchEducationalBooks q s gl l => search_educational_books g ctx q s gl l
  | GetBookDetailsByIsbn i c => get_book_details_by_isbn g ctx i c
  | SearchBooksBySubject s gl l => search_books_by_subject g ctx s gl l
  | GetBookRecommendations gl s l => get_book_recommendations g ctx gl s l
  | SearchEducationalArticles q s gl la l =>
      search_educational_articles g ctx q s gl la l
  | GetArticleSummary t la a => get_article_summary g ctx t la a
  | GetArticleContent t la i => get_article_content g ctx t la i
  | GetFeaturedArticle d la => get_featured_article g ctx d la
  | GetArticlesBySubject s gl la l => get_articles_by_subject g ctx s gl la l
  | GetWordDefinition w gl p => get_word_definition g ctx w gl p
  | GetVocabularyAnalysis w c => get_vocabulary_analysis g ctx w c
  | GetWordExamples w gl s => get_word_examples g ctx w gl s
  | GetPronunciationGuide w a => get_pronunciation_guide g ctx w a
  | GetRelatedVocabulary w r gl l => get_related_vocabulary g ctx w r gl l
  | SearchAcademicPapers q s al m a => search_academic_papers g ctx q s al m a
  | GetPaperSummary p a => get_paper_summary g ctx p a
  | GetRecentResearch s d al m => get_recent_research g ctx s d al m
  | GetResearchByLevel al s m => get_research_by_level g ctx al s m
  | AnalyzeResearchTrends s d => analyze_research_trends g ctx s d
  | HandleStdioInput i => handle_stdio_input ctx i
  | StreamEvents => stream_events
  | GetServerStatus => get_server_status g ctx
  end.

End Dispatch.

(** The text that a handler puts in front of [str(e)] when it re-raises. *)
Definition failure_text (req : Request) : string :=
  match req with
  | SearchEducationalBooks _ _ _ _ => "Book search failed"
  | GetBookDetailsByIsbn _ _ => "Book details retrieval failed"
  | SearchBooksBySubject _ _ _ => "Subject search failed"
  | GetBookRecommendations _ _ _ => "Book recommendations failed"
  | SearchEducationalArticles _ _ _ _ _ => "Article search failed"
  | GetArticleSummary _ _ _ => "Article summary retrieval failed"
  | GetArticleContent _ _ _ => "Article content retrieval failed"
  | GetFeaturedArticle _ _ => "Featured article retrieval failed"
  | GetArticlesBySubject _ _ _ _ => "Subject articles retrieval failed"
  | GetWordDefinition _ _ _ => "Word definition retrieval failed"
  | GetVocabularyAnalysis _ _ => "Vocabulary analysis failed"
  | GetWordExamples _ _ _ => "Word examples retrieval failed"
  | GetPronunciationGuide _ _ => "Pronunciation guide retrieval failed"
  | GetRelatedVocabulary _ _ _ _ => "Related vocabulary retrieval failed"
  | SearchAcademicPapers _ _ _ _ _ => "Academic paper search failed"
  | GetPaperSummary _ _ => "Paper summary retrieval failed"
  | GetRecentResearch _ _ _ _ => "Recent research retrieval failed"
  | GetResearchByLevel _ _ _ => "Research by level retrieval failed"
  | AnalyzeResearchTrends _ _ => "Research trend analysis failed"
  | HandleStdioInput _ => "Failed to process stdio input"
  | StreamEvents => ""
  | GetServerStatus => "Failed to get server status"
  end.

(** What a handler does with an exception [e] that its [except Exception]
    clause catches: [get_server_status] returns an error status, every other
    handler raises [OpenEduMCPError] with its own text in front. *)
Definition caught (req : Request) (e : PyExc) : Result PyVal :=
  match req with
  | GetServerStatus => Return (status_error (failure_text req +:+ ": " +:+ str e))
  | _ => reraise (failure_text req) e
  end.

(** The inputs that the validation of [search_educational_books] and
    [get_word_definition] is said to reject: a query or word that is empty or
    only whitespace, a grade level that is given and is not one of the five
    names, a limit outside 1..50. [given] says when a grade level counts as
    given. *)
Definition bad_grade_level (given : string -> bool) (grade_level : option string)
  : Prop :=
  exists gl, grade_level = Some gl /\ given gl = true /\ ~ In gl grade_level_names.

Definition invalid_input (given : string -> bool) (req : Request) : Prop :=
  match req with
  | SearchEducationalBooks query _ grade_level limit =>
      PyStr.all_space query = true \/ bad_grade_level given grade_level
      \/ (limit < 1)%Z \/ (limit > 50)%Z
  | GetWordDefinition word grade_level _ =>
      PyStr.all_space word = true \/ bad_grade_level given grade_level
  | _ => False
  end.

(** "grade_level is given": anything but [None]. *)
Definition any_string (gl : string) : bool := true.

(** The calls that a run made, and whether one of them raised [e]. *)
Definition callee_raised (r : Run) (e : PyExc) : Prop :=
  exists inv, (inv, Fail e) ∈ fst r.

(** The four tool objects, each with the global that holds it and the name
    that the handlers use for it in their messages. *)
Inductive ToolKind : Type := OpenLibrary | Wikipedia | Dictionary | Arxiv.

Definition tool_global (g : Globals) (k : ToolKind) : option Object :=
  match k with
  | OpenLibrary => openlibrary_tool g
  | Wikipedia => wikipedia_tool g
  | Dictionary => dictionary_tool g
  | Arxiv => arxiv_tool g
  end.

Definition tool_variable (k : ToolKind) : string :=
  match k with
  | OpenLibrary => "openlibrary_tool"
  | Wikipedia => "wikipedia_tool"
  | Dictionary => "dictionary_tool"
  | Arxiv => "arxiv_tool"
  end.

Definition tool_label (k : ToolKind) : string :=
  match k with
  | OpenLibrary => "Open Library"
  | Wikipedia => "Wikipedia"
  | Dictionary => "Dictionary"
  | Arxiv => "arXiv"
  end.

(** The tool that a request is for; the last three handlers use none. *)
Definition tool_of (req : Request) : option ToolKind :=
  match req with
  | SearchEducationalBooks _ _ _ _ | GetBookDetailsByIsbn _ _
  | SearchBooksBySubject _ _ _ | GetBookRecommendations _ _ _ => Some OpenLibrary
  | SearchEducationalArticles _ _ _ _ _ | GetArticleSummary _ _ _
  | GetArticleContent _ _ _ | GetFeaturedArticle _ _
  | GetArticlesBySubject _ _ _ _ => Some Wikipedia
  | GetWordDefinition _ _ _ | GetVocabularyAnalysis _ _ | GetWordExamples _ _ _
  | GetPronunciationGuide _ _ | GetRelatedVocabulary _ _ _ _ => Some Dictionary
  | SearchAcademicPapers _ _ _ _ _ | GetPaperSummary _ _ | GetRecentResearch _ _ _ _
  | GetResearchByLevel _ _ _ | AnalyzeResearchTrends _ _ => Some Arxiv
  | HandleStdioInput _ | StreamEvents | GetServerStatus => None
  end.

(** The name under which a handler is registered. *)
Definition handler_name (req : Request) : string :=
  match req with
  | SearchEducationalBooks _ _ _ _ => "search_educational_books"
  | GetBookDetailsByIsbn _ _ => "get_book_details_by_isbn"
  | SearchBooksBySubject _ _ _ => "search_books_by_subject"
  | GetBookRecommendations _ _ _ => "get_book_recommendations"
  | SearchEducationalArticles _ _ _ _ _ => "search_educational_articles"
  | GetArticleSummary _ _ _ => "get_article_summary"
  | GetArticleContent _ _ _ => "get_article_content"
  | GetFeaturedArticle _ _ => "get_featured_article"
  | GetArticlesBySubject _ _ _ _ => "get_articles_by_subject"
  | GetWordDefinition _ _ _ => "get_word_definition"
  | GetVocabularyAnalysis _ _ => "get_vocabulary_analysis"
  | GetWordExamples _ _ _ => "get_word_examples"
  | GetPronunciationGuide _ _ => "get_pronunciation_guide"
  | GetRelatedVocabulary _ _ _ _ => "get_related_vocabulary"
  | SearchAcademicPapers _ _ _ _ _ => "search_academic_papers"
  | GetPaperSummary _ _ => "get_paper_summary"
  | GetRecentResearch _ _ _ _ => "get_recent_research"
  | GetResearchByLevel _ _ _ => "get_research_by_level"
  | AnalyzeResearchTrends _ _ => "analyze_research_trends"
  | HandleStdioInput _ => "handle_stdio_input"
  | StreamEvents => "stream_events"
  | GetServerStatus => "get_server_status"
  end.

(** A grade level that the validation lets through: none, the empty string,
    or one of the five names. *)
Definition acceptable_grade_level (grade_level : option string) : Prop :=
  match grade_level with
  | None => True
  | Some gl => gl = "" \/ In gl grade_level_names
  end.

(** The value under "status" in a status report. *)
Definition status_of (report : PyVal) : option PyVal :=
  match report with
  | VDict d => PyDict.get "status" d
  | _ => None
  end.

(** *** sse_event_generator *)

(** [json.dumps] of a string: the quotes, with the backslash, the double
    quote and every character outside the printable ASCII range escaped. *)
Definition hex_digit (n : N) : ascii :=
  if (n <? 10)%N then ascii_of_N (48 + n) else ascii_of_N (87 + n).

Definition json_escape_char (c : ascii) : string :=
  let n := N_of_ascii c in
  if (n =? 34)%N then String "092" (String "034" EmptyString)
  else if (n =? 92)%N then "\\"
  else if (n =? 10)%N then "\n"
  else if (n =? 13)%N then "\r"
  else if (n =? 9)%N then "\t"
  else if (n =? 8)%N then "\b"
  else if (n =? 12)%N then "\f"
  else if ((32 <=? n) && (n <=? 126))%N then String c EmptyString
  else "\u00" +:+ String (hex_digit (n / 16)) (String (hex_digit (n mod 16)) EmptyString).

Fixpoint json_escape (s : string) : string :=
  match s with
  | EmptyString => EmptyString
  | String c s' => json_escape_char c +:+ json_escape s'
  end.

Definition json_string (s : string) : string :=
  String "034" (json_escape s +:+ String "034" EmptyString).

Definition sse_event (event data : string) : string :=
  "event: " +:+ event +:+ String "010" ("data: " +:+ data
    +:+ String "010" (String "010" EmptyString)).

Definition connected_event : string :=
  sse_event "connected"
    ("{" +:+ json_string "message" +:+ ": "
     +:+ json_string "Successfully connected to SSE stream" +:+ "}").

Definition ping_event (loop_count : nat) : string :=
  sse_event "ping"
    ("{" +:+ json_string "heartbeat" +:+ ": " +:+ PyStr.of_int (Z.of_nat loop_count)
     +:+ ", " +:+ json_string "message" +:+ ": " +:+ json_string "ping" +:+ "}").

Definition error_event (e : PyExc) : string :=
  sse_event "error" ("{" +:+ json_string "error" +:+ ": " +:+ json_string (str e) +:+ "}").

(** One turn of the loop as the surroundings decide it: what
    [request.is_disconnected()] answers, and the exception that ends
    [asyncio.sleep(5)] early, if any. *)
Record Turn : Type := { probe : Result bool; sleep : option PyExc }.

(** How the generator stands after the turns it was given: exhausted,
    stopped by an exception that it does not handle, or waiting in its loop
    for the next turn. *)
Inductive Ending : Type :=
| Finished
| Escaped (e : PyExc)
| Waiting.

(** The [except] clauses of the generator: a cancellation ends it quietly,
    an [Exception] gives one last error event, anything else passes. *)
Definition sse_except (e : PyExc) : list string * Ending :=
  match e with
  | BuiltinExc CancelledError _ => ([], Finished)
  | _ => if isinstance_Exception e then ([error_event e], Finished) else ([], Escaped e)
  end.

(** The loop of [sse_event_generator], from the count reached so far. *)
Fixpoint sse_loop (loop_count : nat) (turns : list Turn) : list string * Ending :=
  match turns with
  | [] => ([], Waiting)
  | t :: rest =>
      match probe t with
      | Return true => ([], Finished)
      | Return false =>
          let loop_count := S loop_count in
          let '(events, ending) :=
            match sleep t with
            | None => sse_loop loop_count rest
            | Some e => sse_except e
            end in
          (ping_event loop_count :: events, ending)
      | Fail e => sse_except e
      end
  end.

(** The events that the generator yields over the given turns. *)
Definition sse_event_generator (turns : list Turn) : list string * Ending :=
  let '(events, ending) := sse_loop 0 turns in
  (connected_event :: events, ending).


(** A turn in which the client is still connected and the pause is not
    disturbed. *)
Definition quiet_turn : Turn := {| probe := Return false; sleep := None |}.

End Main.

(** ** services/cache_service.py *)

Module CacheService.

(** Modelled from the spec: services/cache_service.py is not part of the
    sources. The cache is the key/value store of the overview: keyed by a
    fingerprint of (API name, operation, parameters), each entry with its own
    expiration time, and with hit and miss counters. Times are in seconds. *)
Record Entry : Type := { value : PyVal; expires_at : Z }.

(** Modelled from the spec: the store with its basic statistics. *)
Record Cache : Type :=
  { entries : gmap string Entry; hits : nat; misses : nat }.

Definition empty : Cache := {| entries := ∅; hits := 0; misses := 0 |}.

Section Keys.

(** The hash behind the fingerprint. *)
Variable digest : string * string * list (string * PyVal) -> string.

(** Modelled from the spec: the parameters of a request put in canonical
    form, one entry per name in an order that the names alone decide,
    whatever the order in which the caller wrote them into the dictionary. *)
Definition canonical (params : PyDict.t) : list (string * PyVal) :=
  map_to_list (list_to_map params : gmap string PyVal).

(** Modelled from the spec: the fingerprint of (API name, operation,
    parameters) that keys the store. *)
Definition generate_cache_key (api_name operation : string) (params : PyDict.t)
  : string :=
  digest (api_name, operation, canonical params).

End Keys.

(** Modelled from the spec: store [v] under [key] for [ttl] seconds from
    [now]. *)
Definition set (key : string) (v : PyVal) (ttl now : Z) (c : Cache) : Cache :=
  {| entries := <[key := {| value := v; expires_at := now + ttl |}]> (entries c);
     hits := hits c; misses := misses c |}.

(** Modelled from the spec: look [key] up at time [now]; an entry whose
    expiration time has come is dropped and counts as a miss. *)
Definition get (key : string) (now : Z) (c : Cache) : option PyVal * Cache :=
  match entries c !! key with
  | Some e =>
      if (now <? expires_at e)%Z then
        (Some (value e),
         {| entries := entries c; hits := S (hits c); misses := misses c |})
      else
        (None,
         {| entries := delete key (entries c); hits := hits c;
            misses := S (misses c) |})
  | None =>
      (None, {| entries := entries c; hits := hits c; misses := S (misses c) |})
  end.

(** Modelled from the spec: remove [key] from the store. *)
Definition delete (key : string) (c : Cache) : Cache :=
  {| entries := base.delete key (entries c); hits := hits c; misses := misses c |}.

(** Modelled from the spec: drop every entry that has expired by [now]. *)
Definition cleanup_expired (now : Z) (c : Cache) : Cache :=
  {| entries := filter (fun kv => (now < expires_at kv.2)%Z) (entries c);
     hits := hits c; misses := misses c |}.

Section Responses.

Variable digest : string * string * list (string * PyVal) -> string.



End Responses.

(** Modelled from the spec: the operations of the store, for sequences of
    them. *)
Inductive Op : Type :=
| Get (key : string) (now : Z)
| Set_ (key : string) (v : PyVal) (ttl now : Z)
| Delete (key : string)
| Cleanup (now : Z).

Definition step (c : Cache) (op : Op) : Cache :=
  match op with
  | Get key now => snd (get key now c)
  | Set_ key v ttl now => set key v ttl now c
  | Delete key => delete key c
  | Cleanup now => cleanup_expired now c
  end.

Definition run (ops : list Op) (c : Cache) : Cache := fold_left step ops c.

(** An operation that writes or removes [key] on request. *)
Definition writes (key : string) (op : Op) : bool :=
  match op with
  | Set_ k _ _ _ | Delete k => String.eqb k key
  | Get _ _ | Cleanup _ => false
  end.

(** The time at which an operation runs, when it reads the clock. *)
Definition at_time (op : Op) : option Z :=
  match op with
  | Get _ now | Set_ _ _ _ now | Cleanup now => Some now
  | Delete _ => None
  end.

Definition not_after (u : Z) (op : Op) : Prop :=
  match at_time op with Some t => (t <= u)%Z | None => True end.

End CacheService.

(** ** services/rate_limiting_service.py *)

Module RateLimitingService.

(** Modelled from the spec: services/rate_limiting_service.py is not part of
    the sources. The limiter is the fixed-window request counter of the
    overview: per upstream API a budget of calls per window of [window]
    seconds (at least one); window number [w] covers the times [t] with
    [t / window = w]. *)
Record Limit : Type := { budget : nat; window : positive }.

Definition width (l : Limit) : Z := Z.pos (window l).

(** Modelled from the spec: the counter of one API, the window it counts for
    and the calls let through in that window. *)
Record Counter : Type := { window_index : Z; count : nat }.

(** Modelled from the spec: the limiter with its clock, the counters per API
    and, for the statements below, the calls it has forwarded with their
    times. *)
Record Limiter : Type :=
  { clock : Z;
    counters : gmap string Counter;
    forwarded : list (string * Z) }.

(** Modelled from the spec: what the limiter does with a call that exceeds
    the budget, "rejecting or delaying". *)
Inductive Mode : Type := Reject | Delay.

Inductive Decision : Type :=
| Forwarded (time : Z)
| Rejected (e : Exceptions.PyExc).

(** Modelled from the spec: the counter after letting one more call through
    at time [now], or [None] when the budget of the window of [now] is used
    up. *)
Definition take_slot (l : Limit) (c : option Counter) (now : Z) : option Counter :=
  let w := (now / width l)%Z in
  let used :=
    match c with
    | Some c => if (window_index c =? w)%Z then count c else 0
    | None => 0
    end in
  if (used <? budget l)%nat then Some {| window_index := w; count := S used |} else None.

Definition next_window_start (l : Limit) (now : Z) : Z :=
  ((now / width l + 1) * width l)%Z.

Definition rate_limit_error (api : string) (l : Limit) (now : Z) : Exceptions.PyExc :=
  Exceptions.RateLimitError "Rate limit exceeded" api
    (Some (next_window_start l now - now)%Z) None.

(** Modelled from the spec: one call to [api] arriving at [now]. It is
    forwarded at once if the window has budget left; otherwise it is rejected
    with a [RateLimitError], or held until the next window starts. An API
    without a configured limit is not limited. *)
Definition acquire (cfg : gmap string Limit) (mode : Mode) (api : string) (now : Z)
    (cs : gmap string Counter) : Decision * gmap string Counter :=
  match cfg !! api with
  | None => (Forwarded now, cs)
  | Some l =>
      match take_slot l (cs !! api) now with
      | Some c => (Forwarded now, <[api := c]> cs)
      | None =>
          match mode with
          | Reject => (Rejected (rate_limit_error api l now), cs)
          | Delay =>
              let later := next_window_start l now in
              match take_slot l (cs !! api) later with
              | Some c => (Forwarded later, <[api := c]> cs)
              | None => (Rejected (rate_limit_error api l now), cs)
              end
          end
      end
  end.

(** Modelled from the spec: a call as it arrives, [elapsed] seconds after the
    previous call was settled. *)
Record Arrival : Type := { elapsed : N; api_name : string; mode : Mode }.

Definition step (cfg : gmap string Limit) (st : Limiter) (a : Arrival) : Limiter :=
  let now := (clock st + Z.of_N (elapsed a))%Z in
  match acquire cfg (mode a) (api_name a) now (counters st) with
  | (Forwarded t, cs) =>
      {| clock := t; counters := cs; forwarded := forwarded st ++ [(api_name a, t)] |}
  | (Rejected _, cs) =>
      {| clock := now; counters := cs; forwarded := forwarded st |}
  end.

Definition start (t0 : Z) : Limiter :=
  {| clock := t0; counters := ∅; forwarded := [] |}.

Definition run (cfg : gmap string Limit) (arrivals : list Arrival) (st : Limiter)
  : Limiter :=
  fold_left (step cfg) arrivals st.

(** How many of the forwarded calls went to [api] during window [w]. *)
Definition in_window (api : string) (l : Limit) (w : Z) (call : string * Z) : bool :=
  String.eqb call.1 api && (call.2 / width l =? w)%Z.

Definition forwarded_in (api : string) (l : Limit) (w : Z) (log : list (string * Z))
  : nat :=
  length (List.filter (in_window api l w) log).

(** The bookkeeping that the limiter keeps for [api] under the limit [l]:
    no window over budget, the counter of [api] in step with the forwarded
    calls of its window, and nothing forwarded in a later window. *)
Record consistent (api : string) (l : Limit) (st : Limiter) : Prop :=
  { within_budget :
      forall w, forwarded_in api l w (forwarded st) <= budget l;
    counter_matches :
      forall c, counters st !! api = Some c ->
        (window_index c <= clock st / width l)%Z
        /\ count c = forwarded_in api l (window_index c) (forwarded st)
        /\ forall w, (window_index c < w)%Z ->
             forwarded_in api l w (forwarded st) = 0;
    no_counter_no_calls :
      counters st !! api = None ->
      forall w, forwarded_in api l w (forwarded st) = 0 }.

End RateLimitingService.

(** ** services/usage_service.py *)

Module UsageService.

(** Modelled from the spec: services/usage_service.py is not part of the
    sources. The tracker is the log of tool invocations of the overview. *)
Record UsageRecord : Type :=
  { tool_name : string;
    method_name : string;
    user_session : option string;
    timestamp : Z;
    success : bool }.

(** Modelled from the spec: the log, oldest record first. *)
Definition Log := list UsageRecord.

(** Modelled from the spec: a tool invocation is recorded at the end of the
    log. *)
Definition record_usage (r : UsageRecord) (log : Log) : Log := log ++ [r].

(** Modelled from the spec: the report counts the invocations of each kind;
    it reads the log and leaves it as it is. *)
Definition get_usage_stats (log : Log) : PyVal * Log :=
  (VDict
     [ ("total_requests", VInt (Z.of_nat (length log)));
       ("successful_requests",
         VInt (Z.of_nat (length (List.filter success log)))) ],
   log).

(** Modelled from the spec: the records of one tool, read off the log. *)
Definition get_usage_by_tool (tool : string) (log : Log) : list UsageRecord * Log :=
  (List.filter (fun r => String.eqb (tool_name r) tool) log, log).

Inductive Op : Type :=
| RecordUsage (r : UsageRecord)
| GetUsageStats
| GetUsageByTool (tool : string).

Definition step (log : Log) (op : Op) : Log :=
  match op with
  | RecordUsage r => record_usage r log
  | GetUsageStats => snd (get_usage_stats log)
  | GetUsageByTool tool => snd (get_usage_by_tool tool log)
  end.

Definition run (ops : list Op) (log : Log) : Log := fold_left step ops log.

Definition is_record (op : Op) : bool :=
  match op with RecordUsage _ => true | _ => false end.


(** Modelled from the spec: the four tools are built with the tracker
    (main.py 106-138) and log the invocations made on them, so a call that a
    handler makes on a tool object leaves one record, whether the call
    returns or raises. The handlers themselves use the tracker for its
    report only ([get_server_status]). *)
Definition tool_variables : list string :=
  ["openlibrary_tool"; "wikipedia_tool"; "dictionary_tool"; "arxiv_tool"].

(** Modelled from the spec: a call on one of the four tool objects. *)
Definition on_tool (inv : Main.Invocation) : bool :=
  existsb (String.eqb (Main.target inv)) tool_variables.

(** Modelled from the spec: the record of one call on a tool. *)
Definition record_of (now : Z) (call : Main.Invocation * Result PyVal) : UsageRecord :=
  {| tool_name := Main.target call.1;
     method_name := Main.method call.1;
     user_session :=
       match PyDict.get "user_session" (Main.kwargs call.1) with
       | Some (VStr session) => Some session
       | _ => None
       end;
     timestamp := now;
     success := match call.2 with Return _ => true | Fail _ => false end |}.

(** Modelled from the spec: what one call of a handler does to the tracker. *)
Definition tracker_ops (now : Z) (call : Main.Invocation * Result PyVal) : list Op :=
  if on_tool call.1 then [RecordUsage (record_of now call)]
  else if String.eqb (Main.target call.1) "usage_service"
          && String.eqb (Main.method call.1) "get_usage_stats"
  then [GetUsageStats]
  else [].

(** Modelled from the spec: what happens to the tracker. A registered
    handler of main.py is invoked at time [now] with the globals and the
    context of that moment, or an operation of the tracker is run on its
    own. *)
Inductive Event : Type :=
| Handle (now : Z) (g : Main.Globals) (ctx : Main.Context) (req : Main.Request)
| Tracker (op : Op).

Section Serving.

Variable upper : string -> string.

(** Modelled from the spec: the tracker operations of one event; for a
    handler they are those of the calls that the handler of main.py makes. *)
Definition ops_of (e : Event) : list Op :=
  match e with
  | Handle now g ctx req =>
      flat_map (tracker_ops now) (fst (Main.dispatch upper g ctx req))
  | Tracker op => [op]
  end.

(** Modelled from the spec: the log after a sequence of events. *)
Definition serve (events : list Event) (log : Log) : Log :=
  run (flat_map ops_of events) log.

(** The handler made a call on a tool object, or the operation is
    [record_usage]. *)
Definition forwarded (e : Event) : bool :=
  match e with
  | Handle now g ctx req =>
      existsb (fun call => on_tool call.1) (fst (Main.dispatch upper g ctx req))
  | Tracker op => is_record op
  end.


End Serving.

End UsageService.

(** ** Sample data for the concrete checks *)

Module Samples.

Import Base Datetime.

Definition epoch : datetime :=
  {| on := {| year := 2025; month := 1; day := 1 |};
     hour := 0; minute := 0; second := 0; microsecond := 0 |}.

(** The value of [EducationalMetadata()] taken for the examples. *)
Definition fresh_metadata : EducationalMetadata :=
  {| grade_levels := []; curriculum_alignment := []; educational_subjects := [];
     educational_relevance_score := 0%float; reading_level := None;
     difficulty_level := None |}.

Definition plain_book (score : float) (lexile : option Z) : Book.Book :=
  {| Book.id := "OL1W"; Book.title := "Counting"; Book.authors := ["A. Author"];
     Book.isbn := None; Book.isbn13 := Some "9781234567890";
     Book.publication_date := Some {| year := 1987; month := 6; day := 5 |};
     Book.publisher := None; Book.subjects := ["Mathematics"];
     Book.description := Some ""; Book.cover_url := None;
     Book.page_count := Some 0%Z; Book.language := "en";
     Book.educational_metadata :=
       {| grade_levels := []; curriculum_alignment := [];
          educational_subjects := []; educational_relevance_score := score;
          reading_level := None; difficulty_level := None |};
     Book.lexile_score := lexile; Book.source := "open_library";
     Book.source_url := None;
     Book.created_at := epoch;
     Book.updated_at :=
       {| on := {| year := 2025; month := 12; day := 31 |};
          hour := 23; minute := 59; second := 58; microsecond := 1200 |} |}.

(** An interpreter for the examples: it reads no ISO text but the ones that
    [isoformat] writes, takes a UTC offset below one second for UTC as
    CPython does, and writes a float, a list or a dictionary as three dots. *)
Definition interpreter : Interpreter :=
  {| str_of_value := fun _ => Return "...";
     date_fromisoformat_other :=
       fun s => Fail (ValueError ("Invalid isoformat string: " +:+ s));
     datetime_fromisoformat_other :=
       fun s => Fail (ValueError ("Invalid isoformat string: " +:+ s));
     subsecond_offset_as_utc := true;
     slice_of_dict := TypeError "unhashable type: 'slice'" |}.

(** A limiter configuration: two calls a minute to arXiv. *)
Definition limits : gmap string RateLimitingService.Limit :=
  {[ "arxiv" := {| RateLimitingService.budget := 2;
                   RateLimitingService.window := 60 |} ]}.

Definition arxiv_limit : RateLimitingService.Limit :=
  {| RateLimitingService.budget := 2; RateLimitingService.window := 60 |}.

Definition arrival (elapsed : N) (api : string) (mode : RateLimitingService.Mode)
  : RateLimitingService.Arrival :=
  {| RateLimitingService.elapsed := elapsed;
     RateLimitingService.api_name := api;
     RateLimitingService.mode := mode |}.

Definition burst : list RateLimitingService.Arrival :=
  [ arrival 1 "arxiv" RateLimitingService.Reject;
    arrival 1 "arxiv" RateLimitingService.Reject;
    arrival 1 "arxiv" RateLimitingService.Reject;
    arrival 1 "wikipedia" RateLimitingService.Reject;
    arrival 1 "arxiv" RateLimitingService.Delay;
    arrival 0 "arxiv" RateLimitingService.Reject;
    arrival 0 "arxiv" RateLimitingService.Reject ].

(** A stand-in for the hash of the cache keys: it joins the names. *)
Definition toy_digest (x : string * string * list (string * PyVal)) : string :=
  x.1.1 +:+ ":" +:+ x.1.2 +:+ ":" +:+ String.concat "," (fst <$> x.2).

(** The same parameters written in two orders. *)
Definition params_query_first : PyDict.t :=
  [("query", VStr "algebra"); ("limit", VInt 10)].

Definition params_limit_first : PyDict.t :=
  [("limit", VInt 10); ("query", VStr "algebra")].

(** Globals after a successful [initialize_services], every tool and service
    answering each call the same way. *)
Definition globals_answering (answer : Result PyVal) : Main.Globals :=
  {| Main.cache_service := Some (fun _ => answer);
     Main.rate_limiting_service := Some (fun _ => answer);
     Main.usage_service := Some (fun _ => answer);
     Main.config := Some ("openedu-mcp-server", "1.0.0");
     Main.openlibrary_tool := Some (fun _ => answer);
     Main.wikipedia_tool := Some (fun _ => answer);
     Main.dictionary_tool := Some (fun _ => answer);
     Main.arxiv_tool := Some (fun _ => answer) |}.

(** [str.upper] on strings of ASCII characters. *)
Definition ascii_upper_char (c : ascii) : ascii :=
  let n := nat_of_ascii c in
  if ((97 <=? n) && (n <=? 122))%nat then ascii_of_nat (n - 32) else c.

Fixpoint ascii_upper (s : string) : string :=
  match s with
  | EmptyString => EmptyString
  | String c s' => String (ascii_upper_char c) (ascii_upper s')
  end.

Definition no_session : Main.Context := {| Main.session_id := None |}.

(** The run of a request without a session, against globals that answer
    every call with [answer]. *)
Definition handle (answer : Result PyVal) (req : Main.Request) : Main.Run :=
  Main.dispatch ascii_upper (globals_answering answer) no_session req.

Definition db_down : Exceptions.PyExc :=
  Exceptions.BuiltinExc (Exceptions.OtherException "RuntimeError") "db down".

Definition cancelled : Exceptions.PyExc :=
  Exceptions.BuiltinExc Exceptions.CancelledError "".

(** The Open Library record of the test suite, in full. *)
Definition full_ol_data : PyDict.t :=
  [ ("key", VStr "/works/OL123456W");
    ("title", VStr "Test Educational Book");
    ("author_name", VList [VStr "Test Author"; VStr "Another Author"]);
    ("first_publish_year", VInt 2020);
    ("isbn", VList [VStr "1234567890"; VStr "9781234567890"]);
    ("publisher", VList [VStr "Test Publisher"]);
    ("subject", VList [VStr "Mathematics"; VStr "Education"; VStr "Elementary"]);
    ("cover_i", VInt 12345);
    ("number_of_pages_median", VInt 150);
    ("language", VList [VStr "eng"]);
    ("description",
      VStr "A comprehensive educational book for elementary mathematics.") ].

(** The book that the tests expect for it. *)
Definition test_book : Book.Book :=
  {| Book.id := "OL123456W"; Book.title := "Test Educational Book";
     Book.authors := ["Test Author"; "Another Author"];
     Book.isbn := Some "1234567890"; Book.isbn13 := Some "9781234567890";
     Book.publication_date := Some {| year := 2020; month := 1; day := 1 |};
     Book.publisher := Some "Test Publisher";
     Book.subjects := ["Mathematics"; "Education"; "Elementary"];
     Book.description :=
       Some "A comprehensive educational book for elementary mathematics.";
     Book.cover_url := Some "https://covers.openlibrary.org/b/id/12345-L.jpg";
     Book.page_count := Some 150%Z; Book.language := "eng";
     Book.educational_metadata :=
       {| grade_levels := [K_2]; curriculum_alignment := [];
          educational_subjects := ["Mathematics"; "Education"; "Elementary"];
          educational_relevance_score := 0%float; reading_level := None;
          difficulty_level := None |};
     Book.lexile_score := None; Book.source := "open_library";
     Book.source_url := Some "https://openlibrary.org/works/OL123456W";
     Book.created_at := epoch; Book.updated_at := epoch |}.

(** An object as [from_dict] can leave it: a description that is a
    dictionary, a page count that is a float, authors that are one string,
    and a timestamp with an offset from UTC. *)
Definition odd_book : Book.Object.t :=
  {| Book.Object.id := VStr "OL1W";
     Book.Object.title := VStr "Counting";
     Book.Object.authors := VStr "A. Author";
     Book.Object.isbn := VNone;
     Book.Object.isbn13 := VInt 9781234567890;
     Book.Object.publication_date := Some {| year := 1987; month := 6; day := 5 |};
     Book.Object.publisher := VNone;
     Book.Object.subjects := VList [VStr "Mathematics"];
     Book.Object.description := VDict [("value", VStr "About numbers")];
     Book.Object.cover_url := VNone;
     Book.Object.page_count := VFloat 32.5%float;
     Book.Object.language := VStr "en";
     Book.Object.educational_metadata :=
       {| grade_levels := [K_2; GRADES_3_5];
          curriculum_alignment := [CurriculumStandard_of "Common Core"];
          educational_subjects := ["Mathematics"];
          educational_relevance_score := 0.5%float;
          reading_level := Some "Grade 2"; difficulty_level := None |};
     Book.Object.lexile_score := VInt 0;
     Book.Object.source := VStr "open_library";
     Book.Object.source_url := VNone;
     Book.Object.created_at := naive epoch;
     Book.Object.updated_at :=
       {| local :=
            {| on := {| year := 2025; month := 12; day := 31 |};
               hour := 23; minute := 59; second := 58; microsecond := 1200 |};
          utcoffset := Some (-19800000000)%Z |} |}.


(** The minimal record of the test suite. *)
Definition minimal_ol_data : PyDict.t :=
  [ ("key", VStr "/works/OL123456W"); ("title", VStr "Minimal Book") ].

Definition minimal_dict : PyDict.t :=
  [ ("id", VStr "OL1W"); ("title", VStr "Counting") ].

(** Globals before [initialize_services] has run. *)
Definition no_globals : Main.Globals :=
  {| Main.cache_service := None; Main.rate_limiting_service := None;
     Main.usage_service := None; Main.config := None;
     Main.openlibrary_tool := None; Main.wikipedia_tool := None;
     Main.dictionary_tool := None; Main.arxiv_tool := None |}.

Definition disconnect : Main.Turn :=
  {| Main.probe := Return true; Main.sleep := None |}.


End Samples.
(** * Properties *)

(** ** Sanity checks of the embedding on concrete inputs *)

Example str_rate_limit :
  Exceptions.str (Exceptions.RateLimitError "Too many requests" "arxiv" (Some 3%Z) None)
  = "Rate Limit Error (arxiv): Too many requests (Retry after: 3s)".
Proof. vm_compute. reflexivity. Qed.

Example isoformat_date :
  Datetime.date_isoformat {| Datetime.year := 987; Datetime.month := 6; Datetime.day := 5 |}
  = "0987-06-05".
Proof. vm_compute. reflexivity. Qed.

Example fromisoformat_datetime (other : string -> Result Datetime.timestamp)
    (as_utc : bool) :
  Datetime.datetime_fromisoformat other as_utc "2024-02-29T23:59:07.000120"
  = Return
      (Datetime.naive
         {| Datetime.on := {| Datetime.year := 2024; Datetime.month := 2; Datetime.day := 29 |};
            Datetime.hour := 23; Datetime.minute := 59; Datetime.second := 7;
            Datetime.microsecond := 120 |}).
Proof. destruct as_utc; vm_compute; reflexivity. Qed.

Example fromisoformat_offset (other : string -> Result Datetime.timestamp)
    (as_utc : bool) :
  Datetime.datetime_fromisoformat other as_utc "2024-02-29T23:59:07-05:30"
  = Return
      {| Datetime.local :=
           {| Datetime.on := {| Datetime.year := 2024; Datetime.month := 2; Datetime.day := 29 |};
              Datetime.hour := 23; Datetime.minute := 59; Datetime.second := 7;
              Datetime.microsecond := 0 |};
         Datetime.utcoffset := Some (-19800000000)%Z |}.
Proof. destruct as_utc; vm_compute; reflexivity. Qed.

(** An offset of one microsecond comes back as UTC from the C implementation
    of CPython. *)
Example fromisoformat_subsecond_offset (other : string -> Result Datetime.timestamp) :
  Datetime.utcoffset
    <$> [Datetime.datetime_fromisoformat other true "2024-02-29T23:59:07+00:00:00.000001";
         Datetime.datetime_fromisoformat other false "2024-02-29T23:59:07+00:00:00.000001"]
        ≫= (fun r => match r with Return t => [t] | Fail _ => [] end)
  = [Some 0%Z; Some 1%Z].
Proof. vm_compute. reflexivity. Qed.

Example isoformat_offset_with_seconds :
  Datetime.format_offset 3723000004 = "+01:02:03.000004".
Proof. vm_compute. reflexivity. Qed.

(** A text that [isoformat] does not write is left to the interpreter: a day
    that does not exist, a date without dashes, a date alone for a
    datetime. *)
Example fromisoformat_other_texts (other : string -> Result Datetime.date)
    (other' : string -> Result Datetime.timestamp) (as_utc : bool) :
  (Datetime.date_fromisoformat other "2023-02-29",
   Datetime.date_fromisoformat other "20230228",
   Datetime.datetime_fromisoformat other' as_utc "2023-02-28",
   Datetime.datetime_fromisoformat other' as_utc "2023-02-28 10:00:00")
  = (other "2023-02-29", other "20230228", other' "2023-02-28",
     other' "2023-02-28 10:00:00").
Proof. vm_compute. reflexivity. Qed.

Example infer_grade_levels_test_data :
  Book.infer_grade_levels ["Mathematics"; "Education"; "Elementary"; "Junior HIGH SCHOOL"] []
  = [Base.K_2; Base.GRADES_6_8].
Proof. vm_compute. reflexivity. Qed.

Example fallback_book_title :
  (fun item => PyDict.get "title" item)
    <$> Fallback._provide_educational_fallback "book" (Some "Earth Science") None
  = [Some (VStr "Earth Science Textbook for K-12")].
Proof. vm_compute. reflexivity. Qed.

Example fallback_article_url :
  (fun item => PyDict.get "url" item)
    <$> Fallback._provide_educational_fallback "article" (Some "Earth Science") (Some "")
  = [Some (VStr "https://example.com/education/earth_science")].
Proof. vm_compute. reflexivity. Qed.

(** ** Book: the educational score *)

Section EducationalScore.

Import Base Book.

Lemma min_float_cap (score : float) :
  min_float score 1.0%float
  = if PrimFloat.ltb 1.0%float score then 1.0%float else score.
Proof. reflexivity. Qed.

Lemma min_float_not_above (score : float) :
  PrimFloat.ltb 1.0%float (min_float score 1.0%float) = false.
Proof.
  rewrite min_float_cap.
  destruct (PrimFloat.ltb 1.0%float score) eqn:Hlt; [reflexivity | exact Hlt].
Qed.

(** C4, as stated: the boost of 0.1 is due whenever [lexile_score] is set.
    It fails for a book whose lexile score is set to 0: the code returns the
    base score 0.5, the stated sum is 0.5 + 0.1. *)
Lemma educational_score_lexile_zero :
  get_educational_score (Samples.plain_book 0.5%float (Some 0%Z))
  <> spec_educational_score is_set (Samples.plain_book 0.5%float (Some 0%Z)).
Proof.
  intro H.
  apply (f_equal (fun x => PrimFloat.ltb x 0.55%float)) in H.
  vm_compute in H. discriminate H.
Qed.

(** C4, amended: [get_educational_score] returns the base score plus 0.2 if
    [grade_levels] is non-empty, plus 0.3 if [curriculum_alignment] is
    non-empty, plus 0.1 if [educational_subjects] is non-empty, plus 0.1 if
    [lexile_score] is set and not zero, capped at 1.0; the returned score is
    never above 1.0. *)
Theorem get_educational_score_spec (b : Book) :
  get_educational_score b = spec_educational_score truthy_int b
  /\ PrimFloat.ltb 1.0%float (get_educational_score b) = false.
Proof.
  split.
  - unfold get_educational_score, spec_educational_score, boosts.
    rewrite min_float_cap.
    destruct (nonempty (grade_levels _)), (nonempty (curriculum_alignment _)),
      (nonempty (educational_subjects _)), (truthy_int _); reflexivity.
  - apply min_float_not_above.
Qed.

End EducationalScore.

Example educational_score_test :
  Book.get_educational_score (Samples.plain_book 0.95%float (Some 600%Z)) = 1.0%float.
Proof. vm_compute. reflexivity. Qed.

(** ** Book: grade levels and subjects from an Open Library record *)

Section OpenLibrary.

Import Base Datetime Book.

Lemma any_in_orb3 (a b c s : string) :
  any_in [a; b; c] s = PyStr.contains a s || PyStr.contains b s || PyStr.contains c s.
Proof. unfold any_in; simpl. rewrite orb_false_r, orb_assoc. reflexivity. Qed.

Lemma any_in_orb2 (a b s : string) :
  any_in [a; b] s = PyStr.contains a s || PyStr.contains b s.
Proof. unfold any_in; simpl. rewrite orb_false_r. reflexivity. Qed.

(** One turn of the loop appends what the first matching rule gives. *)
Lemma infer_grade_levels_cons (subject : string) (rest : list string)
    (acc : list GradeLevel) :
  infer_grade_levels (subject :: rest) acc
  = infer_grade_levels rest
      (acc ++ match spec_grade_of_subject subject with
              | Some g => [g]
              | None => []
              end).
Proof.
  unfold spec_grade_of_subject. cbn [infer_grade_levels].
  rewrite any_in_orb3, !any_in_orb2.
  repeat match goal with
         | |- context [if ?c then _ else _] => destruct c
         end; rewrite ?app_nil_r; reflexivity.
Qed.

Lemma infer_grade_levels_omap (subjects : list string) (acc : list GradeLevel) :
  infer_grade_levels subjects acc = acc ++ omap spec_grade_of_subject subjects.
Proof.
  revert acc. induction subjects as [|subject rest IH]; intros acc.
  - simpl. rewrite app_nil_r. reflexivity.
  - rewrite infer_grade_levels_cons, IH. cbn [omap list_omap].
    destruct (spec_grade_of_subject subject); simpl.
    + rewrite <- app_assoc. reflexivity.
    + rewrite app_nil_r. reflexivity.
Qed.

(** What a successful run of the constructor went through. *)
Lemma from_open_library_inv (py : Interpreter) (fresh : EducationalMetadata)
    (created updated : timestamp) (ol_data : PyDict.t) (b : Object.t) :
  from_open_library py fresh created updated ol_data = Return b ->
  exists work_id isbns subs,
    ol_work_id ol_data = Return work_id
    /\ Object.id b = VStr work_id
    /\ Object.source_url b = VStr ("https://openlibrary.org/works/" +:+ work_id)
    /\ ol_authors ol_data = Return (Object.authors b)
    /\ ol_publication_date ol_data = Return (Object.publication_date b)
    /\ ol_isbns ol_data = Return isbns
    /\ Object.isbn b = default VNone isbns.1
    /\ Object.isbn13 b = default VNone isbns.2
    /\ ol_subjects py ol_data = Return subs
    /\ Object.subjects b = VList (VStr <$> subs)
    /\ Object.educational_metadata b
       = set_educational_subjects
           (set_grade_levels fresh (infer_grade_levels subs (grade_levels fresh)))
           (take 5 subs)
    /\ ol_cover_url py ol_data = Return (Object.cover_url b)
    /\ Object.lexile_score b = VNone
    /\ Object.created_at b = created /\ Object.updated_at b = updated.
Proof.
  unfold from_open_library, from_open_library_metadata.
  repeat match goal with
         | |- bind ?m _ = Return _ -> _ =>
             let H := fresh "H" in destruct m eqn:H; cbn [bind]; [|discriminate]
         end.
  destruct (ol_subjects py ol_data) as [subs|] eqn:Hsubs; [|discriminate].
  cbn [bind] in *.
  match goal with
  | H : Return _ = Return ?a |- _ => injection H as H; subst a
  end.
  intros Hb. injection Hb as Hb. subst b. cbn.
  eexists _, _, _. repeat split; try eassumption; reflexivity.
Qed.

(** The subjects that the loop sees, read off the record: none when the key
    "subject" is absent, the one string when the value is a string, the
    strings of the list when it is a list of strings. *)
Lemma ol_subjects_inv (py : Interpreter) (ol_data : PyDict.t) (subjects : list string) :
  ol_subjects py ol_data = Return subjects ->
  (PyDict.get "subject" ol_data = None /\ subjects = [])
  \/ (exists s, PyDict.get "subject" ol_data = Some (VStr s) /\ subjects = [s])
  \/ PyDict.get "subject" ol_data = Some (VList (VStr <$> subjects)).
Proof.
  unfold ol_subjects.
  destruct (PyDict.get "subject" ol_data) as [[| | | |s|l|]|]; try discriminate.
  - intros H. injection H as <-. right. left. exists s. split; reflexivity.
  - destruct (as_str_list l) as [r|] eqn:Hl; [|discriminate].
    intros H. injection H as <-. right. right. do 2 f_equal.
    revert r Hl. induction l as [|v l IH]; intros r Hl.
    + injection Hl as <-. reflexivity.
    + destruct v; try discriminate Hl. cbn [as_str_list] in Hl.
      destruct (as_str_list l) as [r'|]; [|discriminate Hl].
      injection Hl as <-. cbn [fmap list_fmap]. f_equal. apply IH. reflexivity.
  - intros H. injection H as <-. left. split; reflexivity.
Qed.

(** C5: every book that [from_open_library] builds from an Open Library
    record carries the subjects of the record (the value under "subject": a
    list of strings, or one string standing for a list of one), and its
    metadata has, after the grade levels of [EducationalMetadata()], one
    grade level per subject that matches a rule, namely the level of the
    first rule matched by the lowercase subject (elementary, primary or
    kindergarten: K-2; middle or junior: 6-8; high school or secondary: 9-12;
    college or university: College), in the order of the subjects, and the
    first five subjects as [educational_subjects]. *)
Theorem from_open_library_grade_levels (py : Interpreter) (fresh : EducationalMetadata)
    (created updated : timestamp) (ol_data : PyDict.t) (b : Object.t) :
  from_open_library py fresh created updated ol_data = Return b ->
  exists subjects,
    ((PyDict.get "subject" ol_data = None /\ subjects = [])
     \/ (exists s, PyDict.get "subject" ol_data = Some (VStr s) /\ subjects = [s])
     \/ PyDict.get "subject" ol_data = Some (VList (VStr <$> subjects)))
    /\ Object.subjects b = VList (VStr <$> subjects)
    /\ grade_levels (Object.educational_metadata b)
       = grade_levels fresh ++ omap spec_grade_of_subject subjects
    /\ educational_subjects (Object.educational_metadata b) = take 5 subjects.
Proof.
  intros Hb.
  destruct (from_open_library_inv py fresh created updated ol_data b Hb)
    as (work_id & isbns & subs & _ & _ & _ & _ & _ & _ & _ & _ & Hsubs & Hs & Hem & _).
  exists subs. split; [exact (ol_subjects_inv py ol_data subs Hsubs)|].
  split; [exact Hs|]. rewrite Hem. cbn.
  split; [apply infer_grade_levels_omap | reflexivity].
Qed.

End OpenLibrary.

Lemma from_open_library_grade_levels_witness :
  exists subjects,
    ((PyDict.get "subject" Samples.full_ol_data = None /\ subjects = [])
     \/ (exists s, PyDict.get "subject" Samples.full_ol_data = Some (VStr s)
                   /\ subjects = [s])
     \/ PyDict.get "subject" Samples.full_ol_data = Some (VList (VStr <$> subjects)))
    /\ Book.Object.subjects (Book.as_object Samples.test_book)
       = VList (VStr <$> subjects)
    /\ Base.grade_levels (Book.Object.educational_metadata (Book.as_object Samples.test_book))
       = Base.grade_levels Samples.fresh_metadata
         ++ omap Book.spec_grade_of_subject subjects
    /\ Base.educational_subjects
         (Book.Object.educational_metadata (Book.as_object Samples.test_book))
       = take 5 subjects.
Proof.
  apply (from_open_library_grade_levels Samples.interpreter Samples.fresh_metadata
           (Datetime.naive Samples.epoch) (Datetime.naive Samples.epoch)
           Samples.full_ol_data (Book.as_object Samples.test_book)).
  vm_compute. reflexivity.
Defined.

Example spec_grade_first_rule_only :
  Book.spec_grade_of_subject "Primary and Secondary Education" = Some Base.K_2.
Proof. vm_compute. reflexivity. Qed.

(** ** Fallback content *)

Section FallbackContent.

Import Fallback.

(** C10: for the content types "article", "book" and "paper" the fallback is
    a non-empty list whose every item has "is_fallback" set to True; for any
    other content type it is the empty list. *)
Theorem provide_educational_fallback_flagged (content_type : string)
    (subject grade_level : option string) :
  let result := _provide_educational_fallback content_type subject grade_level in
  if known_content_type content_type
  then result <> [] /\ Forall flagged result
  else result = [].
Proof.
  unfold known_content_type, _provide_educational_fallback, fallbacks.
  cbn [existsb get_or_empty].
  destruct (String.eqb content_type "article") eqn:Ha;
    [| destruct (String.eqb content_type "book") eqn:Hb;
       [| destruct (String.eqb content_type "paper") eqn:Hp ] ];
    cbn [orb map]; try reflexivity;
    (split; [discriminate | repeat constructor]).
Qed.

End FallbackContent.

Example fallback_unknown_type :
  Fallback._provide_educational_fallback "video" (Some "Physics") None = [].
Proof. reflexivity. Qed.

(** ** Dispatch layer: validation *)

Section Validation.

Import Exceptions Main.

Lemma lstrip_all_space (s : string) :
  PyStr.all_space s = true -> PyStr.lstrip s = "".
Proof.
  induction s as [|c s IH]; simpl; [reflexivity|].
  intros H. apply andb_true_iff in H as [Hc Hs]. rewrite Hc. apply IH, Hs.
Qed.

Lemma blank_all_space (s : string) : PyStr.all_space s = true -> blank s = true.
Proof.
  intros H. unfold blank, PyStr.strip. rewrite (lstrip_all_space s H).
  simpl. apply orb_true_r.
Qed.

Lemma existsb_eqb_In (g : string) (l : list string) :
  existsb (String.eqb g) l = true <-> In g l.
Proof.
  rewrite existsb_exists. split.
  - intros [x [Hin Heq]]. apply String.eqb_eq in Heq. subst x. exact Hin.
  - intros Hin. exists g. split; [exact Hin | apply String.eqb_refl].
Qed.

Lemma invalid_grade_level_bad (grade_level : option string) :
  bad_grade_level PyStr.truthy grade_level -> invalid_grade_level grade_level = true.
Proof.
  intros [gl [-> [Hgiven Hnot]]]. unfold invalid_grade_level. rewrite Hgiven.
  cbn [andb]. apply negb_true_iff.
  destruct (existsb (String.eqb gl) grade_level_names) eqn:E; [|reflexivity].
  apply existsb_eqb_In in E. contradiction.
Qed.

Variable upper : string -> string.

(** C9, amended: [search_educational_books] raises [OpenEduMCPError] whenever
    the query is empty or only whitespace, whenever the grade level is given,
    is not the empty string and is not one of "K-2", "3-5", "6-8", "9-12",
    "College", and whenever the limit is below 1 or above 50;
    [get_word_definition] does so for such a word or grade level; in each such
    case no call is made on the underlying tool. *)
Theorem invalid_input_rejected (g : Globals) (ctx : Context) (req : Request) :
  invalid_input PyStr.truthy req ->
  exists msg, dispatch upper g ctx req = ([], Fail (OpenEduMCPError msg None)).
Proof.
  destruct req; simpl; try contradiction.
  - unfold search_educational_books.
    destruct (openlibrary_tool g); [|eexists; reflexivity].
    destruct (blank query) eqn:Hblank; [eexists; reflexivity|].
    intros [H|H]; [rewrite (blank_all_space _ H) in Hblank; discriminate|].
    destruct (invalid_grade_level grade_level) eqn:Hgl; [eexists; reflexivity|].
    destruct H as [H|H];
      [rewrite (invalid_grade_level_bad _ H) in Hgl; discriminate|].
    assert (Hlim : ((limit <? 1) || (limit >? 50))%Z = true).
    { apply orb_true_iff. destruct H; [left; apply Z.ltb_lt | right; apply Z.gtb_gt]; lia. }
    rewrite Hlim. eexists; reflexivity.
  - unfold get_word_definition.
    destruct (dictionary_tool g); [|eexists; reflexivity].
    destruct (blank word) eqn:Hblank; [eexists; reflexivity|].
    intros [H|H]; [rewrite (blank_all_space _ H) in Hblank; discriminate|].
    rewrite (invalid_grade_level_bad _ H). eexists; reflexivity.
Qed.

End Validation.

(** C9, as stated: every grade level that is given and is not one of the
    five names is rejected before the tool is called. It fails for the empty
    string: the request is forwarded to the tool. *)
Lemma empty_grade_level_reaches_tool :
  let req := Main.SearchEducationalBooks "algebra" None (Some "") 10 in
  Main.invalid_input Main.any_string req
  /\ Main.dispatch Samples.ascii_upper
       (Samples.globals_answering (Return (VList []))) Samples.no_session req
     = ([ ({| Main.target := "openlibrary_tool";
              Main.method := "search_educational_books";
              Main.kwargs := [ ("query", VStr "algebra"); ("subject", VNone);
                               ("grade_level", VStr ""); ("limit", VInt 10);
                               ("user_session", VNone) ] |},
           Return (VList [])) ],
        Return (VList [])).
Proof.
  split; [| reflexivity].
  right; left. exists "". split; [reflexivity|]. split; [reflexivity|].
  simpl. intros H. repeat destruct H as [H|H]; try discriminate H. exact H.
Qed.

Lemma invalid_input_rejected_witness :
  exists msg,
    Main.dispatch Samples.ascii_upper (Samples.globals_answering (Return (VList [])))
      Samples.no_session (Main.SearchEducationalBooks "  " None (Some "K-2") 10)
    = ([], Fail (Exceptions.OpenEduMCPError msg None)).
Proof.
  apply (invalid_input_rejected Samples.ascii_upper
           (Samples.globals_answering (Return (VList []))) Samples.no_session
           (Main.SearchEducationalBooks "  " None (Some "K-2") 10)).
  simpl. left. reflexivity.
Defined.

Example word_grade_level_rejected :
  Main.get_word_definition (Samples.globals_answering (Return VNone))
    Samples.no_session "atom" (Some "grade 7") true
  = ([], Fail (Exceptions.OpenEduMCPError "Invalid grade level: grade 7" None)).
Proof. reflexivity. Qed.

(** ** Dispatch layer: exceptions of the underlying calls *)

Section Wrapping.

Import Exceptions Main.

Lemma callee_raised_raise (e0 e : PyExc) : ~ callee_raised (raise e0) e.
Proof. intros [inv Hin]. simpl in Hin. inversion Hin. Qed.

Lemma callee_raised_ret (v : PyVal) (e : PyExc) : ~ callee_raised (ret v) e.
Proof. intros [inv Hin]. simpl in Hin. inversion Hin. Qed.

(** The guarded call: an [Exception] raised by the callee is re-raised as
    [OpenEduMCPError] with the handler's text in front. *)
Lemma try_call_raised (obj : Object) (tgt meth prefix : string) (kw : PyDict.t)
    (e : PyExc) :
  callee_raised (try_except (call obj tgt meth kw) (reraise prefix)) e ->
  isinstance_Exception e = true ->
  snd (try_except (call obj tgt meth kw) (reraise prefix)) = reraise prefix e.
Proof.
  unfold call, try_except.
  set (inv := {| target := tgt; method := meth; kwargs := kw |}).
  intros [inv' Hin] He.
  destruct (obj inv) as [v|e0] eqn:Hobj.
  - simpl in Hin. apply list_elem_of_singleton in Hin. discriminate Hin.
  - assert (e0 = e) as ->.
    { destruct (isinstance_Exception e0); simpl in Hin;
        apply list_elem_of_singleton in Hin; congruence. }
    rewrite He. reflexivity.
Qed.

Lemma try_call_escapes (obj : Object) (tgt meth prefix : string) (kw : PyDict.t)
    (e' : PyExc) :
  snd (try_except (call obj tgt meth kw) (reraise prefix)) = Fail e' ->
  isinstance_Exception e' = true ->
  exists msg, e' = OpenEduMCPError msg None.
Proof.
  unfold call, try_except, reraise.
  destruct (obj _) as [v|e0]; simpl; [discriminate|].
  destruct (isinstance_Exception e0) eqn:He0; simpl; intros H He'.
  - injection H as <-. eexists; reflexivity.
  - injection H as <-. congruence.
Qed.

Lemma forward_raised (tool : option Object) (tgt name meth prefix : string)
    (kw : PyDict.t) (e : PyExc) :
  callee_raised (forward tool tgt name meth prefix kw) e ->
  isinstance_Exception e = true ->
  snd (forward tool tgt name meth prefix kw) = reraise prefix e.
Proof.
  unfold forward. destruct tool.
  - apply try_call_raised.
  - intros H. destruct (callee_raised_raise _ _ H).
Qed.

Lemma forward_escapes (tool : option Object) (tgt name meth prefix : string)
    (kw : PyDict.t) (e' : PyExc) :
  snd (forward tool tgt name meth prefix kw) = Fail e' ->
  isinstance_Exception e' = true ->
  exists msg, e' = OpenEduMCPError msg None.
Proof.
  unfold forward. destruct tool.
  - apply try_call_escapes.
  - simpl. intros H _. injection H as <-. eexists; reflexivity.
Qed.

Lemma get_server_status_raised (g : Globals) (ctx : Context) (e : PyExc) :
  callee_raised (get_server_status g ctx) e ->
  isinstance_Exception e = true ->
  snd (get_server_status g ctx)
  = Return (status_error ("Failed to get server status: " +:+ str e)).
Proof.
  unfold get_server_status.
  destruct (cache_service g) as [cache|], (rate_limiting_service g) as [rate|],
    (usage_service g) as [usage|];
    try (intros H; destruct (callee_raised_ret _ _ H)).
  unfold call, run_bind, ret, try_except.
  intros [inv Hin] He. revert Hin.
  destruct (cache _) as [v1|e1] eqn:H1; cbn [fst snd app].
  - destruct (rate _) as [v2|e2] eqn:H2; cbn [fst snd app].
    + destruct (usage _) as [v3|e3] eqn:H3; cbn [fst snd app].
      * intros Hin. repeat (apply elem_of_cons in Hin as [Hin|Hin]; [discriminate Hin|]).
        inversion Hin.
      * destruct (isinstance_Exception e3) eqn:He3; cbn [fst snd]; intros Hin;
          repeat (apply elem_of_cons in Hin as [Hin|Hin];
                  [try discriminate Hin|]); try (inversion Hin; fail);
          injection Hin as _ <-; [reflexivity | congruence].
    + destruct (isinstance_Exception e2) eqn:He2; cbn [fst snd]; intros Hin;
        repeat (apply elem_of_cons in Hin as [Hin|Hin];
                [try discriminate Hin|]); try (inversion Hin; fail);
        injection Hin as _ <-; [reflexivity | congruence].
  - destruct (isinstance_Exception e1) eqn:He1; cbn [fst snd]; intros Hin;
      repeat (apply elem_of_cons in Hin as [Hin|Hin];
              [try discriminate Hin|]); try (inversion Hin; fail);
      injection Hin as _ <-; [reflexivity | congruence].
Qed.

Lemma get_server_status_escapes (g : Globals) (ctx : Context) (e' : PyExc) :
  snd (get_server_status g ctx) = Fail e' -> isinstance_Exception e' = false.
Proof.
  unfold get_server_status.
  destruct (cache_service g) as [cache|], (rate_limiting_service g) as [rate|],
    (usage_service g) as [usage|]; try discriminate.
  unfold call, run_bind, ret, try_except.
  destruct (cache _) as [v1|e1]; cbn [fst snd app];
    [destruct (rate _) as [v2|e2]; cbn [fst snd app];
       [destruct (usage _) as [v3|e3]; cbn [fst snd app]; [discriminate|] |] |];
    match goal with
    | |- context [isinstance_Exception ?x] =>
        destruct (isinstance_Exception x) eqn:Hx; cbn [fst snd];
          [discriminate | intros H; injection H as <-; exact Hx]
    end.
Qed.

Variable upper : string -> string.

(** C3, amended: for every registered handler and every exception of the
    [Exception] hierarchy raised by a call the handler makes on a tool or
    service, the handler catches it; [get_server_status] then returns the
    status "error" with the text of the exception, and every other handler
    raises an [OpenEduMCPError] whose message is the handler's own text
    followed by the text of the exception. No exception of the [Exception]
    hierarchy other than a plain [OpenEduMCPError] leaves a handler. *)
Theorem handlers_wrap_exceptions (g : Globals) (ctx : Context) (req : Request)
    (e : PyExc) :
  isinstance_Exception e = true ->
  (callee_raised (dispatch upper g ctx req) e ->
   snd (dispatch upper g ctx req) = caught req e)
  /\ (snd (dispatch upper g ctx req) = Fail e ->
      exists msg, e = OpenEduMCPError msg None).
Proof.
  intros He. split.
  - destruct req; cbn [dispatch caught failure_text]; intros H;
      try (apply forward_raised; assumption).
    + revert H. unfold search_educational_books.
      destruct (openlibrary_tool g);
        repeat match goal with
               | |- context [if ?c then _ else _] => destruct c
               end;
        try (intros H; destruct (callee_raised_raise _ _ H)).
      intros H. apply try_call_raised; assumption.
    + revert H. unfold get_word_definition.
      destruct (dictionary_tool g);
        repeat match goal with
               | |- context [if ?c then _ else _] => destruct c
               end;
        try (intros H; destruct (callee_raised_raise _ _ H)).
      intros H. apply try_call_raised; assumption.
    + revert H. unfold handle_stdio_input.
      destruct (negb _); intros [inv Hin]; simpl in Hin; inversion Hin.
    + destruct (callee_raised_ret _ _ H).
    + apply get_server_status_raised; assumption.
  - destruct req; cbn [dispatch]; intros H;
      try (eapply forward_escapes; eassumption).
    + revert H. unfold search_educational_books.
      destruct (openlibrary_tool g);
        repeat match goal with
               | |- context [if ?c then _ else _] => destruct c
               end;
        try (simpl; intros H; injection H as <-; eexists; reflexivity).
      intros H. eapply try_call_escapes; eassumption.
    + revert H. unfold get_word_definition.
      destruct (dictionary_tool g);
        repeat match goal with
               | |- context [if ?c then _ else _] => destruct c
               end;
        try (simpl; intros H; injection H as <-; eexists; reflexivity).
      intros H. eapply try_call_escapes; eassumption.
    + revert H. unfold handle_stdio_input.
      destruct (negb _); simpl; intros H; [|discriminate H].
      injection H as <-. eexists; reflexivity.
    + discriminate H.
    + apply get_server_status_escapes in H. congruence.
Qed.

End Wrapping.

(** C3, as stated: whatever the underlying call raises, the handler raises an
    [OpenEduMCPError]. It fails in two ways: [get_server_status] catches the
    exception and returns an error status instead of raising, and an
    exception outside the [Exception] hierarchy (here the cancellation of the
    task) passes through [except Exception] unchanged. *)
Lemma handler_without_OpenEduMCPError :
  (Main.callee_raised (Samples.handle (Fail Samples.db_down) Main.GetServerStatus)
     Samples.db_down
   /\ snd (Samples.handle (Fail Samples.db_down) Main.GetServerStatus)
      = Return (Main.status_error "Failed to get server status: db down"))
  /\ (Main.callee_raised
        (Samples.handle (Fail Samples.cancelled)
           (Main.SearchEducationalBooks "algebra" None None 10))
        Samples.cancelled
      /\ snd (Samples.handle (Fail Samples.cancelled)
                (Main.SearchEducationalBooks "algebra" None None 10))
         = Fail Samples.cancelled).
Proof.
  split; (split; [eexists; simpl; apply list_elem_of_here | reflexivity]).
Qed.

Lemma handlers_wrap_exceptions_witness :
  snd (Samples.handle (Fail Samples.db_down) (Main.GetPaperSummary "2301.00001" true))
  = Fail (Exceptions.OpenEduMCPError "Paper summary retrieval failed: db down" None).
Proof.
  apply (proj1 (handlers_wrap_exceptions Samples.ascii_upper
                  (Samples.globals_answering (Fail Samples.db_down))
                  Samples.no_session (Main.GetPaperSummary "2301.00001" true)
                  Samples.db_down eq_refl)).
  eexists. simpl. apply list_elem_of_here.
Defined.

Example stdio_input_processed :
  Main.dispatch Samples.ascii_upper (Samples.globals_answering (Return VNone))
    Samples.no_session (Main.HandleStdioInput "ping 1")
  = ([], Return (VStr "Processed: PING 1")).
Proof. reflexivity. Qed.

(** ** Cache: expiration per entry *)

Section CacheExpiry.

Import CacheService.

Variables (key : string) (v : PyVal) (ttl s : Z).

Let stored : Entry := {| value := v; expires_at := s + ttl |}.

Lemma writes_false_ne (k : string) : String.eqb k key = false -> k <> key.
Proof. intros H ->. rewrite String.eqb_refl in H. discriminate. Qed.

(** Operations that do not write [key] leave its entry as stored, or drop
    it. *)
Lemma step_keeps_or_drops (c : Cache) (op : Op) :
  writes key op = false ->
  entries c !! key = None \/ entries c !! key = Some stored ->
  entries (step c op) !! key = None \/ entries (step c op) !! key = Some stored.
Proof.
  intros Hw Hc. destruct op as [k now|k v' ttl' now|k|now]; simpl in *.
  - unfold get. destruct (entries c !! k) as [e|] eqn:Hk; [|exact Hc].
    destruct (now <? expires_at e)%Z; simpl; [exact Hc|].
    destruct (decide (k = key)) as [->|Hne].
    + left. apply lookup_delete_eq.
    + rewrite lookup_delete_ne by exact Hne. exact Hc.
  - rewrite lookup_insert_ne by (apply writes_false_ne, Hw). exact Hc.
  - rewrite lookup_delete_ne by (apply writes_false_ne, Hw). exact Hc.
  - destruct (filter _ (entries c) !! key) as [e|] eqn:Hf; [|left; reflexivity].
    right. apply map_lookup_filter_Some in Hf as [Hf _].
    destruct Hc as [Hc|Hc]; congruence.
Qed.

(** Before the expiration time, an operation that does not write [key]
    leaves its entry in place. *)
Lemma step_keeps (u : Z) (c : Cache) (op : Op) :
  (u < s + ttl)%Z -> writes key op = false -> not_after u op ->
  entries c !! key = Some stored ->
  entries (step c op) !! key = Some stored.
Proof.
  intros Hu Hw Ht Hc. destruct op as [k now|k v' ttl' now|k|now];
    unfold not_after in Ht; simpl in *.
  - unfold get. destruct (entries c !! k) as [e|] eqn:Hk; [|exact Hc].
    destruct (now <? expires_at e)%Z eqn:Hlt; simpl; [exact Hc|].
    destruct (decide (k = key)) as [->|Hne].
    + rewrite Hc in Hk. injection Hk as <-. simpl in Hlt.
      apply Z.ltb_ge in Hlt. lia.
    + rewrite lookup_delete_ne by exact Hne. exact Hc.
  - rewrite lookup_insert_ne by (apply writes_false_ne, Hw). exact Hc.
  - rewrite lookup_delete_ne by (apply writes_false_ne, Hw). exact Hc.
  - apply map_lookup_filter_Some. split; [exact Hc|]. simpl. lia.
Qed.

Lemma run_keeps_or_drops (ops : list Op) (c : Cache) :
  Forall (fun op => writes key op = false) ops ->
  entries c !! key = None \/ entries c !! key = Some stored ->
  entries (run ops c) !! key = None \/ entries (run ops c) !! key = Some stored.
Proof.
  revert c. induction ops as [|op ops IH]; intros c Hops Hc; simpl; [exact Hc|].
  inversion Hops; subst. apply IH; [assumption|].
  apply step_keeps_or_drops; assumption.
Qed.

Lemma run_keeps (u : Z) (ops : list Op) (c : Cache) :
  (u < s + ttl)%Z ->
  Forall (fun op => writes key op = false) ops ->
  Forall (not_after u) ops ->
  entries c !! key = Some stored ->
  entries (run ops c) !! key = Some stored.
Proof.
  intros Hu. revert c. induction ops as [|op ops IH]; intros c Hops Ht Hc; simpl;
    [exact Hc|].
  inversion Hops; inversion Ht; subst. apply IH; try assumption.
  apply (step_keeps u); assumption.
Qed.

(** C6: after [key] is stored with time-to-live [ttl] at time [s], and after
    any operations that do not write [key] themselves, a lookup of [key] at a
    time [u >= s + ttl] is a miss; a lookup at a time [u < s + ttl], no
    operation in between being later than [u], returns the stored value. *)
Theorem cache_entry_expires (c : Cache) (ops : list Op) (u : Z) :
  Forall (fun op => writes key op = false) ops ->
  let c' := run ops (set key v ttl s c) in
  ((s + ttl <= u)%Z -> fst (get key u c') = None)
  /\ ((u < s + ttl)%Z -> Forall (not_after u) ops -> fst (get key u c') = Some v).
Proof.
  intros Hops c'. subst c'.
  assert (Hset : entries (set key v ttl s c) !! key = Some stored)
    by (simpl; apply lookup_insert_eq).
  split.
  - intros Hu. unfold get.
    destruct (run_keeps_or_drops ops _ Hops (or_intror Hset)) as [Hk|Hk];
      rewrite Hk; [reflexivity|].
    simpl. replace (u <? s + ttl)%Z with false by (symmetry; apply Z.ltb_ge; lia).
    reflexivity.
  - intros Hu Ht. unfold get.
    rewrite (run_keeps u ops _ Hu Hops Ht Hset). simpl.
    replace (u <? s + ttl)%Z with true by (symmetry; apply Z.ltb_lt; lia).
    reflexivity.
Qed.

End CacheExpiry.

Lemma cache_entry_expires_witness :
  let ops :=
    [CacheService.Get "k2" 5%Z; CacheService.Cleanup 20%Z;
     CacheService.Set_ "k2" VNone 1%Z 30%Z] in
  let c' :=
    CacheService.run ops
      (CacheService.set "k1" (VStr "books") 60%Z 0%Z CacheService.empty) in
  fst (CacheService.get "k1" 60%Z c') = None
  /\ fst (CacheService.get "k1" 59%Z c') = Some (VStr "books").
Proof.
  intros ops c'.
  assert (Hops : Forall (fun op => CacheService.writes "k1" op = false) ops)
    by (repeat constructor).
  split.
  - apply (proj1 (cache_entry_expires "k1" (VStr "books") 60%Z 0%Z
                    CacheService.empty ops 60%Z Hops)).
    lia.
  - apply (proj2 (cache_entry_expires "k1" (VStr "books") 60%Z 0%Z
                    CacheService.empty ops 59%Z Hops)).
    + lia.
    + repeat constructor; unfold CacheService.not_after; simpl; lia.
Defined.

(** ** Cache keys *)

Section CacheKeys.

Import CacheService.

Variable digest : string * string * list (string * PyVal) -> string.




End CacheKeys.


Example cache_key_written_orders :
  (Samples.params_query_first <> Samples.params_limit_first)
  /\ CacheService.canonical Samples.params_query_first
     = [("query", VStr "algebra"); ("limit", VInt 10)]
  /\ CacheService.canonical Samples.params_limit_first
     = [("query", VStr "algebra"); ("limit", VInt 10)]
  /\ CacheService.generate_cache_key Samples.toy_digest "open_library" "search"
       Samples.params_limit_first
     = "open_library:search:query,limit".
Proof. split; [discriminate|]. vm_compute. repeat split. Qed.

(** ** Rate limiter: the budget of every window *)

Section RateLimit.

Import RateLimitingService.

Variables (cfg : gmap string Limit) (api : string) (l : Limit).
Hypothesis Hcfg : cfg !! api = Some l.

Lemma width_pos : (0 < width l)%Z.
Proof. unfold width. lia. Qed.

Lemma next_window_index (now : Z) :
  (next_window_start l now / width l = now / width l + 1)%Z.
Proof. unfold next_window_start. apply Z.div_mul. pose proof width_pos. lia. Qed.

Lemma next_window_later (l' : Limit) (now : Z) : (now < next_window_start l' now)%Z.
Proof.
  unfold next_window_start.
  assert (Hw : (0 < width l')%Z) by (unfold width; lia).
  pose proof (Z.div_mod now (width l') ltac:(lia)) as Hdm.
  pose proof (Z.mod_pos_bound now (width l') Hw). lia.
Qed.

Lemma forwarded_in_app (w : Z) (log : list (string * Z)) (call : string * Z) :
  forwarded_in api l w (log ++ [call])
  = forwarded_in api l w log + (if in_window api l w call then 1 else 0).
Proof.
  unfold forwarded_in. rewrite List.filter_app, length_app. simpl.
  destruct (in_window api l w call); reflexivity.
Qed.

Lemma in_window_other (a : string) (t w : Z) :
  a <> api -> in_window api l w (a, t) = false.
Proof.
  intros Hne. unfold in_window. simpl.
  destruct (String.eqb a api) eqn:E; [|reflexivity].
  apply String.eqb_eq in E. contradiction.
Qed.

Lemma in_window_same (t w : Z) :
  in_window api l w (api, t) = (t / width l =? w)%Z.
Proof. unfold in_window. simpl. rewrite String.eqb_refl. reflexivity. Qed.

(** The count that [take_slot] reads off the counter is the number of calls
    forwarded in the window of [t], for any [t] not before the clock. *)
Lemma take_slot_reads_window (st : Limiter) (t : Z) :
  consistent api l st -> (clock st <= t)%Z ->
  take_slot l (counters st !! api) t
  = let used := forwarded_in api l (t / width l) (forwarded st) in
    if (used <? budget l)%nat
    then Some {| window_index := t / width l; count := S used |}
    else None.
Proof.
  intros [Hb Hc Hn] Ht. unfold take_slot. cbn zeta.
  assert (Hmono : (clock st / width l <= t / width l)%Z)
    by (apply Z.div_le_mono; [apply width_pos | exact Ht]).
  destruct (counters st !! api) as [c|] eqn:Hlook.
  - destruct (Hc c eq_refl) as [Hidx [Hcount Hlater]].
    destruct (window_index c =? t / width l)%Z eqn:E.
    + apply Z.eqb_eq in E. rewrite <- E, Hcount. reflexivity.
    + apply Z.eqb_neq in E. rewrite (Hlater (t / width l)%Z) by lia. reflexivity.
  - rewrite (Hn eq_refl). reflexivity.
Qed.

(** Time passing, with nothing forwarded to [api], keeps the bookkeeping. *)
Lemma consistent_idle (st : Limiter) (t : Z) (cs : gmap string Counter)
    (log : list (string * Z)) :
  consistent api l st -> (clock st <= t)%Z ->
  cs !! api = counters st !! api ->
  (forall w, forwarded_in api l w log = forwarded_in api l w (forwarded st)) ->
  consistent api l {| clock := t; counters := cs; forwarded := log |}.
Proof.
  intros [Hb Hc Hn] Ht Hcs Hlog.
  assert (Hmono : (clock st / width l <= t / width l)%Z)
    by (apply Z.div_le_mono; [apply width_pos | exact Ht]).
  split; simpl.
  - intros w. rewrite Hlog. apply Hb.
  - intros c Hlook. rewrite Hcs in Hlook. destruct (Hc c Hlook) as [Hidx [Hcount Hlater]].
    split; [lia|]. split; [rewrite Hlog; exact Hcount|].
    intros w Hw. rewrite Hlog. apply Hlater, Hw.
  - intros Hlook w. rewrite Hcs in Hlook. rewrite Hlog. apply Hn, Hlook.
Qed.

(** Forwarding one call to [api] at [t], the window of [t] having budget
    left, keeps the bookkeeping. *)
Lemma consistent_forward (st : Limiter) (t : Z) :
  consistent api l st -> (clock st <= t)%Z ->
  forwarded_in api l (t / width l) (forwarded st) < budget l ->
  consistent api l
    {| clock := t;
       counters :=
         <[api := {| window_index := t / width l;
                     count := S (forwarded_in api l (t / width l) (forwarded st)) |}]>
           (counters st);
       forwarded := forwarded st ++ [(api, t)] |}.
Proof.
  intros Hst Ht Hroom. pose proof Hst as [Hb Hc Hn].
  assert (Hmono : (clock st / width l <= t / width l)%Z)
    by (apply Z.div_le_mono; [apply width_pos | exact Ht]).
  assert (Hlater : forall w, (t / width l < w)%Z ->
                             forwarded_in api l w (forwarded st) = 0).
  { intros w Hw. destruct (counters st !! api) as [c|] eqn:Hlook.
    - destruct (Hc c eq_refl) as [Hidx [_ Hl]]. apply Hl. lia.
    - apply Hn. reflexivity. }
  split; simpl.
  - intros w. rewrite forwarded_in_app, in_window_same.
    destruct (t / width l =? w)%Z eqn:E.
    + apply Z.eqb_eq in E. subst w. lia.
    + specialize (Hb w). lia.
  - intros c Hlook. rewrite lookup_insert_eq in Hlook. injection Hlook as <-. simpl.
    split; [lia|]. split.
    + rewrite forwarded_in_app, in_window_same, Z.eqb_refl. lia.
    + intros w Hw. rewrite forwarded_in_app, in_window_same.
      replace (t / width l =? w)%Z with false by (symmetry; apply Z.eqb_neq; lia).
      rewrite (Hlater w Hw). reflexivity.
  - rewrite lookup_insert_eq. discriminate.
Qed.

Lemma forwarded_in_other (a : string) (t : Z) (log : list (string * Z)) :
  a <> api ->
  forall w, forwarded_in api l w (log ++ [(a, t)]) = forwarded_in api l w log.
Proof.
  intros Hne w. rewrite forwarded_in_app, in_window_other by exact Hne. lia.
Qed.

(** Every arrival keeps the bookkeeping of [api]. *)
Lemma step_consistent (st : Limiter) (a : Arrival) :
  consistent api l st -> consistent api l (step cfg st a).
Proof.
  intros Hst. unfold step, acquire.
  set (now := (clock st + Z.of_N (elapsed a))%Z).
  assert (Hnow : (clock st <= now)%Z) by (subst now; lia).
  destruct (decide (api_name a = api)) as [->|Hne].
  - rewrite Hcfg, (take_slot_reads_window st now Hst Hnow). cbn zeta.
    destruct (_ <? budget l)%nat eqn:Hroom.
    + apply Nat.ltb_lt in Hroom. apply consistent_forward; assumption.
    + destruct (mode a).
      * apply (consistent_idle st); auto.
      * pose proof (next_window_later l now) as Hlater.
        rewrite (take_slot_reads_window st (next_window_start l now) Hst) by lia.
        cbn zeta.
        match goal with
        | |- context [(?used <? budget l)%nat] =>
            destruct (used <? budget l)%nat eqn:Hroom2
        end.
        -- apply Nat.ltb_lt in Hroom2. apply consistent_forward; [assumption|lia|assumption].
        -- apply (consistent_idle st); auto.
  - destruct (cfg !! api_name a) as [l'|].
    + pose proof (next_window_later l' now) as Hlater.
      destruct (take_slot l' (counters st !! api_name a) now).
      * apply (consistent_idle st); [assumption|assumption| |].
        -- apply lookup_insert_ne, Hne.
        -- apply forwarded_in_other, Hne.
      * destruct (mode a); [apply (consistent_idle st); auto|].
        destruct (take_slot l' (counters st !! api_name a) (next_window_start l' now)).
        -- apply (consistent_idle st); [assumption|lia| |].
           ++ apply lookup_insert_ne, Hne.
           ++ apply forwarded_in_other, Hne.
        -- apply (consistent_idle st); auto.
    + apply (consistent_idle st); [assumption|assumption|reflexivity|].
      apply forwarded_in_other, Hne.
Qed.

Lemma start_consistent (t0 : Z) : consistent api l (start t0).
Proof.
  split; simpl.
  - intros w. unfold forwarded_in. simpl. lia.
  - intros c Hc. rewrite lookup_empty in Hc. discriminate.
  - intros _ w. reflexivity.
Qed.

Lemma run_consistent (arrivals : list Arrival) (st : Limiter) :
  consistent api l st -> consistent api l (run cfg arrivals st).
Proof.
  revert st. induction arrivals as [|a arrivals IH]; intros st Hst; simpl.
  - exact Hst.
  - apply IH, step_consistent, Hst.
Qed.

(** C2: in every run of the limiter, from any starting time, the number of
    calls forwarded to an API during any one window never exceeds the budget
    configured for that API; and a call that arrives when the budget of its
    window is used up is either rejected with the rate-limit error or
    forwarded in a later window. *)
Theorem rate_limit_budget (arrivals : list Arrival) (t0 : Z) :
  let st := run cfg arrivals (start t0) in
  (forall w, forwarded_in api l w (forwarded st) <= budget l)
  /\ (forall (m : Mode) (wait : N),
        let now := (clock st + Z.of_N wait)%Z in
        budget l <= forwarded_in api l (now / width l) (forwarded st) ->
        match fst (acquire cfg m api now (counters st)) with
        | Forwarded t => (now / width l < t / width l)%Z
        | Rejected e => e = rate_limit_error api l now
        end).
Proof.
  intros st.
  assert (Hst : consistent api l st) by apply run_consistent, start_consistent.
  split; [apply Hst|].
  intros m wait now Hfull. unfold acquire. rewrite Hcfg.
  rewrite (take_slot_reads_window st now Hst) by (subst now; lia). cbn zeta.
  replace (_ <? budget l)%nat with false by (symmetry; apply Nat.ltb_ge; exact Hfull).
  destruct m; [reflexivity|].
  pose proof (next_window_later l now) as Hlater.
  rewrite (take_slot_reads_window st (next_window_start l now) Hst) by (subst now; lia).
  cbn zeta.
  match goal with
  | |- context [(?used <? budget l)%nat] => destruct (used <? budget l)%nat
  end; cbn [fst]; [|reflexivity].
  rewrite next_window_index. lia.
Qed.

End RateLimit.

(** ** Dates and timestamps through ISO strings *)

Section IsoFormat.

Import Datetime.

Lemma append_cons (x : ascii) (a b : string) :
  String x a +:+ b = String x (a +:+ b).
Proof. reflexivity. Qed.

Lemma append_empty_l (a : string) : "" +:+ a = a.
Proof. reflexivity. Qed.

Lemma append_assoc (a b c : string) : (a +:+ b) +:+ c = a +:+ (b +:+ c).
Proof.
  induction a as [|x a IH]; [reflexivity|].
  rewrite !append_cons, IH. reflexivity.
Qed.

Lemma append_empty_r (a : string) : a +:+ "" = a.
Proof.
  induction a as [|x a IH]; [reflexivity|].
  rewrite append_cons, IH. reflexivity.
Qed.

Lemma digit_val_digit (k : N) : (k < 10)%N -> digit_val (digit k) = Some k.
Proof.
  intros Hk. unfold digit_val, digit.
  rewrite N_ascii_embedding by lia.
  replace ((48 <=? 48 + k)%N) with true by (symmetry; apply N.leb_le; lia).
  replace ((48 + k <=? 57)%N) with true by (symmetry; apply N.leb_le; lia).
  simpl. f_equal. lia.
Qed.

Lemma pow10_succ (w : nat) : (10 ^ N.of_nat (S w) = 10 * 10 ^ N.of_nat w)%N.
Proof. rewrite Nat2N.inj_succ, N.pow_succ_r'. reflexivity. Qed.

Lemma pow10_pos (w : nat) : (0 < 10 ^ N.of_nat w)%N.
Proof. apply N.neq_0_lt_0, N.pow_nonzero. discriminate. Qed.

(** Reading back a field of fixed width. *)
Lemma take_digits_fixed_width (w : nat) (n acc : N) (rest : string) :
  (n < 10 ^ N.of_nat w)%N ->
  take_digits w acc (fixed_width w n +:+ rest)
  = Some ((acc * 10 ^ N.of_nat w + n)%N, rest).
Proof.
  revert n acc. induction w as [|w IH]; intros n acc Hn.
  - simpl in *. f_equal. f_equal. lia.
  - rewrite pow10_succ in *. cbn [fixed_width]. rewrite append_cons.
    cbn [take_digits].
    pose proof (pow10_pos w) as Hp.
    set (p := (10 ^ N.of_nat w)%N) in *.
    pose proof (N.div_mod' n p) as Hdm.
    pose proof (N.mod_lt n p ltac:(lia)) as Hr.
    assert (Hq : (n / p < 10)%N) by (apply N.Div0.div_lt_upper_bound; lia).
    rewrite (digit_val_digit _ Hq), (IH _ _ Hr).
    f_equal. f_equal. nia.
Qed.

Lemma zpad_fixed_width (w : nat) (n : N) :
  (n < 10 ^ N.of_nat w)%N -> zpad w n = fixed_width w n.
Proof. intros Hn. unfold zpad. apply N.ltb_lt in Hn. rewrite Hn. reflexivity. Qed.

Lemma take_digits_zpad (w : nat) (n : N) (rest : string) :
  (n < 10 ^ N.of_nat w)%N ->
  take_digits w 0 (zpad w n +:+ rest) = Some (n, rest).
Proof.
  intros Hn. rewrite (zpad_fixed_width w n Hn), (take_digits_fixed_width w n 0 rest Hn).
  reflexivity.
Qed.

Lemma days_in_month_le (y m : N) : (days_in_month y m <= 31)%N.
Proof.
  unfold days_in_month.
  repeat match goal with
         | |- context [match ?x with _ => _ end] => destruct x
         end; lia.
Qed.

Lemma date_ok_bounds (d : date) :
  date_ok d = true ->
  (year d < 10 ^ N.of_nat 4 /\ month d < 10 ^ N.of_nat 2 /\ day d < 10 ^ N.of_nat 2)%N.
Proof.
  unfold date_ok. rewrite !andb_true_iff, !N.leb_le.
  pose proof (days_in_month_le (year d) (month d)).
  change (10 ^ N.of_nat 4)%N with 10000%N. change (10 ^ N.of_nat 2)%N with 100%N.
  lia.
Qed.

(** Step over a literal character of the format. *)
Ltac literal :=
  cbn [mbind option_bind];
  rewrite ?append_cons, ?append_empty_l;
  cbn [mbind option_bind expect];
  rewrite ?Ascii.eqb_refl;
  cbn [mbind option_bind].

Lemma parse_date_isoformat (d : date) (rest : string) :
  date_ok d = true -> parse_date (date_isoformat d +:+ rest) = Some (d, rest).
Proof.
  intros Hok. destruct (date_ok_bounds d Hok) as [Hy [Hm Hd]].
  unfold parse_date, date_isoformat. rewrite !append_assoc.
  rewrite (take_digits_zpad 4 _ _ Hy). literal.
  rewrite (take_digits_zpad 2 _ _ Hm). literal.
  rewrite (take_digits_zpad 2 _ _ Hd). literal.
  destruct d as [y m dd]. cbn [year month day] in *. rewrite Hok. reflexivity.
Qed.


Lemma datetime_ok_bounds (t : datetime) :
  datetime_ok t = true ->
  date_ok (on t) = true
  /\ (hour t < 10 ^ N.of_nat 2 /\ minute t < 10 ^ N.of_nat 2
      /\ second t < 10 ^ N.of_nat 2 /\ microsecond t < 10 ^ N.of_nat 6)%N.
Proof.
  unfold datetime_ok. rewrite !andb_true_iff, !N.ltb_lt.
  change (10 ^ N.of_nat 2)%N with 100%N. change (10 ^ N.of_nat 6)%N with 1000000%N.
  intuition lia.
Qed.

Lemma parse_naive_isoformat (t : datetime) (rest : string) :
  datetime_ok t = true -> no_fraction rest ->
  parse_naive (datetime_isoformat t +:+ rest) = Some (t, rest).
Proof.
  intros Hok Hrest. destruct (datetime_ok_bounds t Hok) as [Hd [Hh [Hm [Hs Hus]]]].
  unfold parse_naive, datetime_isoformat. rewrite !append_assoc.
  rewrite (parse_date_isoformat (on t) _ Hd). literal.
  rewrite (take_digits_zpad 2 _ _ Hh). literal.
  rewrite (take_digits_zpad 2 _ _ Hm). literal.
  rewrite (take_digits_zpad 2 _ _ Hs). literal.
  destruct t as [d h mi se us]. cbn [on hour minute second microsecond] in *.
  destruct (us =? 0)%N eqn:Hzero.
  - apply N.eqb_eq in Hzero. subst us. rewrite append_empty_l.
    destruct rest as [|c rest]; [reflexivity|]. cbn [no_fraction] in Hrest.
    rewrite Hrest. reflexivity.
  - rewrite !append_cons, ?append_empty_l, Ascii.eqb_refl.
    rewrite (take_digits_zpad 6 _ _ Hus). reflexivity.
Qed.

Lemma offset_parts (a : N) :
  (a < 86400000000)%N ->
  let hh := (a / 3600000000)%N in
  let mm := (a mod 3600000000 / 60000000)%N in
  let ss := (a mod 3600000000 mod 60000000)%N in
  (hh < 10 ^ N.of_nat 2 /\ mm < 10 ^ N.of_nat 2 /\ ss / 1000000 < 10 ^ N.of_nat 2
   /\ ss mod 1000000 < 10 ^ N.of_nat 6
   /\ a = ((hh * 60 + mm) * 60 + ss / 1000000) * 1000000 + ss mod 1000000)%N.
Proof.
  intros Ha hh mm ss. subst hh mm ss.
  change (10 ^ N.of_nat 2)%N with 100%N. change (10 ^ N.of_nat 6)%N with 1000000%N.
  pose proof (N.div_mod' a 3600000000) as H1.
  pose proof (N.mod_lt a 3600000000 ltac:(discriminate)) as B1.
  pose proof (N.div_mod' (a mod 3600000000) 60000000) as H2.
  pose proof (N.mod_lt (a mod 3600000000) 60000000 ltac:(discriminate)) as B2.
  pose proof (N.div_mod' (a mod 3600000000 mod 60000000) 1000000) as H3.
  pose proof (N.mod_lt (a mod 3600000000 mod 60000000) 1000000 ltac:(discriminate)) as B3.
  set (q1 := (a / 3600000000)%N) in *. set (r1 := (a mod 3600000000)%N) in *.
  set (q2 := (r1 / 60000000)%N) in *. set (r2 := (r1 mod 60000000)%N) in *.
  set (q3 := (r2 / 1000000)%N) in *. set (r3 := (r2 mod 1000000)%N) in *.
  lia.
Qed.

Lemma parse_offset_format (off : Z) :
  offset_ok off = true -> parse_offset (format_offset off) = Some off.
Proof.
  intros Hok. unfold offset_ok in Hok. apply andb_true_iff in Hok as [Hlo Hhi].
  apply Z.ltb_lt in Hlo, Hhi.
  assert (Ha : (Z.to_N (Z.abs off) < 86400000000)%N) by lia.
  destruct (offset_parts _ Ha) as (Hhh & Hmm & Hss & Hus & Hsum).
  assert (Hoff : off = ((if (off <? 0)%Z then -1 else 1) * Z.of_N (Z.to_N (Z.abs off)))%Z).
  { destruct (off <? 0)%Z eqn:Hneg; [apply Z.ltb_lt in Hneg | apply Z.ltb_ge in Hneg]; lia. }
  unfold format_offset. cbv zeta.
  set (a := Z.to_N (Z.abs off)) in *.
  set (hh := (a / 3600000000)%N) in *.
  set (mm := (a mod 3600000000 / 60000000)%N) in *.
  set (ss := (a mod 3600000000 mod 60000000)%N) in *.
  assert (Hsign :
    forall body,
      parse_offset ((if (off <? 0)%Z then "-" else "+") +:+ body)
      = ('(hh, s) ← take_digits 2 0 body;
         s ← expect ":" s;
         '(mm, s) ← take_digits 2 0 s;
         '(ss, s) ← match s with
                     | EmptyString => Some (0%N, s)
                     | _ => s ← expect ":" s; take_digits 2 0 s
                     end;
         '(us, s) ← match s with
                     | EmptyString => Some (0%N, s)
                     | _ => s ← expect "." s; take_digits 6 0 s
                     end;
         match s with
         | EmptyString =>
             Some ((if (off <? 0)%Z then -1 else 1)
                   * Z.of_N (((hh * 60 + mm) * 60 + ss) * 1000000 + us))%Z
         | _ => None
         end)).
  { intros body. destruct (off <? 0)%Z; reflexivity. }
  rewrite Hsign. clear Hsign.
  rewrite (take_digits_zpad 2 _ _ Hhh). literal.
  rewrite (take_digits_zpad 2 _ _ Hmm). cbn [mbind option_bind].
  destruct (ss =? 0)%N eqn:Hzero.
  - apply N.eqb_eq in Hzero. cbn [mbind option_bind]. f_equal.
    rewrite Hoff at 2. f_equal. f_equal. rewrite Hsum, Hzero. reflexivity.
  - literal. rewrite (take_digits_zpad 2 _ _ Hss). cbn [mbind option_bind].
    destruct (ss mod 1000000 =? 0)%N eqn:Hmicro.
    + apply N.eqb_eq in Hmicro. cbn [mbind option_bind]. f_equal.
      rewrite Hoff at 2. f_equal. f_equal. rewrite Hsum at 1. rewrite Hmicro. reflexivity.
    + literal. rewrite <- (append_empty_r (zpad 6 _)).
      rewrite (take_digits_zpad 6 _ _ Hus). cbn [mbind option_bind]. f_equal.
      rewrite Hoff at 2. f_equal. f_equal. symmetry. exact Hsum.
Qed.

Lemma format_offset_head (off : Z) :
  exists c rest, format_offset off = String c rest /\ Ascii.eqb c "." = false.
Proof.
  unfold format_offset. cbv zeta.
  destruct (off <? 0)%Z; rewrite append_cons; eexists _, _; split; reflexivity.
Qed.

Lemma parse_timestamp_isoformat (t : timestamp) :
  timestamp_ok t = true -> parse_timestamp (timestamp_isoformat t) = Some t.
Proof.
  intros Hok. unfold timestamp_ok in Hok. apply andb_true_iff in Hok as [Hlocal Hoff].
  destruct t as [l [off|]]; cbn [local utcoffset] in *;
    unfold parse_timestamp, timestamp_isoformat; cbn [local utcoffset].
  - destruct (format_offset_head off) as (c & rest & Hhead & Hc).
    rewrite (parse_naive_isoformat l (format_offset off) Hlocal)
      by (rewrite Hhead; exact Hc).
    cbn [mbind option_bind]. rewrite Hhead at 1.
    rewrite (parse_offset_format off Hoff). reflexivity.
  - rewrite (parse_naive_isoformat l "" Hlocal) by exact I. reflexivity.
Qed.

(** What [fromisoformat] makes of the text that [isoformat] writes for a
    valid datetime. *)
Lemma fromisoformat_isoformat (other : string -> Result timestamp) (as_utc : bool)
    (t : timestamp) :
  timestamp_ok t = true ->
  datetime_fromisoformat other as_utc (timestamp_isoformat t)
  = Return (read_back as_utc t).
Proof.
  intros Hok. unfold datetime_fromisoformat.
  rewrite (parse_timestamp_isoformat t Hok), Hok, String.eqb_refl. reflexivity.
Qed.

Lemma read_back_same (as_utc : bool) (t : timestamp) :
  timestamp_reads_back t = true -> read_back as_utc t = t.
Proof.
  intros Hback. unfold timestamp_reads_back in Hback.
  apply andb_true_iff in Hback as [_ Hoff]. unfold read_back.
  destruct as_utc; [|reflexivity]. cbn [andb].
  destruct t as [l [off|]]; [|reflexivity]. cbn [utcoffset local] in *.
  apply orb_true_iff in Hoff as [Hzero|Hwhole].
  - apply Z.eqb_eq in Hzero. subst off. reflexivity.
  - apply negb_true_iff in Hwhole. unfold subsecond in *. cbn [utcoffset] in *.
    rewrite Hwhole. reflexivity.
Qed.

Lemma timestamp_roundtrip (other : string -> Result timestamp) (as_utc : bool)
    (t : timestamp) :
  timestamp_reads_back t = true ->
  datetime_fromisoformat other as_utc (timestamp_isoformat t) = Return t.
Proof.
  intros Hback. pose proof Hback as Hok. unfold timestamp_reads_back in Hok.
  apply andb_true_iff in Hok as [Hok _].
  rewrite (fromisoformat_isoformat other as_utc t Hok), (read_back_same as_utc t Hback).
  reflexivity.
Qed.

Lemma naive_reads_back (t : datetime) :
  datetime_ok t = true -> timestamp_reads_back (naive t) = true.
Proof.
  intros H. unfold timestamp_reads_back, timestamp_ok, naive. cbn. rewrite H.
  reflexivity.
Qed.


End IsoFormat.

(** ** Book: to_dict and from_dict *)

Section BookRoundTrip.

Import Base Datetime Book.











End BookRoundTrip.



Example book_round_trip_typed :
  Book.from_dict Samples.interpreter Base.EducationalMetadata_from_dict
    Samples.epoch Samples.epoch
    (Book.to_dict Base.EducationalMetadata_to_dict
       (Book.as_object (Samples.plain_book 0.5%float (Some 0%Z))))
  = Return (Book.as_object (Samples.plain_book 0.5%float (Some 0%Z))).
Proof. vm_compute. reflexivity. Qed.

Example book_to_dict_dates :
  let d := Book.to_dict Base.EducationalMetadata_to_dict Samples.odd_book in
  (PyDict.get "publication_date" d, PyDict.get "created_at" d, PyDict.get "updated_at" d)
  = (Some (VStr "1987-06-05"), Some (VStr "2025-01-01T00:00:00"),
     Some (VStr "2025-12-31T23:59:58.001200-05:30")).
Proof. vm_compute. reflexivity. Qed.

Example book_from_dict_missing_id :
  Book.from_dict Samples.interpreter Base.EducationalMetadata_from_dict
    Samples.epoch Samples.epoch
    [("title", VStr "Untitled");
     ("educational_metadata",
       VDict (Base.EducationalMetadata_to_dict Samples.fresh_metadata))]
  = Fail (KeyError "id").
Proof. vm_compute. reflexivity. Qed.

(** A description that is a dictionary and a page count that is a float are
    stored as they are. *)
Example book_from_dict_stores_any_value :
  match
    Book.from_dict Samples.interpreter Base.EducationalMetadata_from_dict
      Samples.epoch Samples.epoch
      (("description", VDict [("value", VStr "About numbers")])
       :: ("page_count", VFloat 32.5%float) :: Samples.minimal_dict)
  with
  | Return b => Some (Book.Object.description b, Book.Object.page_count b)
  | Fail _ => None
  end
  = Some (VDict [("value", VStr "About numbers")], VFloat 32.5%float).
Proof. vm_compute. reflexivity. Qed.

Lemma rate_limit_budget_witness :
  let st := RateLimitingService.run Samples.limits Samples.burst
              (RateLimitingService.start 0) in
  (forall w,
      RateLimitingService.forwarded_in "arxiv" Samples.arxiv_limit w
        (RateLimitingService.forwarded st)
      <= RateLimitingService.budget Samples.arxiv_limit)
  /\ (forall (m : RateLimitingService.Mode) (wait : N),
        let now := (RateLimitingService.clock st + Z.of_N wait)%Z in
        RateLimitingService.budget Samples.arxiv_limit
        <= RateLimitingService.forwarded_in "arxiv" Samples.arxiv_limit
             (now / RateLimitingService.width Samples.arxiv_limit)
             (RateLimitingService.forwarded st) ->
        match fst (RateLimitingService.acquire Samples.limits m "arxiv" now
                     (RateLimitingService.counters st)) with
        | RateLimitingService.Forwarded t =>
            (now / RateLimitingService.width Samples.arxiv_limit
             < t / RateLimitingService.width Samples.arxiv_limit)%Z
        | RateLimitingService.Rejected e =>
            e = RateLimitingService.rate_limit_error "arxiv" Samples.arxiv_limit now
        end).
Proof.
  apply (rate_limit_budget Samples.limits "arxiv" Samples.arxiv_limit).
  vm_compute. reflexivity.
Defined.

Example burst_forwarded :
  RateLimitingService.forwarded
    (RateLimitingService.run Samples.limits Samples.burst (RateLimitingService.start 0))
  = [("arxiv", 1%Z); ("arxiv", 2%Z); ("wikipedia", 4%Z); ("arxiv", 60%Z); ("arxiv", 60%Z)].
Proof. vm_compute. reflexivity. Qed.

Example third_call_rejected :
  fst (RateLimitingService.acquire Samples.limits RateLimitingService.Reject "arxiv" 3%Z
         (RateLimitingService.counters
            (RateLimitingService.run Samples.limits (take 2 Samples.burst)
               (RateLimitingService.start 0))))
  = RateLimitingService.Rejected
      (Exceptions.RateLimitError "Rate limit exceeded" "arxiv" (Some 57%Z) None).
Proof. vm_compute. reflexivity. Qed.

(** * Further properties of the code *)

(** ** Book: what from_open_library builds *)

Section OpenLibraryBook.

Import Base Datetime Book.

Variables (py : Interpreter) (fresh : EducationalMetadata) (created updated : timestamp).

Lemma spec_grade_never_3_5 (subject : string) :
  spec_grade_of_subject subject <> Some GRADES_3_5.
Proof.
  unfold spec_grade_of_subject.
  repeat match goal with
         | |- context [if ?c then _ else _] => destruct c
         end; discriminate.
Qed.

Lemma omap_spec_grade_never_3_5 (subs : list string) :
  existsb (GradeLevel_eqb GRADES_3_5) (omap spec_grade_of_subject subs) = false.
Proof.
  induction subs as [|s subs IH]; [reflexivity|].
  cbn [omap list_omap]. pose proof (spec_grade_never_3_5 s) as Hs.
  destruct (spec_grade_of_subject s) as [[]|]; cbn; try exact IH.
  contradiction.
Qed.

(** No rule of the constructor infers grades 3-5: unless [EducationalMetadata()]
    already lists them, a book built from an Open Library record is never
    suitable for grades 3-5. *)
Theorem from_open_library_never_grades_3_5 (ol_data : PyDict.t) (b : Object.t) :
  existsb (GradeLevel_eqb GRADES_3_5) (grade_levels fresh) = false ->
  from_open_library py fresh created updated ol_data = Return b ->
  Object.is_suitable_for_grade_level b GRADES_3_5 = false.
Proof.
  intros Hfresh Hb.
  destruct (from_open_library_inv py fresh created updated ol_data b Hb)
    as (work_id & isbns & subs & _ & _ & _ & _ & _ & _ & _ & _ & _ & _ & Hem & _).
  unfold Object.is_suitable_for_grade_level. rewrite Hem. cbn.
  rewrite infer_grade_levels_omap, existsb_app, Hfresh.
  apply omap_spec_grade_never_3_5.
Qed.

Lemma omap_length_le {A B} (f : A -> option B) (l : list A) :
  length (omap f l) <= length l.
Proof.
  induction l as [|x l IH]; [reflexivity|].
  cbn [omap list_omap]. destruct (f x); simpl; lia.
Qed.

(** The subjects of a book built from an Open Library record are a list of
    strings; the book has at most one inferred grade level per subject, and
    its educational subjects are the first five of its subjects (all of them
    when there are at most five). *)
Theorem from_open_library_metadata_sizes (ol_data : PyDict.t) (b : Object.t) :
  from_open_library py fresh created updated ol_data = Return b ->
  exists subs,
    Object.subjects b = VList (VStr <$> subs)
    /\ length (grade_levels (Object.educational_metadata b))
       <= length (grade_levels fresh) + length subs
    /\ educational_subjects (Object.educational_metadata b) = take 5 subs
    /\ length (educational_subjects (Object.educational_metadata b)) <= 5
    /\ (length subs <= 5 ->
        educational_subjects (Object.educational_metadata b) = subs).
Proof.
  intros Hb.
  destruct (from_open_library_inv py fresh created updated ol_data b Hb)
    as (work_id & isbns & subs & _ & _ & _ & _ & _ & _ & _ & _ & _ & Hsubs & Hem & _).
  exists subs. split; [exact Hsubs|].
  rewrite Hem. cbn. rewrite infer_grade_levels_omap, length_app.
  pose proof (omap_length_le spec_grade_of_subject subs).
  repeat split.
  - lia.
  - rewrite length_take. lia.
  - intros Hle. apply take_ge. exact Hle.
Qed.

Lemma isbn_loop_lengths (vals : list PyVal) (i0 i1 r0 r1 : option PyVal) :
  (forall v, i0 = Some v -> py_len v = Some 10) ->
  (forall v, i1 = Some v -> py_len v = Some 13) ->
  isbn_loop vals i0 i1 = Return (r0, r1) ->
  (forall v, r0 = Some v -> py_len v = Some 10)
  /\ (forall v, r1 = Some v -> py_len v = Some 13).
Proof.
  revert i0 i1. induction vals as [|x vals IH]; intros i0 i1 H0 H1; cbn [isbn_loop].
  - intros H. injection H as <- <-. split; assumption.
  - destruct (py_len x) as [n|] eqn:Hlen; [|discriminate].
    destruct (n =? 10)%nat eqn:E10; [|destruct (n =? 13)%nat eqn:E13].
    + apply Nat.eqb_eq in E10. subst n. apply IH; [|assumption].
      intros v Hv. injection Hv as <-. exact Hlen.
    + apply Nat.eqb_eq in E13. subst n. apply IH; [assumption|].
      intros v Hv. injection Hv as <-. exact Hlen.
    + apply IH; assumption.
Qed.

(** The ISBN fields of a book built from an Open Library record hold what
    their names say: [isbn] is [None] or a value of length 10, [isbn13] is
    [None] or a value of length 13; a string there has 10 and 13 characters. *)
Theorem from_open_library_isbn_lengths (ol_data : PyDict.t) (b : Object.t) :
  from_open_library py fresh created updated ol_data = Return b ->
  (Object.isbn b = VNone \/ py_len (Object.isbn b) = Some 10)
  /\ (Object.isbn13 b = VNone \/ py_len (Object.isbn13 b) = Some 13)
  /\ (forall s, Object.isbn b = VStr s -> String.length s = 10)
  /\ (forall s, Object.isbn13 b = VStr s -> String.length s = 13).
Proof.
  intros Hb.
  destruct (from_open_library_inv py fresh created updated ol_data b Hb)
    as (work_id & isbns & subs & _ & _ & _ & _ & _ & Hisbns & Hi & Hi13 & _).
  assert (Hlen : (forall v, isbns.1 = Some v -> py_len v = Some 10)
                 /\ (forall v, isbns.2 = Some v -> py_len v = Some 13)).
  { unfold ol_isbns in Hisbns.
    destruct (PyDict.get "isbn" ol_data) as [v|].
    - destruct (truthy_val v).
      + destruct (iterate v) as [vals|]; [|discriminate]. cbn [bind] in Hisbns.
        destruct isbns as [r0 r1].
        apply (isbn_loop_lengths vals None None r0 r1); [discriminate|discriminate|].
        exact Hisbns.
      + injection Hisbns as <-. split; discriminate.
    - injection Hisbns as <-. split; discriminate. }
  destruct Hlen as [H10 H13].
  assert (Hisbn : Object.isbn b = VNone \/ py_len (Object.isbn b) = Some 10).
  { rewrite Hi. destruct isbns.1 as [v|]; [right; apply H10; reflexivity | left; reflexivity]. }
  assert (Hisbn13 : Object.isbn13 b = VNone \/ py_len (Object.isbn13 b) = Some 13).
  { rewrite Hi13. destruct isbns.2 as [v|]; [right; apply H13; reflexivity | left; reflexivity]. }
  repeat split; try assumption.
  - intros s Hs. rewrite Hs in Hisbn. destruct Hisbn as [H|H]; [discriminate H|].
    injection H as H. exact H.
  - intros s Hs. rewrite Hs in Hisbn13. destruct Hisbn13 as [H|H]; [discriminate H|].
    injection H as H. exact H.
Qed.



End OpenLibraryBook.


Section OpenLibraryFields.

Import Base Datetime Book.

Lemma contains_cons_false (needle : string) (c : ascii) (s : string) :
  PyStr.contains needle (String c s) = false ->
  String.prefix needle (String c s) = false /\ PyStr.contains needle s = false.
Proof.
  cbn [PyStr.contains]. destruct (String.prefix needle (String c s)); [discriminate|].
  intros H. split; [reflexivity | exact H].
Qed.

(** A string without a slash holds no occurrence of "/works/". *)
Lemma replace_works_no_slash (w : string) :
  PyStr.contains "/" w = false -> PyStr.replace_from "/works/" "" 0 w = w.
Proof.
  induction w as [|c w IH]; [reflexivity|].
  intros H. apply contains_cons_false in H as [Hc Hw].
  cbn [PyStr.replace_from].
  assert (Hp : String.prefix "/works/" (String c w) = false).
  { cbn [String.prefix] in *.
    destruct (ascii_dec "/" c); [destruct w; discriminate Hc | reflexivity]. }
  rewrite Hp, (IH Hw). reflexivity.
Qed.

(** The work id is the key without its "/works/" prefix: for a key
    "/works/" + w, where w holds no slash, the id is w and the source URL
    ends in w. *)
Theorem from_open_library_work_id (py : Interpreter) (fresh : EducationalMetadata)
    (created updated : timestamp) (ol_data : PyDict.t) (w : string) (b : Object.t) :
  PyDict.get "key" ol_data = Some (VStr ("/works/" +:+ w)) ->
  PyStr.contains "/" w = false ->
  from_open_library py fresh created updated ol_data = Return b ->
  Object.id b = VStr w
  /\ Object.source_url b = VStr ("https://openlibrary.org/works/" +:+ w).
Proof.
  intros Hkey Hw Hb.
  assert (Hid : ol_work_id ol_data = Return w).
  { unfold ol_work_id. rewrite Hkey. f_equal.
    assert (Hpre : String.prefix "" w = true) by (destruct w; reflexivity).
    unfold PyStr.replace. rewrite !append_cons, append_empty_l.
    simpl. rewrite Hpre. rewrite append_empty_l.
    apply replace_works_no_slash, Hw. }
  destruct (from_open_library_inv py fresh created updated ol_data b Hb)
    as (work_id & isbns & subs & Hwork & Hi & Hurl & _).
  rewrite Hid in Hwork. injection Hwork as <-. split; assumption.
Qed.

End OpenLibraryFields.


Section OpenLibraryDefaults.

Import Base Datetime Book.

(** A record that holds only a key and a title still gives a book: no
    authors, no ISBN, no date, no subjects, the empty description, English
    as language and the metadata of [EducationalMetadata()] without
    subjects. *)
Theorem from_open_library_missing_data (py : Interpreter) (fresh : EducationalMetadata)
    (created updated : timestamp) (ol_data : PyDict.t) (k t : string) :
  PyDict.get "key" ol_data = Some (VStr k) ->
  PyDict.get "title" ol_data = Some (VStr t) ->
  Forall (fun key => PyDict.get key ol_data = None)
    ["author_name"; "authors"; "first_publish_year"; "isbn"; "subject";
     "publisher"; "description"; "cover_i"; "number_of_pages_median"; "language"] ->
  from_open_library py fresh created updated ol_data
  = Return
      {| Object.id := VStr (PyStr.replace "/works/" "" k);
         Object.title := VStr t;
         Object.authors := VList [];
         Object.isbn := VNone;
         Object.isbn13 := VNone;
         Object.publication_date := None;
         Object.publisher := VNone;
         Object.subjects := VList [];
         Object.description := VStr "";
         Object.cover_url := VNone;
         Object.page_count := VNone;
         Object.language := VStr "en";
         Object.educational_metadata :=
           set_educational_subjects (set_grade_levels fresh (grade_levels fresh)) [];
         Object.lexile_score := VNone;
         Object.source := VStr "open_library";
         Object.source_url :=
           VStr ("https://openlibrary.org/works/" +:+ PyStr.replace "/works/" "" k);
         Object.created_at := created;
         Object.updated_at := updated |}.
Proof.
  intros Hkey Htitle Hnone.
  repeat match goal with
         | H : Forall _ (_ :: _) |- _ =>
             let H1 := fresh "Hn" in
             apply Forall_cons in H as [H1 H]
         end.
  unfold from_open_library, ol_work_id, ol_authors, ol_publication_date, ol_isbns,
    from_open_library_metadata, ol_subjects, first_or, ol_cover_url.
  rewrite Hkey, Htitle.
  repeat match goal with
         | H : PyDict.get _ ol_data = None |- _ => rewrite H; clear H
         end.
  reflexivity.
Qed.

(** [has_subject] finds every subject and every educational subject of the
    book, however the query is capitalised, and the empty query matches as
    soon as the book has any subject at all. *)
Theorem has_subject_finds_own (b : Book) :
  (forall s q,
      In s (subjects b ++ educational_subjects (educational_metadata b)) ->
      PyStr.lower q = PyStr.lower s ->
      has_subject b q = true)
  /\ has_subject b ""
     = nonempty (subjects b ++ educational_subjects (educational_metadata b)).
Proof.
  assert (Hrefl : forall s, PyStr.contains s s = true).
  { intros s. assert (Hp : String.prefix s s = true).
    { induction s as [|c s IH]; [reflexivity|]. cbn [String.prefix].
      destruct (ascii_dec c c); [exact IH | contradiction]. }
    destruct s; cbn [PyStr.contains]; rewrite Hp; reflexivity. }
  split.
  - intros s q Hin Hlow. unfold has_subject. apply existsb_exists.
    exists s. split; [exact Hin|]. rewrite Hlow. apply Hrefl.
  - unfold has_subject.
    generalize (subjects b ++ educational_subjects (educational_metadata b)).
    intros l. destruct l as [|s l]; [reflexivity|]. cbn [existsb nonempty].
    replace (PyStr.contains (PyStr.lower "") (PyStr.lower s)) with true; [reflexivity|].
    destruct (PyStr.lower s); reflexivity.
Qed.

Lemma reading_level_by_value (l : list GradeLevel) :
  existsb (fun gl => PyStr.contains "K-2" gl || PyStr.contains "3-5" gl)
    (GradeLevel_value <$> l)
  = existsb (GradeLevel_eqb K_2) l || existsb (GradeLevel_eqb GRADES_3_5) l
  /\ existsb (PyStr.contains "6-8") (GradeLevel_value <$> l)
     = existsb (GradeLevel_eqb GRADES_6_8) l
  /\ existsb (PyStr.contains "9-12") (GradeLevel_value <$> l)
     = existsb (GradeLevel_eqb GRADES_9_12) l
  /\ existsb (PyStr.contains "College") (GradeLevel_value <$> l)
     = existsb (GradeLevel_eqb COLLEGE) l.
Proof.
  induction l as [|g l (IH1 & IH2 & IH3 & IH4)]; [repeat split|].
  cbn [fmap list_fmap existsb] in *. rewrite IH1, IH2, IH3, IH4.
  generalize (existsb (GradeLevel_eqb K_2) l), (existsb (GradeLevel_eqb GRADES_3_5) l),
    (existsb (GradeLevel_eqb GRADES_6_8) l), (existsb (GradeLevel_eqb GRADES_9_12) l),
    (existsb (GradeLevel_eqb COLLEGE) l).
  intros e1 e2 e3 e4 e5.
  destruct g, e1, e2, e3, e4, e5; vm_compute; repeat split.
Qed.

(** [get_reading_level] returns the reading level stored in the metadata
    when there is one; otherwise, for a book with grade levels, the lowest
    band present decides: "Elementary" for K-2 or 3-5, else "Middle School"
    for 6-8, else "High School" for 9-12, else "College". *)
Theorem get_reading_level_by_grade (b : Book) :
  (forall r, reading_level (educational_metadata b) = Some r -> r <> "" ->
             get_reading_level b = r)
  /\ (truthy_str (reading_level (educational_metadata b)) = false ->
      grade_levels (educational_metadata b) <> [] ->
      get_reading_level b
      = if is_suitable_for_grade_level b K_2 || is_suitable_for_grade_level b GRADES_3_5
        then "Elementary"
        else if is_suitable_for_grade_level b GRADES_6_8 then "Middle School"
        else if is_suitable_for_grade_level b GRADES_9_12 then "High School"
        else "College").
Proof.
  split.
  - intros r Hr Hne. unfold get_reading_level. rewrite Hr. cbn [truthy_str default].
    destruct r; [contradiction | reflexivity].
  - intros Hstored Hlevels. unfold get_reading_level, is_suitable_for_grade_level.
    rewrite Hstored.
    destruct (grade_levels (educational_metadata b)) as [|g l] eqn:Hl; [contradiction|].
    cbn [nonempty negb]. cbv zeta.
    destruct (reading_level_by_value (g :: l)) as (-> & -> & -> & ->).
    destruct (existsb (GradeLevel_eqb K_2) (g :: l)
              || existsb (GradeLevel_eqb GRADES_3_5) (g :: l)) eqn:H1; [reflexivity|].
    destruct (existsb (GradeLevel_eqb GRADES_6_8) (g :: l)) eqn:H2; [reflexivity|].
    destruct (existsb (GradeLevel_eqb GRADES_9_12) (g :: l)) eqn:H3; [reflexivity|].
    apply orb_false_iff in H1 as [H0 H1].
    cbn [existsb] in *. apply orb_false_iff in H0 as [H0 _], H1 as [H1 _].
    apply orb_false_iff in H2 as [H2 _], H3 as [H3 _].
    destruct g; try discriminate. reflexivity.
Qed.

End OpenLibraryDefaults.


(** ** Book: from_dict on dictionaries that to_dict did not write *)

Section FromDict.

Import Base Datetime Book.

Variable py : Interpreter.
Variable em_from_dict : PyVal -> Result EducationalMetadata.
Variables now1 now2 : datetime.

Lemma item_inv (key : string) (data : PyDict.t) (v : PyVal) :
  item key data = Return v -> PyDict.get key data = Some v.
Proof.
  unfold item. destruct (PyDict.get key data); [|discriminate].
  intros H. injection H as ->. reflexivity.
Qed.

(** [from_dict] succeeds only on a dictionary that holds "id" and "title",
    and the book carries exactly those two values. *)
Theorem from_dict_required_keys (data : PyDict.t) (b : Object.t) :
  from_dict py em_from_dict now1 now2 data = Return b ->
  PyDict.get "id" data = Some (Object.id b)
  /\ PyDict.get "title" data = Some (Object.title b).
Proof.
  unfold from_dict.
  destruct (em_from_dict _); cbn [bind]; [|discriminate].
  destruct (item "id" data) as [i|] eqn:Hid; cbn [bind]; [|discriminate].
  destruct (item "title" data) as [t|] eqn:Htitle; cbn [bind]; [|discriminate].
  repeat match goal with
         | |- bind ?m _ = Return _ -> _ => destruct m; cbn [bind]; [|discriminate]
         end.
  intros H. injection H as <-. cbn [Object.id Object.title].
  split; apply item_inv; assumption.
Qed.

(** [from_dict] reads the eighteen keys of a book and nothing else: two
    dictionaries that agree on those keys give the same result. *)
Theorem from_dict_reads_only_its_keys (d1 d2 : PyDict.t) :
  Forall (fun key => PyDict.get key d1 = PyDict.get key d2)
    ["educational_metadata"; "id"; "title"; "authors"; "isbn"; "isbn13";
     "publication_date"; "publisher"; "subjects"; "description"; "cover_url";
     "page_count"; "language"; "lexile_score"; "source"; "source_url";
     "created_at"; "updated_at"] ->
  from_dict py em_from_dict now1 now2 d1 = from_dict py em_from_dict now1 now2 d2.
Proof.
  intros Hagree.
  repeat match goal with
         | H : Forall _ (_ :: _) |- _ =>
             let H1 := fresh "Hk" in
             apply Forall_cons in H as [H1 H]
         end.
  unfold from_dict, item, get_publication_date, get_timestamp.
  repeat match goal with
         | H : PyDict.get _ d1 = PyDict.get _ d2 |- _ => rewrite H; clear H
         end.
  reflexivity.
Qed.

(** A dictionary that holds only "id" and "title" gives a book with the
    defaults of the dataclass: empty lists, no optional field, language "en",
    source "open_library", the metadata read from the empty dictionary, and
    the two readings of the clock as timestamps. *)
Theorem from_dict_defaults (data : PyDict.t) (i t : string) (m : EducationalMetadata) :
  datetime_ok now1 = true -> datetime_ok now2 = true ->
  em_from_dict (VDict []) = Return m ->
  PyDict.get "id" data = Some (VStr i) ->
  PyDict.get "title" data = Some (VStr t) ->
  Forall (fun key => PyDict.get key data = None)
    ["educational_metadata"; "authors"; "isbn"; "isbn13"; "publication_date";
     "publisher"; "subjects"; "description"; "cover_url"; "page_count";
     "language"; "lexile_score"; "source"; "source_url"; "created_at";
     "updated_at"] ->
  from_dict py em_from_dict now1 now2 data
  = Return
      {| Object.id := VStr i;
         Object.title := VStr t;
         Object.authors := VList [];
         Object.isbn := VNone;
         Object.isbn13 := VNone;
         Object.publication_date := None;
         Object.publisher := VNone;
         Object.subjects := VList [];
         Object.description := VNone;
         Object.cover_url := VNone;
         Object.page_count := VNone;
         Object.language := VStr "en";
         Object.educational_metadata := m;
         Object.lexile_score := VNone;
         Object.source := VStr "open_library";
         Object.source_url := VNone;
         Object.created_at := naive now1;
         Object.updated_at := naive now2 |}.
Proof.
  intros Hn1 Hn2 Hem Hid Htitle Hnone.
  repeat match goal with
         | H : Forall _ (_ :: _) |- _ =>
             let H1 := fresh "Hk" in
             apply Forall_cons in H as [H1 H]
         end.
  unfold from_dict, item, get_publication_date, get_timestamp.
  rewrite Hid, Htitle.
  repeat match goal with
         | H : PyDict.get _ data = None |- _ => rewrite H; clear H
         end.
  cbn [default from_option]. rewrite Hem.
  rewrite (timestamp_roundtrip _ _ (naive now1) (naive_reads_back now1 Hn1)),
    (timestamp_roundtrip _ _ (naive now2) (naive_reads_back now2 Hn2)).
  reflexivity.
Qed.

End FromDict.


(** ** Exceptions: the text of an exception *)

Section ExceptionText.

Import Exceptions.

Lemma prefix_empty (s : string) : String.prefix "" s = true.
Proof. destruct s; reflexivity. Qed.

Lemma prefix_append (m rest : string) : String.prefix m (m +:+ rest) = true.
Proof.
  induction m as [|c m IH]; [apply prefix_empty|].
  rewrite append_cons. cbn [String.prefix].
  destruct (ascii_dec c c); [exact IH | contradiction].
Qed.

Lemma contains_here (m rest : string) : PyStr.contains m (m +:+ rest) = true.
Proof.
  pose proof (prefix_append m rest) as Hp.
  destruct (m +:+ rest); cbn [PyStr.contains]; rewrite Hp; reflexivity.
Qed.

Lemma contains_later (m a s : string) :
  PyStr.contains m s = true -> PyStr.contains m (a +:+ s) = true.
Proof.
  intros H. induction a as [|c a IH]; [exact H|].
  rewrite append_cons. cbn [PyStr.contains]. rewrite IH.
  destruct (String.prefix m (String c (a +:+ s))); reflexivity.
Qed.

Lemma contains_self (m : string) : PyStr.contains m m = true.
Proof. rewrite <- (append_empty_r m) at 2. apply contains_here. Qed.

(** The text of every exception of exceptions.py shows its message,
    whatever the other attributes are. *)
Theorem str_shows_message (e : PyExc) (m : string) :
  message_of e = Some m -> PyStr.contains m (str e) = true.
Proof.
  destruct e; cbn [message_of]; try discriminate; intros H; injection H as ->;
    cbn [str]; unfold base_str;
    repeat match goal with
           | |- context [match ?d with Some _ => _ | None => _ end] => destruct d
           | |- context [if ?c then _ else _] => destruct c
           end;
    repeat first [apply contains_self | apply contains_here | apply contains_later].
Qed.

(** An optional attribute that is empty or zero leaves no trace in the text:
    the text is that of the exception with such attributes set to [None]. *)
Theorem str_ignores_falsy (e : PyExc) : str (without_falsy e) = str e.
Proof.
  destruct e; cbn [without_falsy str]; try reflexivity;
    unfold base_str, dash_details, paren_str, kept_str, kept_int, truthy_int;
    repeat match goal with
           | o : option string |- _ => destruct o as [[|? ?]|]
           | o : option Z |- _ => destruct o as [[| |]|]
           end; reflexivity.
Qed.

End ExceptionText.


(** ** Dispatch layer: guards, calls and validation *)

Section Handlers.

Import Exceptions Main.

Variable upper : string -> string.

(** Before its tool is initialised, a handler raises [OpenEduMCPError] with
    the name of the tool and calls nothing, whatever its arguments. *)
Theorem uninitialised_tool_rejected (g : Globals) (ctx : Context) (req : Request)
    (k : ToolKind) :
  tool_of req = Some k -> tool_global g k = None ->
  dispatch upper g ctx req
  = ([], Fail (OpenEduMCPError (tool_label k +:+ " tool not properly initialized") None)).
Proof.
  intros Hk Hnone.
  destruct req; cbn [tool_of] in Hk; try discriminate Hk; injection Hk as <-;
    cbn [tool_global] in Hnone; cbn [dispatch];
    unfold search_educational_books, get_book_details_by_isbn,
      search_books_by_subject, get_book_recommendations,
      search_educational_articles, get_article_summary, get_article_content,
      get_featured_article, get_articles_by_subject, get_word_definition,
      get_vocabulary_analysis, get_word_examples, get_pronunciation_guide,
      get_related_vocabulary, search_academic_papers, get_paper_summary,
      get_recent_research, get_research_by_level, analyze_research_trends, forward;
    rewrite Hnone; reflexivity.
Qed.

(** What a guarded call leaves in the run. *)
Lemma try_call_shape (obj : Object) (tgt meth prefix : string) (kw : PyDict.t) :
  let inv := {| target := tgt; method := meth; kwargs := kw |} in
  fst (try_except (call obj tgt meth kw) (reraise prefix)) = [(inv, obj inv)]
  /\ forall v, snd (try_except (call obj tgt meth kw) (reraise prefix)) = Return v ->
               obj inv = Return v.
Proof.
  intros inv. unfold try_except, call. fold inv.
  destruct (obj inv) as [v|e]; cbn [fst snd].
  - split; [reflexivity|]. intros v' H. exact H.
  - destruct (isinstance_Exception e); cbn [fst snd]; (split; [reflexivity|]);
      intros v' H; discriminate H.
Qed.

(** A handler of a content tool calls nothing but its own tool, at most
    once, through the method that bears the handler's name; and what it
    returns is what that call returned. *)
Theorem handler_calls_own_tool (g : Globals) (ctx : Context) (req : Request)
    (k : ToolKind) :
  tool_of req = Some k ->
  let r := dispatch upper g ctx req in
  (fst r = []
   \/ exists obj inv,
        tool_global g k = Some obj /\ fst r = [(inv, obj inv)]
        /\ target inv = tool_variable k /\ method inv = handler_name req)
  /\ (forall v, snd r = Return v -> exists inv, fst r = [(inv, Return v)]).
Proof.
  intros Hk r. subst r.
  destruct req; cbn [tool_of] in Hk; try discriminate Hk; injection Hk as <-;
    cbn [dispatch tool_global tool_variable handler_name];
    unfold search_educational_books, get_book_details_by_isbn,
      search_books_by_subject, get_book_recommendations,
      search_educational_articles, get_article_summary, get_article_content,
      get_featured_article, get_articles_by_subject, get_word_definition,
      get_vocabulary_analysis, get_word_examples, get_pronunciation_guide,
      get_related_vocabulary, search_academic_papers, get_paper_summary,
      get_recent_research, get_research_by_level, analyze_research_trends, forward;
    match goal with
    | |- context [match ?t with Some _ => _ | None => _ end] =>
        destruct t as [obj|]
    end;
    repeat match goal with
           | |- context [if ?c then _ else _] => destruct c
           end;
    try (split; [left; reflexivity | intros v H; discriminate H]);
    match goal with
    | |- context [try_except (call ?o ?t ?m ?kw) (reraise ?p)] =>
        destruct (try_call_shape o t m p kw) as [Hcalls Hret]
    end;
    (split;
     [ right; eexists _, _; split; [reflexivity|]; split; [exact Hcalls|];
       split; reflexivity
     | intros v Hv; eexists; rewrite Hcalls, (Hret v Hv); reflexivity ]).
Qed.

Lemma lstrip_empty_all_space (s : string) :
  PyStr.lstrip s = "" -> PyStr.all_space s = true.
Proof.
  induction s as [|c s IH]; [reflexivity|]. cbn [PyStr.lstrip PyStr.all_space].
  destruct (PyStr.isspace c); [exact IH | discriminate].
Qed.

Lemma lstrip_head (s : string) (c : ascii) (s' : string) :
  PyStr.lstrip s = String c s' -> PyStr.isspace c = false.
Proof.
  induction s as [|x s IH]; [discriminate|]. cbn [PyStr.lstrip].
  destruct (PyStr.isspace x) eqn:Hx; [exact IH|].
  intros H. injection H as <- _. exact Hx.
Qed.

Lemma rstrip_head (c : ascii) (s : string) :
  PyStr.isspace c = false -> PyStr.rstrip (String c s) <> "".
Proof.
  intros Hc. cbn [PyStr.rstrip]. rewrite Hc. destruct (PyStr.rstrip s); discriminate.
Qed.

(** The test [not s or not s.strip()] holds exactly for the strings made of
    whitespace only, the empty one among them. *)
Lemma blank_iff_all_space (s : string) : blank s = PyStr.all_space s.
Proof.
  destruct (PyStr.all_space s) eqn:Hall; [apply blank_all_space, Hall|].
  unfold blank, PyStr.strip.
  destruct s as [|c s]; [discriminate Hall|]. cbn [PyStr.truthy negb orb].
  destruct (PyStr.lstrip (String c s)) as [|x t] eqn:Hl.
  - apply lstrip_empty_all_space in Hl. congruence.
  - pose proof (rstrip_head x t (lstrip_head _ _ _ Hl)) as Hr.
    destruct (PyStr.rstrip (String x t)); [contradiction | reflexivity].
Qed.

Lemma invalid_grade_level_iff (grade_level : option string) :
  invalid_grade_level grade_level = false <-> acceptable_grade_level grade_level.
Proof.
  unfold invalid_grade_level, acceptable_grade_level.
  destruct grade_level as [gl|]; [|split; auto].
  destruct gl as [|c gl]; [split; auto|]. cbn [PyStr.truthy andb].
  rewrite negb_false_iff, existsb_eqb_In. split.
  - intros H. right. exact H.
  - intros [H|H]; [discriminate H | exact H].
Qed.

(** [search_educational_books] reaches the tool exactly when the tool is
    initialised, the query has a character that is not whitespace, the grade
    level is absent, empty or one of the five names, and the limit lies in
    1..50; it then passes on its arguments unchanged, with the session. *)
Theorem search_educational_books_forwards_iff (g : Globals) (ctx : Context)
    (query : string) (subject grade_level : option string) (limit : Z) :
  let r := search_educational_books g ctx query subject grade_level limit in
  let inv :=
    {| target := "openlibrary_tool"; method := "search_educational_books";
       kwargs := [ ("query", VStr query); ("subject", opt subject);
                   ("grade_level", opt grade_level); ("limit", VInt limit);
                   ("user_session", user_session ctx) ] |} in
  (fst r <> [] <->
   openlibrary_tool g <> None /\ PyStr.all_space query = false
   /\ acceptable_grade_level grade_level /\ (1 <= limit <= 50)%Z)
  /\ (fst r <> [] ->
      exists tool, openlibrary_tool g = Some tool /\ fst r = [(inv, tool inv)]).
Proof.
  intros r inv. subst r. unfold search_educational_books.
  rewrite blank_iff_all_space.
  destruct (openlibrary_tool g) as [tool|];
    [|split; [split; [intros H; contradiction | intros [H _]; contradiction]
             | intros H; contradiction]].
  destruct (PyStr.all_space query);
    [split; [split; [intros H; contradiction | intros (_ & H & _); discriminate H]
            | intros H; contradiction]|].
  destruct (invalid_grade_level grade_level) eqn:Hgl.
  { split; [split; [intros H; contradiction|] | intros H; contradiction].
    intros (_ & _ & H & _). apply invalid_grade_level_iff in H. congruence. }
  apply invalid_grade_level_iff in Hgl.
  destruct ((limit <? 1) || (limit >? 50))%Z eqn:Hlim.
  { split; [split; [intros H; contradiction|] | intros H; contradiction].
    intros (_ & _ & _ & H). apply orb_true_iff in Hlim as [Hl|Hl];
      [apply Z.ltb_lt in Hl | apply Z.gtb_gt in Hl]; lia. }
  apply orb_false_iff in Hlim as [Hlo Hhi].
  apply Z.ltb_ge in Hlo. rewrite Z.gtb_ltb in Hhi. apply Z.ltb_ge in Hhi.
  destruct (try_call_shape tool "openlibrary_tool" "search_educational_books"
              "Book search failed" (kwargs inv)) as [Hcalls _].
  cbn [kwargs inv] in Hcalls. fold inv in Hcalls.
  split.
  - split.
    + intros _. repeat split; try assumption; try discriminate; lia.
    + intros _. rewrite Hcalls. discriminate.
  - intros _. exists tool. split; [reflexivity | exact Hcalls].
Qed.

(** [get_word_definition] reaches the tool exactly when the tool is
    initialised, the word has a character that is not whitespace and the
    grade level is absent, empty or one of the five names. *)
Theorem get_word_definition_forwards_iff (g : Globals) (ctx : Context)
    (word : string) (grade_level : option string) (include_pronunciation : bool) :
  let r := get_word_definition g ctx word grade_level include_pronunciation in
  let inv :=
    {| target := "dictionary_tool"; method := "get_word_definition";
       kwargs := [ ("word", VStr word); ("grade_level", opt grade_level);
                   ("include_pronunciation", VBool include_pronunciation);
                   ("user_session", user_session ctx) ] |} in
  (fst r <> [] <->
   dictionary_tool g <> None /\ PyStr.all_space word = false
   /\ acceptable_grade_level grade_level)
  /\ (fst r <> [] ->
      exists tool, dictionary_tool g = Some tool /\ fst r = [(inv, tool inv)]).
Proof.
  intros r inv. subst r. unfold get_word_definition.
  rewrite blank_iff_all_space.
  destruct (dictionary_tool g) as [tool|];
    [|split; [split; [intros H; contradiction | intros [H _]; contradiction]
             | intros H; contradiction]].
  destruct (PyStr.all_space word);
    [split; [split; [intros H; contradiction | intros (_ & H & _); discriminate H]
            | intros H; contradiction]|].
  destruct (invalid_grade_level grade_level) eqn:Hgl.
  { split; [split; [intros H; contradiction|] | intros H; contradiction].
    intros (_ & _ & H). apply invalid_grade_level_iff in H. congruence. }
  apply invalid_grade_level_iff in Hgl.
  destruct (try_call_shape tool "dictionary_tool" "get_word_definition"
              "Word definition retrieval failed" (kwargs inv)) as [Hcalls _].
  cbn [kwargs inv] in Hcalls. fold inv in Hcalls.
  split.
  - split.
    + intros _. repeat split; try assumption; discriminate.
    + intros _. rewrite Hcalls. discriminate.
  - intros _. exists tool. split; [reflexivity | exact Hcalls].
Qed.

End Handlers.


Section ServerStatus.

Import Exceptions Main.

(** [get_server_status] asks the cache, the rate limiter and the usage
    tracker in that order and stops at the first one that raises; it reports
    "healthy" exactly when all three answered, and "error" otherwise. *)
Theorem get_server_status_report (g : Globals) (ctx : Context) :
  let r := get_server_status g ctx in
  (fun c => method c.1) <$> fst r
    `prefix_of` ["get_stats"; "get_all_rate_limit_status"; "get_usage_stats"]
  /\ (forall i inv e, fst r !! i = Some (inv, Fail e) -> length (fst r) = S i)
  /\ (forall v, snd r = Return v ->
        (status_of v = Some (VStr "healthy") \/ status_of v = Some (VStr "error"))
        /\ (status_of v = Some (VStr "healthy") <->
            exists i1 v1 i2 v2 i3 v3,
              fst r = [(i1, Return v1); (i2, Return v2); (i3, Return v3)])).
Proof.
  intros r. subst r. unfold get_server_status.
  assert (Hnone : forall answer : PyVal,
             (fun c : Invocation * Result PyVal => method c.1) <$> []
               `prefix_of` ["get_stats"; "get_all_rate_limit_status"; "get_usage_stats"]
             /\ (forall i inv e,
                    ([] : list (Invocation * Result PyVal)) !! i = Some (inv, Fail e) ->
                    length ([] : list (Invocation * Result PyVal)) = S i)
             /\ (forall v, Return (E:=PyExc) (status_error "Server services not properly initialized")
                           = Return v ->
                   (status_of v = Some (VStr "healthy") \/ status_of v = Some (VStr "error"))
                   /\ (status_of v = Some (VStr "healthy") <->
                       exists i1 v1 i2 v2 i3 v3,
                         ([] : list (Invocation * Result PyVal))
                         = [(i1, Return v1); (i2, Return v2); (i3, Return v3)]))).
  { intros _. split; [apply prefix_nil|]. split; [intros i inv e H; discriminate H|].
    intros v H. injection H as <-. split; [right; reflexivity|].
    split; [discriminate | intros (? & ? & ? & ? & ? & ? & H); discriminate H]. }
  destruct (cache_service g) as [cache|]; [|exact (Hnone VNone)].
  destruct (rate_limiting_service g) as [rate|]; [|exact (Hnone VNone)].
  destruct (usage_service g) as [usage|]; [|exact (Hnone VNone)].
  clear Hnone. unfold call, run_bind, ret, try_except.
  destruct (cache _) as [v1|e1]; cbn [fst snd app];
    [destruct (rate _) as [v2|e2]; cbn [fst snd app];
       [destruct (usage _) as [v3|e3]; cbn [fst snd app] |] |];
    repeat match goal with
           | |- context [isinstance_Exception ?x] =>
               destruct (isinstance_Exception x); cbn [fst snd]
           end;
    (split;
     [ cbn [fmap list_fmap method fst];
       first [ reflexivity
             | exists ["get_usage_stats"]; reflexivity
             | exists ["get_all_rate_limit_status"; "get_usage_stats"]; reflexivity ]
     | split;
       [ intros i inv e H;
         repeat (destruct i as [|i]; cbn in H; try discriminate H); reflexivity
       | intros v H;
         first
           [ discriminate H
           | injection H as <-;
             split;
             [ first [left; reflexivity | right; reflexivity]
             | split;
               [ intros Hs;
                 first [ discriminate Hs | eexists _, _, _, _, _, _; reflexivity ]
               | intros (? & ? & ? & ? & ? & ? & Hl);
                 first [ reflexivity | discriminate Hl ] ] ] ] ] ]).
Qed.

End ServerStatus.


(** ** Usage tracker *)

Section Usage.

Import UsageService.

Variable upper : string -> string.








End Usage.


Example usage_log_of_three_invocations :
  UsageService.serve Samples.ascii_upper
    [ UsageService.Handle 1 (Samples.globals_answering (Return (VList [])))
        Samples.no_session (Main.SearchEducationalBooks "algebra" None None 10);
      UsageService.Handle 2 (Samples.globals_answering (Return (VList [])))
        Samples.no_session (Main.SearchEducationalBooks "" None None 10);
      UsageService.Handle 3 (Samples.globals_answering (Fail Samples.db_down))
        Samples.no_session (Main.GetWordExamples "atom" None None);
      UsageService.Handle 4 (Samples.globals_answering (Return (VList [])))
        Samples.no_session Main.GetServerStatus ]
    []
  = [ {| UsageService.tool_name := "openlibrary_tool";
         UsageService.method_name := "search_educational_books";
         UsageService.user_session := None;
         UsageService.timestamp := 1;
         UsageService.success := true |};
      {| UsageService.tool_name := "dictionary_tool";
         UsageService.method_name := "get_word_examples";
         UsageService.user_session := None;
         UsageService.timestamp := 3;
         UsageService.success := false |} ].
Proof. vm_compute. reflexivity. Qed.

(** ** Dispatch layer: the event stream *)

Section EventStream.

Import Exceptions Main.

Lemma sse_except_shape (e : PyExc) :
  sse_except e = ([], Finished)
  \/ (sse_except e = ([error_event e], Finished) /\ isinstance_Exception e = true)
  \/ (sse_except e = ([], Escaped e) /\ isinstance_Exception e = false).
Proof.
  unfold sse_except. destruct e as [[] t| | | | | | | | |]; cbn; auto.
Qed.

Lemma sse_loop_shape (turns : list Turn) (k : nat) :
  exists n tail,
    n <= length turns
    /\ fst (sse_loop k turns) = (ping_event <$> seq (S k) n) ++ tail
    /\ (tail = []
        \/ exists e, tail = [error_event e] /\ isinstance_Exception e = true
                     /\ snd (sse_loop k turns) = Finished).
Proof.
  revert k. induction turns as [|t turns IH]; intros k.
  - exists 0, []. cbn. repeat split; auto.
  - cbn [sse_loop]. destruct (probe t) as [[]|e].
    + exists 0, []. cbn. split; [lia|]. split; auto.
    + destruct (sleep t) as [e|].
      * destruct (sse_except_shape e) as [H|[[H He]|[H He]]]; rewrite H; cbn [fst snd].
        -- exists 1, []. cbn. split; [lia|]. split; auto.
        -- exists 1, [error_event e]. cbn. split; [lia|]. split; [reflexivity|].
           right. exists e. auto.
        -- exists 1, []. cbn. split; [lia|]. split; auto.
      * destruct (IH (S k)) as (n & tail & Hn & Hev & Htail).
        destruct (sse_loop (S k) turns) as [events ending]. cbn [fst snd] in *.
        exists (S n), tail. cbn [length seq fmap list_fmap]. split; [lia|].
        split; [rewrite Hev; reflexivity | exact Htail].
    + destruct (sse_except_shape e) as [H|[[H He]|[H He]]]; rewrite H; cbn [fst snd].
      * exists 0, []. cbn. split; [lia|]. split; auto.
      * exists 0, [error_event e]. cbn. split; [lia|]. split; [reflexivity|].
        right. exists e. auto.
      * exists 0, []. cbn. split; [lia|]. split; auto.
Qed.

(** Whatever the connection does, the stream opens with the "connected"
    event, goes on with pings whose heartbeats count 1, 2, 3, ... without a
    gap, at most one per turn of the loop, and ends there or with one error
    event for an exception of the [Exception] hierarchy. *)
Theorem sse_events_shape (turns : list Turn) :
  exists n tail,
    n <= length turns
    /\ fst (sse_event_generator turns)
       = connected_event :: (ping_event <$> seq 1 n) ++ tail
    /\ (tail = []
        \/ exists e, tail = [error_event e] /\ isinstance_Exception e = true
                     /\ snd (sse_event_generator turns) = Finished).
Proof.
  destruct (sse_loop_shape turns 0) as (n & tail & Hn & Hev & Htail).
  unfold sse_event_generator.
  destruct (sse_loop 0 turns) as [events ending]. cbn [fst snd] in *.
  exists n, tail. split; [exact Hn|]. split; [rewrite Hev; reflexivity | exact Htail].
Qed.

Lemma sse_loop_until_disconnect (n k : nat) (last : Turn) (rest : list Turn) :
  probe last = Return true ->
  sse_loop k (repeat quiet_turn n ++ last :: rest)
  = (ping_event <$> seq (S k) n, Finished).
Proof.
  intros Hlast. revert k. induction n as [|n IH]; intros k.
  - cbn. rewrite Hlast. reflexivity.
  - cbn [repeat app sse_loop quiet_turn probe sleep]. fold quiet_turn.
    rewrite (IH (S k)). reflexivity.
Qed.

(** While the client stays connected it gets one ping per turn; once
    [is_disconnected] answers true the generator is finished, and nothing
    that happens afterwards adds an event. *)
Theorem sse_stops_at_disconnect (n : nat) (last : Turn) (rest : list Turn) :
  probe last = Return true ->
  sse_event_generator (repeat quiet_turn n)
  = (connected_event :: (ping_event <$> seq 1 n), Waiting)
  /\ sse_event_generator (repeat quiet_turn n ++ last :: rest)
     = (connected_event :: (ping_event <$> seq 1 n), Finished).
Proof.
  intros Hlast. split.
  - unfold sse_event_generator.
    assert (H : forall k, sse_loop k (repeat quiet_turn n)
                          = (ping_event <$> seq (S k) n, Waiting)).
    { induction n as [|m IH]; intros k; [reflexivity|].
      cbn [repeat sse_loop quiet_turn probe sleep]. fold quiet_turn.
      rewrite (IH (S k)). reflexivity. }
    rewrite (H 0). reflexivity.
  - unfold sse_event_generator.
    rewrite (sse_loop_until_disconnect n 0 last rest Hlast). reflexivity.
Qed.

End EventStream.

Example ping_event_text :
  Main.ping_event 2
  = "event: ping" +:+ String "010" ("data: {" +:+ String "034" ("heartbeat"
    +:+ String "034" (": 2, " +:+ String "034" ("message" +:+ String "034" (": "
    +:+ String "034" ("ping" +:+ String "034" ("}"
    +:+ String "010" (String "010" EmptyString)))))))).
Proof. vm_compute. reflexivity. Qed.

Example json_string_escapes :
  Main.json_string (String "034" ("a\b" +:+ String "010" (String "233" EmptyString)))
  = String "034" ("\" +:+ String "034" ("a\\b\n\u00e9" +:+ String "034" EmptyString)).
Proof. vm_compute. reflexivity. Qed.


(** ** Fallback content: subject, grade level and URL *)

Section FallbackItems.

Import Fallback.

(** An empty subject or grade level counts as none given. *)
Theorem fallback_empty_is_absent (content_type : string)
    (subject grade_level : option string) :
  _provide_educational_fallback content_type (Some "") grade_level
  = _provide_educational_fallback content_type None grade_level
  /\ _provide_educational_fallback content_type subject (Some "")
     = _provide_educational_fallback content_type subject None.
Proof. split; reflexivity. Qed.

Lemma has_char_append (c : ascii) (a b : string) :
  PyStr.has_char c (a +:+ b) = PyStr.has_char c a || PyStr.has_char c b.
Proof.
  induction a as [|x a IH]; [reflexivity|].
  rewrite append_cons. cbn [PyStr.has_char]. rewrite IH, orb_assoc. reflexivity.
Qed.

Lemma replace_char_removes (old new : ascii) (s : string) :
  Ascii.eqb old new = false ->
  PyStr.has_char old (PyStr.replace_char old new s) = false.
Proof.
  intros Hne. induction s as [|c s IH]; [reflexivity|].
  cbn [PyStr.replace_char PyStr.has_char]. rewrite IH, orb_false_r.
  destruct (Ascii.eqb c old) eqn:Hc; [exact Hne|].
  rewrite Ascii.eqb_sym. exact Hc.
Qed.

(** The fallback article is one item whose URL is the education address
    followed by the subject in lower case with underscores for spaces: the
    URL holds no space, whatever the subject. *)
Theorem fallback_article_url_has_no_space (subject grade_level : option string) :
  exists item,
    _provide_educational_fallback "article" subject grade_level = [item]
    /\ PyDict.get "url" item
       = Some (VStr ("https://example.com/education/"
                     +:+ PyStr.replace_char " " "_"
                           (PyStr.lower (str_or subject "General Education"))))
    /\ forall u, PyDict.get "url" item = Some (VStr u) -> PyStr.has_char " " u = false.
Proof.
  eexists. split; [reflexivity|]. split; [reflexivity|].
  intros u Hu. cbn in Hu. injection Hu as <-.
  rewrite has_char_append, replace_char_removes by reflexivity.
  reflexivity.
Qed.

(** Every fallback item names the subject asked for (or "General
    Education") in its title. *)
Theorem fallback_title_names_subject (content_type : string)
    (subject grade_level : option string) :
  Forall (fun item =>
            exists t, PyDict.get "title" item = Some (VStr t)
                      /\ PyStr.contains (str_or subject "General Education") t = true)
    (_provide_educational_fallback content_type subject grade_level).
Proof.
  unfold _provide_educational_fallback, fallbacks. cbn [get_or_empty].
  destruct (String.eqb content_type "article");
    [| destruct (String.eqb content_type "book");
       [| destruct (String.eqb content_type "paper") ] ];
    cbn [map]; repeat constructor;
    (eexists; split; [reflexivity|]);
    repeat first [apply contains_here | apply contains_later].
Qed.

End FallbackItems.


(** ** The further properties on the data of the test suite *)

Example from_open_library_test_book :
  Book.from_open_library Samples.interpreter Samples.fresh_metadata
    (Datetime.naive Samples.epoch) (Datetime.naive Samples.epoch) Samples.full_ol_data
  = Return (Book.as_object Samples.test_book).
Proof. vm_compute. reflexivity. Qed.

(** A description that is a dictionary, as Open Library sends it for some
    works, a cover id that is a float and a title that is missing: the
    constructor stores what it finds. *)
Example from_open_library_untyped_record :
  match
    Book.from_open_library Samples.interpreter Samples.fresh_metadata
      (Datetime.naive Samples.epoch) (Datetime.naive Samples.epoch)
      [ ("key", VStr "/works/OL1W");
        ("description", VDict [("type", VStr "/type/text"); ("value", VStr "About")]);
        ("cover_i", VFloat 12.5%float);
        ("isbn", VList [VList (repeat VNone 10)]) ]
  with
  | Return b =>
      Some (Book.Object.title b, Book.Object.description b, Book.Object.cover_url b,
            Book.Object.isbn b)
  | Fail _ => None
  end
  = Some (VStr "",
          VDict [("type", VStr "/type/text"); ("value", VStr "About")],
          VStr "https://covers.openlibrary.org/b/id/...-L.jpg",
          VList (repeat VNone 10)).
Proof. vm_compute. reflexivity. Qed.

Example from_open_library_subject_dict :
  Book.from_open_library Samples.interpreter Samples.fresh_metadata
    (Datetime.naive Samples.epoch) (Datetime.naive Samples.epoch)
    [("key", VStr "/works/OL1W"); ("subject", VDict [("Primary", VNone)])]
  = Fail (TypeError "unhashable type: 'slice'").
Proof. vm_compute. reflexivity. Qed.

Example date_of_year_edges :
  (Book.date_of_year (VInt 0), Book.date_of_year (VInt 10000),
   Book.date_of_year (VStr "2020"), Book.date_of_year (VInt (2 ^ 31)))
  = (Return None, Return None, Return None,
     Fail (Book.OverflowError "signed integer is out of range")).
Proof. vm_compute. reflexivity. Qed.

Example replace_is_one_pass :
  PyStr.replace "/works/" "" "/wor/works/ks/OL1W" = "/works/OL1W".
Proof. vm_compute. reflexivity. Qed.

Example has_subject_test :
  (Book.has_subject Samples.test_book "math", Book.has_subject Samples.test_book "Science")
  = (true, false).
Proof. vm_compute. reflexivity. Qed.

Lemma from_open_library_never_grades_3_5_witness :
  Book.Object.is_suitable_for_grade_level (Book.as_object Samples.test_book)
    Base.GRADES_3_5 = false.
Proof.
  apply (from_open_library_never_grades_3_5 Samples.interpreter Samples.fresh_metadata
           (Datetime.naive Samples.epoch) (Datetime.naive Samples.epoch)
           Samples.full_ol_data (Book.as_object Samples.test_book)).
  - reflexivity.
  - vm_compute. reflexivity.
Defined.

Lemma from_open_library_metadata_sizes_witness :
  exists subs,
    Book.Object.subjects (Book.as_object Samples.test_book) = VList (VStr <$> subs)
    /\ length (Base.grade_levels
                 (Book.Object.educational_metadata (Book.as_object Samples.test_book)))
       <= length (Base.grade_levels Samples.fresh_metadata) + length subs
    /\ Base.educational_subjects
         (Book.Object.educational_metadata (Book.as_object Samples.test_book))
       = take 5 subs
    /\ length (Base.educational_subjects
                 (Book.Object.educational_metadata (Book.as_object Samples.test_book)))
       <= 5
    /\ (length subs <= 5 ->
        Base.educational_subjects
          (Book.Object.educational_metadata (Book.as_object Samples.test_book))
        = subs).
Proof.
  apply (from_open_library_metadata_sizes Samples.interpreter Samples.fresh_metadata
           (Datetime.naive Samples.epoch) (Datetime.naive Samples.epoch)
           Samples.full_ol_data (Book.as_object Samples.test_book)).
  vm_compute. reflexivity.
Defined.

Lemma from_open_library_isbn_lengths_witness :
  let b := Book.as_object Samples.test_book in
  (Book.Object.isbn b = VNone \/ Book.py_len (Book.Object.isbn b) = Some 10)
  /\ (Book.Object.isbn13 b = VNone \/ Book.py_len (Book.Object.isbn13 b) = Some 13)
  /\ (forall s, Book.Object.isbn b = VStr s -> String.length s = 10)
  /\ (forall s, Book.Object.isbn13 b = VStr s -> String.length s = 13).
Proof.
  apply (from_open_library_isbn_lengths Samples.interpreter Samples.fresh_metadata
           (Datetime.naive Samples.epoch) (Datetime.naive Samples.epoch)
           Samples.full_ol_data (Book.as_object Samples.test_book)).
  vm_compute. reflexivity.
Defined.


Lemma from_open_library_work_id_witness :
  Book.Object.id (Book.as_object Samples.test_book) = VStr "OL123456W"
  /\ Book.Object.source_url (Book.as_object Samples.test_book)
     = VStr ("https://openlibrary.org/works/" +:+ "OL123456W").
Proof.
  apply (from_open_library_work_id Samples.interpreter Samples.fresh_metadata
           (Datetime.naive Samples.epoch) (Datetime.naive Samples.epoch)
           Samples.full_ol_data "OL123456W" (Book.as_object Samples.test_book)).
  - reflexivity.
  - reflexivity.
  - vm_compute. reflexivity.
Defined.

Lemma from_open_library_missing_data_witness :
  exists b,
    Book.from_open_library Samples.interpreter Samples.fresh_metadata
      (Datetime.naive Samples.epoch) (Datetime.naive Samples.epoch)
      Samples.minimal_ol_data = Return b
    /\ Book.Object.id b = VStr "OL123456W"
    /\ Book.Object.title b = VStr "Minimal Book"
    /\ Book.Object.authors b = VList [] /\ Book.Object.isbn b = VNone
    /\ Book.Object.subjects b = VList [].
Proof.
  eexists. split.
  - apply (from_open_library_missing_data Samples.interpreter Samples.fresh_metadata
             (Datetime.naive Samples.epoch) (Datetime.naive Samples.epoch)
             Samples.minimal_ol_data "/works/OL123456W" "Minimal Book").
    + reflexivity.
    + reflexivity.
    + repeat constructor.
  - vm_compute. repeat split.
Defined.

Lemma from_dict_required_keys_witness :
  PyDict.get "id" (Book.to_dict Base.EducationalMetadata_to_dict Samples.odd_book)
  = Some (Book.Object.id Samples.odd_book)
  /\ PyDict.get "title" (Book.to_dict Base.EducationalMetadata_to_dict Samples.odd_book)
     = Some (Book.Object.title Samples.odd_book).
Proof.
  apply (from_dict_required_keys Samples.interpreter Base.EducationalMetadata_from_dict
           Samples.epoch Samples.epoch
           (Book.to_dict Base.EducationalMetadata_to_dict Samples.odd_book)
           Samples.odd_book).
  vm_compute. reflexivity.
Defined.

Lemma from_dict_reads_only_its_keys_witness :
  Book.from_dict Samples.interpreter Base.EducationalMetadata_from_dict
    Samples.epoch Samples.epoch
    (("educational_value", VFloat 0.9%float) :: Samples.minimal_dict)
  = Book.from_dict Samples.interpreter Base.EducationalMetadata_from_dict
      Samples.epoch Samples.epoch Samples.minimal_dict.
Proof.
  apply (from_dict_reads_only_its_keys Samples.interpreter
           Base.EducationalMetadata_from_dict Samples.epoch Samples.epoch
           (("educational_value", VFloat 0.9%float) :: Samples.minimal_dict)
           Samples.minimal_dict).
  repeat constructor.
Defined.

Lemma from_dict_defaults_witness :
  exists b,
    Book.from_dict Samples.interpreter (fun _ => Return Samples.fresh_metadata)
      Samples.epoch Samples.epoch Samples.minimal_dict = Return b
    /\ Book.Object.language b = VStr "en"
    /\ Book.Object.source b = VStr "open_library"
    /\ Book.Object.created_at b = Datetime.naive Samples.epoch.
Proof.
  eexists. split.
  - apply (from_dict_defaults Samples.interpreter (fun _ => Return Samples.fresh_metadata)
             Samples.epoch Samples.epoch Samples.minimal_dict "OL1W" "Counting"
             Samples.fresh_metadata); try reflexivity.
    repeat constructor.
  - repeat split.
Defined.

Lemma str_shows_message_witness :
  PyStr.contains "Too many requests"
    (Exceptions.str
       (Exceptions.RateLimitError "Too many requests" "arxiv" (Some 3%Z) (Some "slow down")))
  = true.
Proof.
  apply (str_shows_message
           (Exceptions.RateLimitError "Too many requests" "arxiv" (Some 3%Z)
              (Some "slow down")) "Too many requests").
  reflexivity.
Defined.

Lemma uninitialised_tool_rejected_witness :
  Main.dispatch Samples.ascii_upper Samples.no_globals Samples.no_session
    (Main.GetRecentResearch "physics" 7 None 10)
  = ([], Fail (Exceptions.OpenEduMCPError "arXiv tool not properly initialized" None)).
Proof.
  apply (uninitialised_tool_rejected Samples.ascii_upper Samples.no_globals
           Samples.no_session (Main.GetRecentResearch "physics" 7 None 10) Main.Arxiv).
  - reflexivity.
  - reflexivity.
Defined.

Lemma handler_calls_own_tool_witness :
  let r := Samples.handle (Return (VList [])) (Main.GetWordExamples "atom" None None) in
  (fst r = []
   \/ exists obj inv,
        Main.tool_global (Samples.globals_answering (Return (VList []))) Main.Dictionary
        = Some obj
        /\ fst r = [(inv, obj inv)]
        /\ Main.target inv = "dictionary_tool"
        /\ Main.method inv = "get_word_examples")
  /\ (forall v, snd r = Return v -> exists inv, fst r = [(inv, Return v)]).
Proof.
  apply (handler_calls_own_tool Samples.ascii_upper
           (Samples.globals_answering (Return (VList []))) Samples.no_session
           (Main.GetWordExamples "atom" None None) Main.Dictionary).
  reflexivity.
Defined.

Lemma sse_stops_at_disconnect_witness :
  Main.sse_event_generator (repeat Main.quiet_turn 2)
  = (Main.connected_event :: (Main.ping_event <$> seq 1 2), Main.Waiting)
  /\ Main.sse_event_generator
       (repeat Main.quiet_turn 2 ++ Samples.disconnect :: [Main.quiet_turn])
     = (Main.connected_event :: (Main.ping_event <$> seq 1 2), Main.Finished).
Proof.
  apply (sse_stops_at_disconnect 2 Samples.disconnect [Main.quiet_turn]).
  reflexivity.
Defined.

Example sse_error_event :
  Main.sse_event_generator
    [Main.quiet_turn; {| Main.probe := Fail Samples.db_down; Main.sleep := None |}]
  = ([Main.connected_event; Main.ping_event 1; Main.error_event Samples.db_down],
     Main.Finished).
Proof. vm_compute. reflexivity. Qed.

Example reading_level_of_test_book :
  Book.get_reading_level Samples.test_book = "Elementary".
Proof. vm_compute. reflexivity. Qed.


Section Suitability.

Import Base Datetime Book.

Lemma existsb_omap_grade (g : GradeLevel) (subs : list string) :
  existsb (GradeLevel_eqb g) (omap spec_grade_of_subject subs)
  = existsb (fun s => match spec_grade_of_subject s with
                      | Some g' => GradeLevel_eqb g g'
                      | None => false
                      end) subs.
Proof.
  induction subs as [|s subs IH]; [reflexivity|].
  cbn [omap list_omap existsb]. destruct (spec_grade_of_subject s); cbn [existsb];
    rewrite IH; reflexivity.
Qed.

(** The method on an object and the method on a book at its declared types
    are one. *)
Lemma is_suitable_as_object (b : Book) (g : GradeLevel) :
  Object.is_suitable_for_grade_level (as_object b) g = is_suitable_for_grade_level b g.
Proof. reflexivity. Qed.

(** When [EducationalMetadata()] starts without grade levels, a book built
    from an Open Library record is suitable for a grade level exactly when
    one of its subjects falls under that level by the keyword rules. *)
Theorem from_open_library_suitability (py : Interpreter) (fresh : EducationalMetadata)
    (created updated : timestamp) (ol_data : PyDict.t) (b : Object.t) (g : GradeLevel) :
  grade_levels fresh = [] ->
  from_open_library py fresh created updated ol_data = Return b ->
  exists subs,
    Object.subjects b = VList (VStr <$> subs)
    /\ (Object.is_suitable_for_grade_level b g = true
        <-> exists s, In s subs /\ spec_grade_of_subject s = Some g).
Proof.
  intros Hfresh Hb.
  destruct (from_open_library_inv py fresh created updated ol_data b Hb)
    as (work_id & isbns & subs & _ & _ & _ & _ & _ & _ & _ & _ & _ & Hsubs & Hem & _).
  exists subs. split; [exact Hsubs|].
  unfold Object.is_suitable_for_grade_level. rewrite Hem. cbn.
  rewrite infer_grade_levels_omap, Hfresh, app_nil_l, existsb_omap_grade, existsb_exists.
  split.
  - intros (s & Hin & Hs). exists s. split; [exact Hin|].
    destruct (spec_grade_of_subject s) as [g'|]; [|discriminate].
    destruct g, g'; try discriminate; reflexivity.
  - intros (s & Hin & Hs). exists s. split; [exact Hin|]. rewrite Hs.
    destruct g; reflexivity.
Qed.

End Suitability.

Lemma from_open_library_suitability_witness :
  exists subs,
    Book.Object.subjects (Book.as_object Samples.test_book) = VList (VStr <$> subs)
    /\ (Book.Object.is_suitable_for_grade_level (Book.as_object Samples.test_book)
          Base.K_2 = true
        <-> exists s, In s subs /\ Book.spec_grade_of_subject s = Some Base.K_2).
Proof.
  apply (from_open_library_suitability Samples.interpreter Samples.fresh_metadata
           (Datetime.naive Samples.epoch) (Datetime.naive Samples.epoch)
           Samples.full_ol_data (Book.as_object Samples.test_book) Base.K_2).
  - reflexivity.
  - vm_compute. reflexivity.
Defined.
